(** * Plan generation and weekly load guardrail of the training aid (app.py)

    A shallow embedding of the plan pipeline of [app.py]:
    the boxing and generic template generators, the sanitizer of the
    AI-returned sessions, the weekly load guardrail and the orchestrator
    [generate_week_plan], then the adherence summary
    [analyse_adherence_and_rpe], the coach message
    [generate_coaching_message] and the coach answers
    [answer_user_question], followed by the properties established about
    them.

    Conventions of the embedding.
    - Python [int] is [Z]; Python [float] is IEEE binary64, modelled exactly
      by [pyfloat] below (round to nearest, ties to even).
    - Python [str] is [string], holding the UTF-8 bytes of the text.  The
      program only compares case-mapped text against ASCII words
      ("novice", "intermediate", "boxing", "Easy", "Moderate", "Hard"), and
      no text containing a non-ASCII character case-maps to one of these
      words, so case mapping of the ASCII letters decides every test of the
      program as Python does.  The same holds for the keywords searched in
      a lower-cased question ("rpe", "effort", "load", "safe", "injury"):
      the only non-ASCII characters whose lower case holds an ASCII letter
      are U+212A (k) and U+0130 (i followed by U+0307), no keyword has a k,
      and the one i of a keyword is followed by a letter.
    - [SessionPlan] objects are mutable and may be shared: a plan is a list
      of references into a [store]. *)

From Stdlib Require Import ZArith List Lia Bool Ascii DecimalString Sorted SpecFloat.
From stdpp Require Import base option list strings gmap sorting.

Local Open Scope Z_scope.

(** ** Exceptions *)

Inductive exc :=
  | IndexError | TypeError | ValueError | AttributeError
  | OverflowError | ZeroDivisionError
  | ServiceError      (* any exception raised by the text-generation client *)
  | JSONDecodeError
  | DanglingRef.      (* a reference outside the store: no Python program has one *)

Inductive exn (A : Type) : Type :=
  | Ok (a : A)
  | Raise (e : exc).
Arguments Ok {A} a.
Arguments Raise {A} e.

#[global] Instance exn_ret : MRet exn := fun A a => Ok a.
#[global] Instance exn_bind : MBind exn := fun A B f m =>
  match m with
  | Ok a => f a
  | Raise e => Raise e
  end.

Definition is_Ok {A} (m : exn A) : Prop := exists a, m = Ok a.

(** ** Binary64 arithmetic

    A finite double is [Finite m e], standing for [m * 2^e].  The sign of
    zero is not represented: the program only multiplies, divides and
    truncates, and [int(-0.0)] is [0]. *)

Inductive pyfloat :=
  | Finite (m e : Z)
  | Inf (neg : bool)
  | NaN.

(** Nearest integer to [a / b], ties to even, for [0 <= a] and [0 < b]. *)
Definition rne_div (a b : Z) : Z :=
  let q := a / b in
  let r := a mod b in
  if 2 * r <? b then q
  else if b <? 2 * r then q + 1
  else if Z.even q then q else q + 1.

(** [floor (log2 (a / b))] for positive [a], [b]. *)
Definition ilog2_ratio (a b : Z) : Z :=
  let d := Z.log2 a - Z.log2 b in
  if b * 2 ^ Z.max 0 d <=? a * 2 ^ Z.max 0 (- d) then d else d - 1.

(** Exponent of the unit in the last place of binary64 for a value whose
    binary exponent is [e]: 53 bits of precision, subnormals from 2^-1074. *)
Definition ulp_exp (e : Z) : Z := Z.max (e - 52) (-1074).

(** The double nearest to [a / b] with the sign [neg], for positive [a], [b]. *)
Definition round_pos (neg : bool) (a b : Z) : pyfloat :=
  let u := ulp_exp (ilog2_ratio a b) in
  let m := rne_div (a * 2 ^ Z.max 0 (- u)) (b * 2 ^ Z.max 0 u) in
  if 2 ^ (1024 - u) <=? m then Inf neg
  else Finite (if neg then - m else m) u.

(** The double nearest to the rational [num / den], [0 < den]. *)
Definition round_rat (num den : Z) : pyfloat :=
  if num =? 0 then Finite 0 0
  else round_pos (num <? 0) (Z.abs num) den.

(** [float(n)]: raises when [n] is out of the range of doubles. *)
Definition float_of_int (n : Z) : exn pyfloat :=
  match round_rat n 1 with
  | Inf _ => Raise OverflowError
  | f => Ok f
  end.

(** [x * y] on floats: overflow gives an infinity, never an exception. *)
Definition float_mul (x y : pyfloat) : pyfloat :=
  match x, y with
  | NaN, _ | _, NaN => NaN
  | Finite m1 e1, Finite m2 e2 =>
      let m := m1 * m2 in
      let e := e1 + e2 in
      if 0 <=? e then round_rat (m * 2 ^ e) 1 else round_rat m (2 ^ (- e))
  | Inf s, Finite m _ | Finite m _, Inf s =>
      if m =? 0 then NaN else Inf (xorb s (m <? 0))
  | Inf s1, Inf s2 => Inf (xorb s1 s2)
  end.

(** [n * f] with [n : int] and [f : float]: [n] is converted first. *)
Definition int_mul_float (n : Z) (f : pyfloat) : exn pyfloat :=
  x ← float_of_int n; Ok (float_mul x f).

(** [a / b] on ints: the correctly rounded quotient. *)
Definition int_truediv (a b : Z) : exn pyfloat :=
  if b =? 0 then Raise ZeroDivisionError
  else match round_rat (Z.sgn b * a) (Z.abs b) with
       | Inf _ => Raise OverflowError
       | f => Ok f
       end.

(** [int(f)]: truncation toward zero. *)
Definition int_of_float (f : pyfloat) : exn Z :=
  match f with
  | Finite m e => Ok (if 0 <=? e then m * 2 ^ e else Z.quot m (2 ^ (- e)))
  | Inf _ => Raise OverflowError
  | NaN => Raise ValueError
  end.

(** The literals [1.10] and [0.8] of the source, as doubles. *)
Definition lit_1_10 : pyfloat := Finite 4953959590107546 (-52).
Definition lit_0_8 : pyfloat := Finite 7205759403792794 (-53).

(** ** Text *)

Local Open Scope char_scope.

Definition nl : string := String (ascii_of_nat 10) EmptyString.
Definition dquote : string := String (ascii_of_nat 34) EmptyString.
Definition backtick : ascii := ascii_of_nat 96.

Definition is_upper (c : ascii) : bool :=
  (65 <=? nat_of_ascii c)%nat && (nat_of_ascii c <=? 90)%nat.
Definition is_lower (c : ascii) : bool :=
  (97 <=? nat_of_ascii c)%nat && (nat_of_ascii c <=? 122)%nat.
Definition to_lower (c : ascii) : ascii :=
  if is_upper c then ascii_of_nat (nat_of_ascii c + 32) else c.
Definition to_upper (c : ascii) : ascii :=
  if is_lower c then ascii_of_nat (nat_of_ascii c - 32) else c.

(** [s.lower()] *)
Fixpoint lower (s : string) : string :=
  match s with
  | EmptyString => EmptyString
  | String c s' => String (to_lower c) (lower s')
  end.

(** [s.title()]: a letter is upper-cased when the character before it is
    not a letter, lower-cased otherwise. *)
Fixpoint title_from (prev_cased : bool) (s : string) : string :=
  match s with
  | EmptyString => EmptyString
  | String c s' =>
      if is_upper c || is_lower c
      then String (if prev_cased then to_lower c else to_upper c) (title_from true s')
      else String c (title_from false s')
  end.
Definition title (s : string) : string := title_from false s.

(** [str(n)] for an int, as f-strings print it. *)
Definition str_of_int (n : Z) : string := NilZero.string_of_int (Z.to_int n).

(** [s or d] on strings: the empty string is falsy. *)
Definition str_or (s d : string) : string :=
  match s with
  | EmptyString => d
  | _ => s
  end.

(** The characters (code points) of a text, each as a one-character text:
    a byte [10xxxxxx] continues the character before it. *)
Definition is_continuation (c : ascii) : bool :=
  (128 <=? nat_of_ascii c)%nat && (nat_of_ascii c <? 192)%nat.

Fixpoint take_continuation (s : string) : string * string :=
  match s with
  | String c s' =>
      if is_continuation c
      then let '(k, r) := take_continuation s' in (String c k, r)
      else (EmptyString, s)
  | EmptyString => (EmptyString, EmptyString)
  end.

Fixpoint chars_fuel (fuel : nat) (s : string) : list string :=
  match fuel, s with
  | S fuel', String c s' =>
      let '(k, r) := take_continuation s' in
      String c k :: chars_fuel fuel' r
  | _, _ => []
  end.
Definition py_chars (s : string) : list string := chars_fuel (String.length s) s.

Definition concat_str (l : list string) : string := foldr String.append EmptyString l.

Definition bytes (l : list nat) : string :=
  foldr (fun n s => String (ascii_of_nat n) s) EmptyString l.

(** The characters [str.isspace] accepts, in UTF-8. *)
Definition py_whitespace : list string :=
  map bytes
    [ [9]; [10]; [11]; [12]; [13]; [28]; [29]; [30]; [31]; [32];
      [194; 133]; [194; 160]; [225; 154; 128];
      [226; 128; 128]; [226; 128; 129]; [226; 128; 130]; [226; 128; 131];
      [226; 128; 132]; [226; 128; 133]; [226; 128; 134]; [226; 128; 135];
      [226; 128; 136]; [226; 128; 137]; [226; 128; 138];
      [226; 128; 168]; [226; 128; 169]; [226; 128; 175];
      [226; 129; 159]; [227; 128; 128] ]%nat.

Fixpoint drop_while {A} (p : A -> bool) (l : list A) : list A :=
  match l with
  | [] => []
  | x :: l' => if p x then drop_while p l' else l
  end.

Definition strip_with (p : string -> bool) (s : string) : string :=
  concat_str (rev (drop_while p (rev (drop_while p (py_chars s))))).

(** [s.strip()] *)
Definition strip (s : string) : string :=
  strip_with (fun c => bool_decide (c ∈ py_whitespace)) s.

(** [s.strip("`")] *)
Definition strip_backticks (s : string) : string :=
  strip_with (fun c => bool_decide (c = String backtick EmptyString)) s.

(** [s.startswith(p)] *)
Definition startswith (s p : string) : bool := String.prefix p s.

(** [s.replace(old, empty, 1)] for a non-empty [old]: the first
    occurrence of [old] is removed. *)
Fixpoint remove_first (old s : string) : string :=
  if String.prefix old s
  then String.substring (String.length old) (String.length s - String.length old) s
  else match s with
       | EmptyString => EmptyString
       | String c s' => String c (remove_first old s')
       end.

Local Close Scope char_scope.

(** ** Values of the parsed response

    What [json.loads] can return.  A dict is the list of its items; [get]
    takes the first item with the key. *)

#[warnings="-register-all"] Inductive pyval :=
  | PyNone
  | PyBool (b : bool)
  | PyInt (n : Z)
  | PyFloat (f : pyfloat)
  | PyStr (s : string)
  | PyList (l : list pyval)
  | PyDict (d : list (string * pyval)).

Fixpoint assoc_get (d : list (string * pyval)) (k : string) : option pyval :=
  match d with
  | [] => None
  | (k', v) :: d' => if bool_decide (k' = k) then Some v else assoc_get d' k
  end.

(** [v.get(k, dflt)]: only a dict has the method. *)
Definition py_get (v : pyval) (k : string) (dflt : pyval) : exn pyval :=
  match v with
  | PyDict d => Ok (default dflt (assoc_get d k))
  | _ => Raise AttributeError
  end.

(** [for item in v]: the items a [for] loop visits. *)
Definition py_iter (v : pyval) : exn (list pyval) :=
  match v with
  | PyList l => Ok l
  | PyDict d => Ok (map (fun kv => PyStr (fst kv)) d)
  | PyStr s => Ok (map PyStr (py_chars s))
  | _ => Raise TypeError
  end.

(** [v.title()]: only a str has the method. *)
Definition py_title (v : pyval) : exn string :=
  match v with
  | PyStr s => Ok (title s)
  | _ => Raise AttributeError
  end.

(** [v += s] with [s : str]: text is concatenated, a list is extended with
    the characters of [s], anything else raises. *)
Definition py_iadd_str (v : pyval) (s : string) : exn pyval :=
  match v with
  | PyStr t => Ok (PyStr (t +:+ s))
  | PyList l => Ok (PyList (l ++ map PyStr (py_chars s)))
  | _ => Raise TypeError
  end.

(** [l[i]] on a list *)
Definition py_index {A} (l : list A) (i : nat) : exn A :=
  match l !! i with
  | Some x => Ok x
  | None => Raise IndexError
  end.

(** [l.index(x)] *)
Fixpoint list_index (x : string) (l : list string) : exn nat :=
  match l with
  | [] => Raise ValueError
  | y :: l' => if bool_decide (y = x) then Ok 0%nat else i ← list_index x l'; Ok (S i)
  end.

(** [l[:n]]: a negative [n] counts from the end. *)
Definition slice_to {A} (l : list A) (n : Z) : list A :=
  if 0 <=? n then take (Z.to_nat n) l
  else take (Z.to_nat (Z.max 0 (Z.of_nat (length l) + n))) l.

(** ** Session records and the store *)

Record SessionPlan := {
  day : string;
  focus : pyval;
  intensity : string;
  duration_min : Z;
  load_units : Z;
  notes : pyval;
}.

Definition set_load (n : Z) (s : SessionPlan) : SessionPlan :=
  {| day := day s; focus := focus s; intensity := intensity s;
     duration_min := duration_min s; load_units := n; notes := notes s |}.

Definition set_notes (v : pyval) (s : SessionPlan) : SessionPlan :=
  {| day := day s; focus := focus s; intensity := intensity s;
     duration_min := duration_min s; load_units := load_units s; notes := v |}.

(** Objects live in a store and are named by their position in it. *)
Abbreviation ref := nat.
Abbreviation store := (list SessionPlan).

Definition deref (st : store) (r : ref) : exn SessionPlan :=
  match st !! r with
  | Some s => Ok s
  | None => Raise DanglingRef
  end.

Definition DAYS_ORDER : list string :=
  ["Mon"; "Tue"; "Wed"; "Thu"; "Fri"; "Sat"; "Sun"].

(** [day_index.get(d, 99)] with [day_index = {d: i for i, d in enumerate(DAYS_ORDER)}] *)
Definition day_index_get (d : string) : Z :=
  match list_index d DAYS_ORDER with
  | Ok i => Z.of_nat i
  | Raise _ => 99
  end.

(** ** Stable sort by key ([list.sort(key=...)])

    A stable sort is determined by its key function; insertion from the
    right is one. *)

Fixpoint insert_by {A} (key : A -> Z) (x : A) (l : list A) : list A :=
  match l with
  | [] => [x]
  | y :: l' => if key x <=? key y then x :: l else y :: insert_by key x l'
  end.

Definition sort_by_key {A} (key : A -> Z) (l : list A) : list A :=
  foldr (insert_by key) [] l.

(** The sort key of a session of the plan.  Every reference of a plan the
    program builds is in its store. *)
Definition session_key (st : store) (r : ref) : Z :=
  match st !! r with
  | Some s => day_index_get (day s)
  | None => 99
  end.

(** ** Template library ([generate_boxing_sessions_template]) *)

Definition novice_templates (contraindications : string) : list SessionPlan :=
  [ {| day := "Tue";
       focus := PyStr "Boxing basics: stance, guard & straight punches";
       intensity := "Easy–Moderate";
       duration_min := 25;
       load_units := 30;
       notes := PyStr (concat_str
         [ "Warm-up: 5 min skipping or brisk walk."; nl;
           "Technique: 4 × 2 min shadow boxing (jab–cross, basic guard) with 1 min rest."; nl;
           "Bag/pillow: 4 × 1 min straight punches, light power."; nl;
           "Cool-down: 5 min shoulder, wrist and calf stretches."; nl;
           "Contraindications to watch: "; str_or contraindications "None stated"; "." ]) |};
    {| day := "Thu";
       focus := PyStr "Footwork & defence foundations";
       intensity := "Moderate";
       duration_min := 25;
       load_units := 35;
       notes := PyStr (concat_str
         [ "Warm-up: 5 min dynamic mobility (hips, ankles, shoulders)."; nl;
           "Main: 4 × 2 min shadow boxing with basic steps (forward/back/side) and guard up."; nl;
           "Defence drill: 3 × 2 min slip/duck movements in front of mirror or wall."; nl;
           "Core: 3 × 20 s plank, 20 s rest."; nl;
           "Cool-down: 5 min relaxed walk + breathing."; nl;
           "Avoid any movements that aggravate: "; str_or contraindications "None"; "." ]) |};
    {| day := "Sat";
       focus := PyStr "Conditioning: simple intervals + technique";
       intensity := "Moderate";
       duration_min := 30;
       load_units := 40;
       notes := PyStr (concat_str
         [ "Warm-up: 5 min skipping or light jog."; nl;
           "Intervals: 6 × 30 s fast straight punches (shadow or bag) + 60 s easy movement."; nl;
           "Technique: 4 × 2 min shadow boxing, mixing punches with basic defence."; nl;
           "Cool-down: 5–8 min stretch (hips, hamstrings, shoulders)."; nl;
           "Stop if pain or dizziness occurs, especially given: ";
           str_or contraindications "no stated issues"; "." ]) |} ].

Definition intermediate_templates (contraindications : string) : list SessionPlan :=
  [ {| day := "Mon";
       focus := PyStr "Technical combinations & footwork";
       intensity := "Moderate–Hard";
       duration_min := 35;
       load_units := 55;
       notes := PyStr (concat_str
         [ "Warm-up: 5 min skipping + joint mobility."; nl;
           "Combos on bag/shadow: 5 × 3 min (jab–cross–hook, jab–cross–cross–hook), ";
           "60–90 s rest."; nl;
           "Footwork rounds: 3 × 2 min circling and cutting the ring."; nl;
           "Cool-down: 5 min light walk + stretching."; nl;
           "Modify combinations if they aggravate: "; str_or contraindications "None"; "." ]) |};
    {| day := "Wed";
       focus := PyStr "Defence, counters & core";
       intensity := "Moderate";
       duration_min := 35;
       load_units := 50;
       notes := PyStr (concat_str
         [ "Warm-up: 5 min dynamic warm-up."; nl;
           "Defence rounds: 4 × 3 min slips, ducks, parries, then counter 1–2 punches."; nl;
           "Shadow or bag work: 3 × 2 min focusing on clean form at moderate pace."; nl;
           "Core circuit: 3 rounds (20 s plank, 10 sit-ups, 10 Russian twists), 60 s rest."; nl;
           "Respect pain or previous issues: "; str_or contraindications "None"; "." ]) |};
    {| day := "Fri";
       focus := PyStr "Conditioning: intervals & power focus";
       intensity := "Hard";
       duration_min := 35;
       load_units := 60;
       notes := PyStr (concat_str
         [ "Warm-up: 5–7 min."; nl;
           "Intervals: 8 × 30 s high-output bag punching (all punches) + 60 s light movement."; nl;
           "Power focus: 3 × 2 min heavier single shots and 2–3 punch combinations."; nl;
           "Cool-down: 5–8 min stretching & breathing."; nl;
           "Keep technique tidy; reduce power if form breaks under fatigue." ]) |} ].

Definition advanced_templates (contraindications : string) : list SessionPlan :=
  [ {| day := "Tue";
       focus := PyStr "High-complexity combinations & movement";
       intensity := "Hard";
       duration_min := 40;
       load_units := 70;
       notes := PyStr (concat_str
         [ "Warm-up: 8 min mixed skipping + mobility."; nl;
           "Complex combos: 5 × 3 min on bag/pads, mixing level changes and angles."; nl;
           "Footwork intensity: 3 × 2 min high-tempo ring movement."; nl;
           "Cool-down: 5–8 min mobility & stretch."; nl;
           "Monitor joints and previous issues: ";
           str_or contraindications "None declared"; "." ]) |};
    {| day := "Thu";
       focus := PyStr "Defence, counters & conditioning mixed";
       intensity := "Hard";
       duration_min := 40;
       load_units := 70;
       notes := PyStr (concat_str
         [ "Warm-up: 6–8 min."; nl;
           "Defence & counter rounds: 4 × 3 min with slips, blocks and quick counters."; nl;
           "Conditioning: 6 × 30 s punch sprints + 60 s active rest."; nl;
           "Core & stability: 3 × 30 s plank variations."; nl;
           "Cool-down as normal; adjust if any warning signs." ]) |};
    {| day := "Sat";
       focus := PyStr "Mixed technical conditioning (no full sparring)";
       intensity := "Moderate–Hard";
       duration_min := 40;
       load_units := 65;
       notes := PyStr (concat_str
         [ "Warm-up: 6–8 min."; nl;
           "Shadow rounds: 3 × 3 min visualising an opponent."; nl;
           "Bag rounds: 4 × 3 min mixing power and volume."; nl;
           "Cool-down: 5–8 min."; nl;
           "If usually sparring, this tool deliberately avoids contact to reduce risk." ]) |} ].

(** The catalog chosen by the lower-cased level; any other level gets the
    advanced catalog. *)
Definition boxing_templates (level contraindications : string) : list SessionPlan :=
  let level := lower level in
  if bool_decide (level = "novice") then novice_templates contraindications
  else if bool_decide (level = "intermediate") then intermediate_templates contraindications
  else advanced_templates contraindications.

(** [while len(sessions) < n: sessions.append(x)], by the number of
    iterations left. *)
Fixpoint append_while_shorter {A} (fuel : nat) (n : Z) (x : A) (sessions : list A) : list A :=
  match fuel with
  | O => sessions
  | S fuel' =>
      if Z.of_nat (length sessions) <? n
      then append_while_shorter fuel' n x (sessions ++ [x])
      else sessions
  end.

(** The three template objects are allocated at references 0, 1 and 2;
    [templates.copy()] copies the list of references, not the objects, and
    [sessions.append(templates[0])] appends the reference of the first. *)
Definition generate_boxing_sessions_template
    (level : string) (sessions_per_week : Z) (contraindications : string)
    : exn (store * list ref) :=
  let st : store := boxing_templates level contraindications in
  let templates : list ref := seq 0 (length st) in
  sessions ←
    (if sessions_per_week <=? Z.of_nat (length templates)
     then Ok (slice_to templates sessions_per_week)
     else t0 ← py_index templates 0;
          Ok (append_while_shorter (Z.to_nat sessions_per_week) sessions_per_week t0 templates));
  Ok (st, sort_by_key (session_key st) sessions).

(** ** Generic template ([generate_generic_sessions_template])

    [range(n)] is [0, ..., n-1]; session [i] is a fresh object, allocated at
    reference [i].  The list is returned in the order it was built. *)
Definition generic_session (sport contraindications : string) (i : nat) : exn SessionPlan :=
  day ← py_index DAYS_ORDER ((i * 2) mod length DAYS_ORDER)%nat;
  Ok {| day := day;
        focus := PyStr (concat_str
          [ sport; " conditioning session "; str_of_int (Z.of_nat i + 1) ]);
        intensity := "Moderate";
        duration_min := 30;
        load_units := 40;
        notes := PyStr (concat_str
          [ "Warm-up: 5–10 min easy movement."; nl;
            "Main: intervals or tempo work relevant to the sport."; nl;
            "Cool-down: 5–10 min mobility & stretching."; nl;
            "Contraindications to respect: ";
            str_or contraindications "None stated"; "." ]) |}.

Fixpoint generic_loop (sport contraindications : string) (range : list nat)
    (sessions : list SessionPlan) : exn (list SessionPlan) :=
  match range with
  | [] => Ok sessions
  | i :: range' =>
      s ← generic_session sport contraindications i;
      generic_loop sport contraindications range' (sessions ++ [s])
  end.

Definition generate_generic_sessions_template
    (sport level : string) (sessions_per_week : Z) (contraindications : string)
    : exn (store * list ref) :=
  st ← generic_loop sport contraindications (seq 0 (Z.to_nat sessions_per_week)) [];
  Ok (st, seq 0 (length st)).

(** ** AI plan requester ([generate_sessions_ai])

    The collaborators outside the program: whether a client was configured,
    the chat completion (one request: from the user prompt to the text of
    the first choice, or an exception), [json.loads], and [int] on a str.
    A request acts on the world outside the program, whose state [W] it
    reads and changes; the other two are functions. *)

Record services (W : Type) := {
  OPENAI_AVAILABLE : bool;
  chat_completion : string -> W -> exn string * W;
  json_loads : string -> exn pyval;
  int_of_str : string -> exn Z;
}.
Arguments OPENAI_AVAILABLE {W} _.
Arguments chat_completion {W} _ _ _.
Arguments json_loads {W} _ _.
Arguments int_of_str {W} _ _.

Definition INTENSITIES : list string := ["Easy"; "Moderate"; "Hard"].

(** [{"Easy": 1, "Moderate": 2, "Hard": 3}.get(intensity, 2)] *)
Definition intensity_factor (intensity : string) : Z :=
  if bool_decide (intensity = "Easy") then 1
  else if bool_decide (intensity = "Moderate") then 2
  else if bool_decide (intensity = "Hard") then 3
  else 2.

Definition total_minutes_target (level : string) (sessions_per_week last_week_load : Z) : exn Z :=
  let level_lower := lower level in
  if last_week_load <=? 0 then
    if bool_decide (level_lower = "novice") then Ok (sessions_per_week * 25)
    else if bool_decide (level_lower = "intermediate") then Ok (sessions_per_week * 35)
    else Ok (sessions_per_week * 40)
  else
    x ← int_mul_float last_week_load lit_0_8;
    n ← int_of_float x;
    Ok (Z.max 60 (Z.min 300 n)).

Definition safety_context : string :=
  concat_str
    [ "General rules:"; nl;
      "- Focus on non-contact, non-maximal work."; nl;
      "- Use body-weight, light conditioning, or bag/shadow work (for boxing)."; nl;
      "- No heavy barbell max testing, no dangerous plyometrics."; nl;
      "- Encourage listening to the body, stopping if anything feels sharp or worrying."; nl ].

Definition build_prompt (sport level : string) (sessions_per_week target : Z)
    (contraindications : string) : string :=
  concat_str
    [ "Design a safe one-week training plan for a recreational athlete."; nl;
      "Return ONLY valid JSON with a list under key 'sessions', no extra commentary."; nl; nl;
      "Sport: "; sport; nl;
      "Level: "; level; nl;
      "Approximate sessions per week: "; str_of_int sessions_per_week; nl;
      "Approximate total minutes target: "; str_of_int target; nl;
      "Things to be careful with: "; str_or contraindications "None stated"; nl; nl;
      safety_context; nl;
      "For each session, include fields:"; nl;
      "- day: one of Mon, Tue, Wed, Thu, Fri, Sat, Sun"; nl;
      "- focus: short description of the main aim (e.g., 'Intervals and tempo work')"; nl;
      "- intensity: 'Easy', 'Moderate', or 'Hard'"; nl;
      "- duration_min: integer between 20 and 60 minutes"; nl;
      "- notes: outline warm-up, main part and cool-down in plain language"; nl; nl;
      "Example JSON structure:"; nl;
      "{"; nl;
      "  "; dquote; "sessions"; dquote; ": ["; nl;
      "    {"; nl;
      "      "; dquote; "day"; dquote; ": "; dquote; "Tue"; dquote; ","; nl;
      "      "; dquote; "focus"; dquote; ": "; dquote; "Easy aerobic base run"; dquote; ","; nl;
      "      "; dquote; "intensity"; dquote; ": "; dquote; "Easy"; dquote; ","; nl;
      "      "; dquote; "duration_min"; dquote; ": 30,"; nl;
      "      "; dquote; "notes"; dquote; ": "; dquote;
                "Warm-up: ... Main: ... Cool-down: ..."; dquote; nl;
      "    }"; nl;
      "  ]"; nl;
      "}"; nl ].

(** The fence of a fenced code block is removed before parsing. *)
Definition strip_fence (content : string) : string :=
  let raw := strip content in
  if startswith raw "```"
  then strip (remove_first "json" (strip_backticks raw))
  else raw.

(** [day = item.get("day", "Mon"); if day not in DAYS_ORDER: day = "Mon"]:
    only a str can be equal to a member of [DAYS_ORDER]. *)
Definition canonical_day (v : pyval) : string :=
  match v with
  | PyStr s => if bool_decide (s ∈ DAYS_ORDER) then s else "Mon"
  | _ => "Mon"
  end.

(** The inner [for offset in range(len(DAYS_ORDER))] loop: the first
    candidate day not in [used_days], if there is one. *)
Fixpoint scan_days (base_index : nat) (offsets : list nat) (used_days : gset string)
    : exn (option string) :=
  match offsets with
  | [] => Ok None
  | offset :: offsets' =>
      candidate_day ← py_index DAYS_ORDER ((base_index + offset) mod length DAYS_ORDER)%nat;
      if bool_decide (candidate_day ∈ used_days)
      then scan_days base_index offsets' used_days
      else Ok (Some candidate_day)
  end.

Definition safety_postscript (contraindications : string) : string :=
  concat_str
    [ nl; nl;
      "If anything feels sharp, unusual or worrying, stop or reduce intensity. ";
      "Context to remember: ";
      str_or contraindications "no specific issues noted"; "." ].

Section AIPath.
Context {W : Type} (svc : services W).

(** [int(v)] *)
Definition py_int (v : pyval) : exn Z :=
  match v with
  | PyInt n => Ok n
  | PyBool b => Ok (if b then 1 else 0)
  | PyFloat f => int_of_float f
  | PyStr s => int_of_str svc s
  | PyNone | PyList _ | PyDict _ => Raise TypeError
  end.

(** The body of the [for item in sessions_data] loop after the [break]
    test: the session built from [item], and the days used after it. *)
Definition sanitize_item (sport contraindications : string)
    (item : pyval) (used_days : gset string) : exn (SessionPlan * gset string) :=
  raw_day ← py_get item "day" (PyStr "Mon");
  let day := canonical_day raw_day in
  base_index ← list_index day DAYS_ORDER;
  found ← scan_days base_index (seq 0 (length DAYS_ORDER)) used_days;
  let '(day, used_days) :=
    match found with
    | Some candidate_day => (candidate_day, {[candidate_day]} ∪ used_days)
    | None => (day, used_days)
    end in
  focus ← py_get item "focus" (PyStr (sport +:+ " session"));
  raw_intensity ← py_get item "intensity" (PyStr "Moderate");
  intensity ← py_title raw_intensity;
  let intensity :=
    if bool_decide (intensity ∈ INTENSITIES) then intensity else "Moderate" in
  raw_duration ← py_get item "duration_min" (PyInt 30);
  duration ← py_int raw_duration;
  let duration := Z.max 20 (Z.min 60 duration) in
  let factor := intensity_factor intensity in
  let load_units := factor * duration in
  raw_notes ← py_get item "notes" (PyStr EmptyString);
  notes ← py_iadd_str raw_notes (safety_postscript contraindications);
  Ok ({| day := day; focus := focus; intensity := intensity;
         duration_min := duration; load_units := load_units; notes := notes |},
      used_days).

(** The [for item in sessions_data] loop; session [k] is allocated at
    reference [k], so [sessions] is the store as it grows. *)
Fixpoint sanitize_loop (sport contraindications : string) (sessions_per_week : Z)
    (items : list pyval) (sessions : list SessionPlan) (used_days : gset string)
    : exn (list SessionPlan) :=
  match items with
  | [] => Ok sessions
  | item :: items' =>
      if sessions_per_week <=? Z.of_nat (length sessions) then Ok sessions
      else
        '(s, used_days') ← sanitize_item sport contraindications item used_days;
        sanitize_loop sport contraindications sessions_per_week items'
          (sessions ++ [s]) used_days'
  end.

(** The [try] block from the text of the response on. *)
Definition sessions_of_content
    (sport : string) (sessions_per_week : Z) (contraindications content : string)
    : exn (option (store * list ref)) :=
  let raw := strip_fence content in
  data ← json_loads svc raw;
  sessions_data ← py_get data "sessions" (PyList []);
  items ← py_iter sessions_data;
  st ← sanitize_loop sport contraindications sessions_per_week items [] ∅;
  match st with
  | [] => Ok None
  | _ => Ok (Some (st, sort_by_key (session_key st) (seq 0 (length st))))
  end.

(** The [try] block: its result and the world it leaves.  The request is
    its one step on the world. *)
Definition generate_sessions_ai_try
    (sport level : string) (sessions_per_week last_week_load : Z)
    (contraindications : string) (w : W) : exn (option (store * list ref)) * W :=
  match total_minutes_target level sessions_per_week last_week_load with
  | Raise e => (Raise e, w)
  | Ok target =>
      let prompt :=
        build_prompt sport level sessions_per_week target contraindications in
      let (response, w') := chat_completion svc prompt w in
      (content ← response;
       sessions_of_content sport sessions_per_week contraindications content,
       w')
  end.

(** [None] is the failure signal; [except Exception: return None]. *)
Definition generate_sessions_ai
    (sport level : string) (sessions_per_week last_week_load : Z)
    (contraindications : string) (w : W) : option (store * list ref) * W :=
  if negb (OPENAI_AVAILABLE svc) then (None, w)
  else
    let (r, w') :=
      generate_sessions_ai_try sport level sessions_per_week last_week_load
        contraindications w in
    (match r with
     | Ok r => r
     | Raise _ => None
     end, w').
End AIPath.

(** ** Load guardrail ([apply_weekly_load_guardrail]) *)

(** [sum(s.load_units for s in sessions)] *)
Fixpoint sum_load_units (st : store) (sessions : list ref) : exn Z :=
  match sessions with
  | [] => Ok 0
  | r :: sessions' =>
      s ← deref st r;
      total ← sum_load_units st sessions';
      Ok (load_units s + total)
  end.

(** [max(int(last_week_load * 1.10), last_week_load + 20)] *)
Definition allowed_max_of (last_week_load : Z) : exn Z :=
  x ← int_mul_float last_week_load lit_1_10;
  n ← int_of_float x;
  Ok (Z.max n (last_week_load + 20)).

Definition load_check_note (current_total last_week_load : Z) : string :=
  concat_str
    [ nl; nl; "Load check: planned weekly load "; str_of_int current_total; " vs ";
      "last week "; str_of_int last_week_load; " (within approximately +10% rule)." ].

Definition guardrail_note (last_week_load allowed_max : Z) : string :=
  concat_str
    [ nl; nl; "Load guardrail applied: weekly load reduced to stay within ";
      "+10% of last week ("; str_of_int last_week_load; " → target ≤ ";
      str_of_int allowed_max; ")." ].

(** [max(20, int(load_units * factor))] *)
Definition scaled_load (factor : pyfloat) (load : Z) : exn Z :=
  x ← int_mul_float load factor;
  n ← int_of_float x;
  Ok (Z.max 20 n).

(** The body of [for s in sessions], on the object [s]. *)
Definition scale_record (factor : pyfloat) (note : string) (s : SessionPlan)
    : exn SessionPlan :=
  load ← scaled_load factor (load_units s);
  notes' ← py_iadd_str (notes s) note;
  Ok (set_notes notes' (set_load load s)).

(** One iteration of [for s in sessions]: the object behind [r] is updated
    in the store. *)
Definition scale_session (factor : pyfloat) (note : string) (st : store) (r : ref)
    : exn store :=
  s ← deref st r;
  s' ← scale_record factor note s;
  Ok (<[r := s']> st).

Fixpoint scale_loop (factor : pyfloat) (note : string) (st : store) (sessions : list ref)
    : exn store :=
  match sessions with
  | [] => Ok st
  | r :: sessions' =>
      st' ← scale_session factor note st r;
      scale_loop factor note st' sessions'
  end.

Definition apply_weekly_load_guardrail
    (st : store) (sessions : list ref) (last_week_load : Z) : exn (store * list ref) :=
  if last_week_load <=? 0 then Ok (st, sessions)
  else
    current_total ← sum_load_units st sessions;
    allowed_max ← allowed_max_of last_week_load;
    if current_total <=? allowed_max then
      r0 ← py_index sessions 0;
      s ← deref st r0;
      notes' ← py_iadd_str (notes s) (load_check_note current_total last_week_load);
      Ok (<[r0 := set_notes notes' s]> st, sessions)
    else
      factor ← int_truediv allowed_max current_total;
      st' ← scale_loop factor (guardrail_note last_week_load allowed_max) st sessions;
      Ok (st', sessions).

(** ** Orchestrator ([generate_week_plan]) *)

Definition template_sessions
    (sport level : string) (sessions_per_week : Z) (contraindications : string)
    : exn (store * list ref) :=
  if bool_decide (lower sport = "boxing")
  then generate_boxing_sessions_template level sessions_per_week contraindications
  else generate_generic_sessions_template sport level sessions_per_week contraindications.

Definition generate_week_plan {W : Type} (svc : services W)
    (sport level : string) (sessions_per_week last_week_load : Z)
    (contraindications : string) (w : W) : exn (store * list ref) * W :=
  let (ai_sessions, w') :=
    generate_sessions_ai svc sport level sessions_per_week last_week_load
      contraindications w in
  (plan ←
     match ai_sessions with
     | Some (st, (_ :: _) as sessions) => Ok (st, sessions)
     | _ => template_sessions sport level sessions_per_week contraindications
     end;
   apply_weekly_load_guardrail plan.1 plan.2 last_week_load,
   w').

(** The plan as a reader sees it: the record behind each entry. *)
Definition view (st : store) (sessions : list ref) : list (option SessionPlan) :=
  map (fun r => st !! r) sessions.

(** ** Adherence summary ([analyse_adherence_and_rpe]) *)

(** The order of two dyadic values [m1 * 2^e1] and [m2 * 2^e2]. *)
Definition dyadic_compare (m1 e1 m2 e2 : Z) : comparison :=
  let e := Z.min e1 e2 in
  (m1 * 2 ^ (e1 - e)) ?= (m2 * 2 ^ (e2 - e)).

(** Comparison of floats; a NaN is unordered. *)
Definition float_compare (x y : pyfloat) : option comparison :=
  match x, y with
  | NaN, _ | _, NaN => None
  | Finite m1 e1, Finite m2 e2 => Some (dyadic_compare m1 e1 m2 e2)
  | Inf s1, Inf s2 => Some (if Bool.eqb s1 s2 then Eq else if s1 then Lt else Gt)
  | Inf s, Finite _ _ => Some (if s then Lt else Gt)
  | Finite _ _, Inf s => Some (if s then Gt else Lt)
  end.

(** [x >= y] and [x <= y] on floats. *)
Definition float_geb (x y : pyfloat) : bool :=
  match float_compare x y with
  | Some Gt | Some Eq => true
  | _ => false
  end.

Definition float_leb (x y : pyfloat) : bool :=
  match float_compare x y with
  | Some Lt | Some Eq => true
  | _ => false
  end.

(** [x >= n] and [x <= n] with [n : int]: Python compares the exact
    values, and [n] is the dyadic [n * 2^0]. *)
Definition float_geb_int (x : pyfloat) (n : Z) : bool := float_geb x (Finite n 0).
Definition float_leb_int (x : pyfloat) (n : Z) : bool := float_leb x (Finite n 0).

(** [f * n] with [f : float] and [n : int]: [n] is converted first. *)
Definition float_mul_int (f : pyfloat) (n : Z) : exn pyfloat :=
  x ← float_of_int n; Ok (float_mul f x).

(** The literal [0.7] of the source, as a double. *)
Definition lit_0_7 : pyfloat := Finite 6305039478318694 (-53).

(** [s.rjust(d, "0")] *)
Definition pad_zeros (d : nat) (s : string) : string :=
  concat_str (replicate (d - String.length s) "0") +:+ s.

(** [format(x, ".<d>f")]: the decimal with [d] digits after the point that
    is nearest to the exact value of [x], ties to even. *)
Definition format_fixed (d : nat) (x : pyfloat) : string :=
  match x with
  | NaN => "nan"
  | Inf s => if s then "-inf" else "inf"
  | Finite m e =>
      let a := Z.abs m * 10 ^ Z.of_nat d in
      let n := if 0 <=? e then a * 2 ^ e else rne_div a (2 ^ (- e)) in
      concat_str
        [ if m <? 0 then "-" else EmptyString;
          str_of_int (n / 10 ^ Z.of_nat d);
          match d with
          | O => EmptyString
          | _ => "." +:+ pad_zeros d (str_of_int (n mod 10 ^ Z.of_nat d))
          end ]
  end.

(** [bool(v)] *)
Definition py_truthy (v : pyval) : bool :=
  match v with
  | PyNone => false
  | PyBool b => b
  | PyInt n => negb (n =? 0)
  | PyFloat (Finite m _) => negb (m =? 0)
  | PyFloat _ => true
  | PyStr s => match s with EmptyString => false | _ => true end
  | PyList l => match l with [] => false | _ => true end
  | PyDict d => match d with [] => false | _ => true end
  end.

(** [isinstance(v, int)]: a bool is an int. *)
Definition py_is_int (v : pyval) : option Z :=
  match v with
  | PyInt n => Some n
  | PyBool b => Some (if b then 1 else 0)
  | _ => None
  end.

(** [sep.join(parts)] *)
Fixpoint join (sep : string) (parts : list string) : string :=
  match parts with
  | [] => EmptyString
  | [x] => x
  | x :: parts' => x +:+ sep +:+ join sep parts'
  end.

(** [[d for d in adherence_data if d.get("completed")]] *)
Fixpoint completed_of (adherence_data : list pyval) : exn (list pyval) :=
  match adherence_data with
  | [] => Ok []
  | d :: data' =>
      c ← py_get d "completed" PyNone;
      rest ← completed_of data';
      Ok (if py_truthy c then d :: rest else rest)
  end.

(** [[d["rpe"] for d in completed if isinstance(d.get("rpe"), int)]]: an
    entry that passes the test has the key, and [d["rpe"]] is the value the
    test looked at. *)
Fixpoint rpes_of (completed : list pyval) : exn (list Z) :=
  match completed with
  | [] => Ok []
  | d :: completed' =>
      v ← py_get d "rpe" PyNone;
      rest ← rpes_of completed';
      Ok (match py_is_int v with
          | Some n => n :: rest
          | None => rest
          end)
  end.

Definition sum_Z (l : list Z) : Z := foldr Z.add 0 l.

Definition adherence_sentence (completed total : Z) (percent : pyfloat) : string :=
  concat_str
    [ "You completed "; str_of_int completed; " of "; str_of_int total; " sessions ";
      "("; format_fixed 0 percent; "% adherence)." ].

Definition effort_sentence (avg_rpe : pyfloat) : string :=
  concat_str
    [ " Average effort on completed sessions was about "; format_fixed 1 avg_rpe; "/10." ].

Definition advice_high : string :=
  concat_str
    [ " That is quite high. Next week, it may be safer to hold or slightly ";
      "reduce intensity rather than pushing further." ].

Definition advice_low : string :=
  concat_str
    [ " Effort scores are low and consistency is good. A small progression ";
      "next week may be reasonable if everything feels comfortable." ].

Definition advice_steady : string :=
  " Effort looks broadly appropriate. Keep aiming for this balance of challenge and control.".

(** The [if avg_rpe >= 8 ... elif avg_rpe <= 3 and comp_rate >= 0.7 ... else]
    chain. *)
Definition effort_advice (avg_rpe comp_rate : pyfloat) : string :=
  if float_geb_int avg_rpe 8 then advice_high
  else if float_leb_int avg_rpe 3 && float_geb comp_rate lit_0_7 then advice_low
  else advice_steady.

Definition analyse_adherence_and_rpe (adherence_data : list pyval) : exn (option string) :=
  match adherence_data with
  | [] => Ok None
  | _ =>
      completed ← completed_of adherence_data;
      let total := Z.of_nat (length adherence_data) in
      comp_rate ←
        (if total =? 0 then Ok (Finite 0 0)
         else int_truediv (Z.of_nat (length completed)) total);
      rpes ← rpes_of completed;
      avg_rpe ←
        match rpes with
        | [] => Ok None
        | _ => avg ← int_truediv (sum_Z rpes) (Z.of_nat (length rpes)); Ok (Some avg)
        end;
      percent ← float_mul_int comp_rate 100;
      let msg_parts :=
        [ adherence_sentence (Z.of_nat (length completed)) total percent ] in
      let msg_parts :=
        match avg_rpe with
        | Some avg => msg_parts ++ [ effort_sentence avg; effort_advice avg comp_rate ]
        | None => msg_parts
        end in
      Ok (Some (join " " msg_parts))
  end.

(** The entry the adherence form builds for one session:
    [{"completed": done, "rpe": rpe}]. *)
Definition form_entry (e : bool * Z) : pyval :=
  PyDict [("completed", PyBool e.1); ("rpe", PyInt e.2)].

(** ** Coach message and coach answers
    ([generate_coaching_message], [answer_user_question])

    A chat request, and the client: whether one was configured, and
    [client.chat.completions.create(...)] read as
    [response.choices[0].message.content], which is a text, [None], or an
    exception (of the request, or of reading the first choice).  A request
    acts on the world outside the program. *)

Record chat_request := {
  req_model : string;
  req_system : string;
  req_user : string;
  req_max_tokens : Z;
  req_temperature : pyfloat;
}.

Record chat_client (W : Type) := {
  client_available : bool;
  create_chat : chat_request -> W -> exn (option string) * W;
}.
Arguments client_available {W} _.
Arguments create_chat {W} _ _ _.

(** [needle in s] on text *)
Fixpoint contains (needle s : string) : bool :=
  String.prefix needle s
  || match s with
     | EmptyString => false
     | String _ s' => contains needle s'
     end.

(** [content.strip()]: [None] has no such method. *)
Definition strip_content (content : option string) : exn string :=
  match content with
  | Some text => Ok (strip text)
  | None => Raise AttributeError
  end.

(** [v or d] *)
Definition py_or (v d : pyval) : pyval := if py_truthy v then v else d.

Definition coaching_fallback : string :=
  concat_str
    [ "This week is about consistent, safe work. Focus on clean technique, ";
      "controlled breathing, and honest pacing. If anything feels sharp, ";
      "unusual or worrying, ease back or rest instead of forcing it. ";
      "Small, steady sessions will build confidence and fitness over time." ].

Definition question_prompt : string :=
  "Please type a question about your plan, training load, RPE, or safety.".

Definition reply_rpe : string :=
  concat_str
    [ "RPE stands for Rate of Perceived Exertion, from 1 (very easy) to 10 (maximum effort). ";
      "Choose the number that best matches how hard the session felt overall." ].

Definition reply_load : string :=
  concat_str
    [ "Unit load combines how long and how hard you worked. Roughly: ";
      "longer sessions and harder efforts mean higher load. It helps keep weekly increases safe." ].

Definition reply_safety : string :=
  concat_str
    [ "The tool keeps sessions between about 20–60 minutes and limits weekly increases in load. ";
      "It is still important to listen to your body and stop if anything feels sharp or worrying." ].

Definition reply_general : string :=
  concat_str
    [ "This coach focuses on safe training structure: sessions, effort, and weekly progression. ";
      "It cannot give medical advice. You can ask about RPE, load, why rest days appear, ";
      "or how to think about progression." ].

Definition reply_problem : string :=
  concat_str
    [ "There was a problem generating a detailed answer. ";
      "As a reminder: RPE is how hard it felt (1–10), and load is a rough measure of ";
      "training stress combining time and effort." ].

(** The replies without a client, by the first keyword found in the
    lower-cased question. *)
Definition offline_reply (question : string) : string :=
  let q_lower := lower question in
  if contains "rpe" q_lower || contains "effort" q_lower then reply_rpe
  else if contains "load" q_lower then reply_load
  else if contains "safe" q_lower || contains "injury" q_lower then reply_safety
  else reply_general.

Section Coach.
Context {W : Type} (client : chat_client W).
(** [str(v)] of a float, a list or a dict, which is not modelled. *)
Context (repr_value : pyval -> string).

(** [str(v)], as an f-string prints a value. *)
Definition py_str (v : pyval) : string :=
  match v with
  | PyStr s => s
  | PyInt n => str_of_int n
  | PyNone => "None"
  | PyBool b => if b then "True" else "False"
  | PyFloat _ | PyList _ | PyDict _ => repr_value v
  end.

Definition session_summary (s : SessionPlan) : string :=
  concat_str
    [ day s; ": "; py_str (focus s); " ("; intensity s; ", ";
      str_of_int (duration_min s); " min)" ].

Definition coaching_prompt (sessions : list SessionPlan) (sport level : string) : string :=
  let total_load := sum_Z (map load_units sessions) in
  let total_minutes := sum_Z (map duration_min sessions) in
  let session_summary := join "; " (map session_summary sessions) in
  concat_str
    [ "You are a calm, supportive sports coach. ";
      "Write a short motivational message (120–160 words) for this week. ";
      "Keep it safe, realistic and encouraging. Highlight pacing, rest, ";
      "technique quality, and listening to the body. Avoid medical advice ";
      "and do not promise specific results."; nl; nl;
      "Sport: "; sport; nl;
      "Level: "; level; nl;
      "Weekly minutes: "; str_of_int total_minutes; nl;
      "Weekly load units: "; str_of_int total_load; nl;
      "Sessions: "; session_summary; nl ].

Definition coaching_request (sessions : list SessionPlan) (sport level : string)
    : chat_request :=
  {| req_model := "gpt-4.1-mini";
     req_system := "You are a safe, encouraging sports coach.";
     req_user := coaching_prompt sessions sport level;
     req_max_tokens := 220;
     req_temperature := lit_0_8 |}.

Definition generate_coaching_message
    (sessions : list SessionPlan) (sport level : string) (use_ai : bool) (w : W)
    : string * W :=
  if negb use_ai || negb (client_available client) then (coaching_fallback, w)
  else
    let (response, w') := create_chat client (coaching_request sessions sport level) w in
    (match (content ← response;
            text ← strip_content content;
            Ok (str_or text coaching_fallback)) with
     | Ok text => text
     | Raise _ => coaching_fallback
     end, w').

(** One entry of the list the [for s in plan_sessions] loop builds. *)
Definition stored_summary (s : pyval) : exn string :=
  day ← py_get s "day" PyNone;
  focus ← py_get s "focus" PyNone;
  intensity ← py_get s "intensity" PyNone;
  duration_min ← py_get s "duration_min" PyNone;
  Ok (concat_str
        [ py_str day; ": "; py_str focus; " ";
          "("; py_str intensity; ", "; py_str duration_min; " min)" ]).

Fixpoint stored_summaries (plan_sessions : list pyval) : exn (list string) :=
  match plan_sessions with
  | [] => Ok []
  | s :: rest =>
      line ← stored_summary s;
      lines ← stored_summaries rest;
      Ok (line :: lines)
  end.

Definition answer_context (sport level : pyval) (session_text : string) : string :=
  concat_str
    [ "You are an in-app coaching assistant. Answer questions about the training plan, ";
      "RPE, load, and safety in simple, friendly language. Do NOT give medical advice or ";
      "talk about internal implementation details. Do not mention any models or APIs.";
      nl; nl;
      "Current sport: "; py_str sport; nl;
      "Level: "; py_str level; nl;
      "Sessions: "; session_text; nl; nl;
      "RPE explanation: 1–10 scale of how hard it felt. 1 = very easy, 10 = maximum effort.";
      nl;
      "Load units: an internal number that combines how long and how hard sessions are. ";
      "Higher numbers mean more training stress."; nl ].

Definition answer_request (context question : string) : chat_request :=
  {| req_model := "gpt-4.1-mini";
     req_system := context;
     req_user := question;
     req_max_tokens := 250;
     req_temperature := lit_0_7 |}.

(** The part of the [try] block before the request. *)
Definition answer_context_of (plan_sessions sport level : pyval) : exn string :=
  items ← py_iter plan_sessions;
  session_summaries ← stored_summaries items;
  let session_text :=
    match session_summaries with
    | [] => "No plan generated yet."
    | _ => join "; " session_summaries
    end in
  Ok (answer_context sport level session_text).

(** [session_state] is the page's state, a mapping. *)
Definition answer_user_question
    (session_state : list (string * pyval)) (question : string) (w : W)
    : exn string * W :=
  if bool_decide (question = EmptyString) || bool_decide (strip question = EmptyString)
  then (Ok question_prompt, w)
  else
    let plan_sessions :=
      py_or (default PyNone (assoc_get session_state "plan_sessions")) (PyList []) in
    let plan_meta := default (PyDict []) (assoc_get session_state "plan_meta") in
    match py_get plan_meta "sport" (PyStr "Not set"),
          py_get plan_meta "level" (PyStr "Not set") with
    | Raise e, _ => (Raise e, w)
    | Ok _, Raise e => (Raise e, w)
    | Ok sport, Ok level =>
        if negb (client_available client) then (Ok (offline_reply question), w)
        else
          match answer_context_of plan_sessions sport level with
          | Raise _ => (Ok reply_problem, w)
          | Ok context =>
              let (response, w') :=
                create_chat client (answer_request context question) w in
              (match (content ← response; strip_content content) with
               | Ok text => Ok text
               | Raise _ => Ok reply_problem
               end, w')
          end
    end.
End Coach.

(** * Vocabulary of the specification *)

(** Doubles in the unit interval. *)
Definition unit_float (f : pyfloat) : Prop :=
  exists m k, f = Finite m (- k) /\ 0 <= k /\ 0 <= m <= 2 ^ k.

(** Notes that [+=] accepts: text, or a list. *)
Definition appendable (v : pyval) : Prop :=
  match v with
  | PyStr _ | PyList _ => True
  | _ => False
  end.

(** Records the guardrail processes without an exception. *)
Definition ok_record (s : SessionPlan) : Prop :=
  Z.abs (load_units s) < 2 ^ 53 /\ appendable (notes s).

(** The session fields the guardrail never writes. *)
Definition same_frame (s s' : SessionPlan) : Prop :=
  day s' = day s /\ focus s' = focus s /\ intensity s' = intensity s
  /\ duration_min s' = duration_min s.

(** [k] applications of the loop body to one object. *)
Fixpoint scale_record_n (factor : pyfloat) (note : string) (k : nat) (s : SessionPlan)
    : exn SessionPlan :=
  match k with
  | O => Ok s
  | S k' => s' ← scale_record factor note s; scale_record_n factor note k' s'
  end.

(** References a guardrail run can process: in the store, with a
    convertible load and appendable notes. *)
Definition ok_refs (st : store) (sessions : list ref) : Prop :=
  Forall (fun r => exists s, st !! r = Some s /\ ok_record s) sessions.

(** The spec's rounding of a positive rational to the nearest integer. *)
Definition round_nearest (p q : Z) : Z := rne_div p q.

(** The load the claim expects: [max(20, round(old * allowed_max / current_total))]. *)
Definition claimed_load (old allowed_max current_total : Z) : Z :=
  Z.max 20 (round_nearest (old * allowed_max) current_total).

(** The loads a reader sees down the plan. *)
Definition loads_of (st : store) (sessions : list ref) : list (option Z) :=
  map (fun r => load_units <$> st !! r) sessions.

(** Sorted by key, as a stable sort leaves a list. *)
Definition sorted_by {A} (key : A -> Z) (l : list A) : Prop :=
  StronglySorted (fun x y => key x <= key y) l.

(** [k] applications of the scaling formula to one load. *)
Fixpoint scaled_load_n (factor : pyfloat) (k : nat) (x : Z) : exn Z :=
  match k with
  | O => Ok x
  | S k' => x' ← scaled_load factor x; scaled_load_n factor k' x'
  end.

(** The spec's rule: starting at the canonical index, scan forward
    cyclically and take the first day not already assigned. *)
Definition first_free_day (base_index : nat) (used_days : gset string) : option string :=
  find (fun d => bool_decide (d ∉ used_days)) (rotate base_index DAYS_ORDER).

(** The days a reader sees down the plan. *)
Definition plan_days (st : store) (sessions : list ref) : list (option string) :=
  map (fun r => day <$> st !! r) sessions.

(** No API key: no client.  The world counts the requests made. *)
Definition unconfigured : services nat :=
  {| OPENAI_AVAILABLE := false;
     chat_completion := fun _ n => (Raise ServiceError, S n);
     json_loads := fun _ => Raise JSONDecodeError;
     int_of_str := fun _ => Raise ValueError |}.

(** A response with a repeated day, a day that is not text, an
    out-of-range and a fractional duration, and notes that are a list. *)
Definition demo_response : pyval :=
  PyDict [("sessions",
    PyList [ PyDict [("day", PyStr "Sun"); ("intensity", PyStr "hard");
                     ("duration_min", PyInt 90)];
             PyDict [("day", PyStr "Sun"); ("duration_min", PyFloat (Finite 5 (-1)))];
             PyDict [("day", PyInt 3); ("notes", PyList [])] ])].

(** A client that answers every request with [demo_response]; the world
    counts the requests made. *)
Definition demo_services : services nat :=
  {| OPENAI_AVAILABLE := true;
     chat_completion := fun _ n => (Ok "{...}", S n);
     json_loads := fun _ => Ok demo_response;
     int_of_str := fun _ => Raise ValueError |}.

(** A client whose every request fails, and one whose every response is
    not JSON. *)
Definition failing_services : services nat :=
  {| OPENAI_AVAILABLE := true;
     chat_completion := fun _ n => (Raise ServiceError, S n);
     json_loads := fun _ => Raise JSONDecodeError;
     int_of_str := fun _ => Raise ValueError |}.

Definition garbled_services : services nat :=
  {| OPENAI_AVAILABLE := true;
     chat_completion := fun _ n => (Ok "Sorry, I cannot help.", S n);
     json_loads := fun _ => Raise JSONDecodeError;
     int_of_str := fun _ => Raise ValueError |}.

(** A response whose days are a repeated day, a day that is not text, and
    text that is not one of the seven days. *)
Definition loose_days_response : pyval :=
  PyDict [("sessions",
    PyList [ PyDict [("day", PyStr "Sun")];
             PyDict [("day", PyStr "Sun")];
             PyDict [("day", PyInt 3)];
             PyDict [("day", PyStr "Monday")];
             PyDict [("day", PyStr "sat")] ])].

Definition loose_days_services : services nat :=
  {| OPENAI_AVAILABLE := true;
     chat_completion := fun _ n => (Ok "{...}", S n);
     json_loads := fun _ => Ok loose_days_response;
     int_of_str := fun _ => Raise ValueError |}.

(** A minimal record with a given load. *)
Definition plain_session (load : Z) : SessionPlan :=
  {| day := "Mon"; focus := PyStr "Run"; intensity := "Easy";
     duration_min := 20; load_units := load; notes := PyStr EmptyString |}.

(** The loads of the plan after the guardrail. *)
Definition guardrail_loads (st : store) (sessions : list ref) (L : Z)
    : exn (list (option Z)) :=
  p ← apply_weekly_load_guardrail st sessions L; Ok (loads_of p.1 p.2).

(** Same focus, intensity, duration and load. *)
Definition same_modulo_notes (s t : SessionPlan) : Prop :=
  focus s = focus t /\ intensity s = intensity t
  /\ duration_min s = duration_min t /\ load_units s = load_units t.

(** The claim of C6 at its weakest reading: every entry of the returned
    plan at an index above 3 duplicates catalog entry 0. *)
Definition duplicates_beyond_3 (level : string) (n : Z) (c : string) : Prop :=
  forall st sessions i r s t0,
    generate_boxing_sessions_template level n c = Ok (st, sessions) ->
    (3 < i)%nat -> sessions !! i = Some r -> st !! r = Some s ->
    boxing_templates level c !! 0%nat = Some t0 ->
    same_modulo_notes s t0.

(** A double as a value of the Standard Library's specification of
    binary64 ([SpecFloat], precision 53, maximal exponent 1024), in its
    canonical form. *)
Definition to_spec (f : pyfloat) : spec_float :=
  match f with
  | Finite m e => binary_normalize 53 1024 m e false
  | Inf s => S754_infinity s
  | NaN => S754_nan
  end.

(** The double of an int in [SpecFloat]. *)
Definition spec_of_int (n : Z) : spec_float := binary_normalize 53 1024 n 0 false.

(** Equality of [SpecFloat] values, the two zeros identified. *)
Definition spec_eqb (x y : spec_float) : bool :=
  match x, y with
  | S754_zero _, S754_zero _ => true
  | S754_infinity s, S754_infinity s' => Bool.eqb s s'
  | S754_nan, S754_nan => true
  | S754_finite s m e, S754_finite s' m' e' =>
      Bool.eqb s s' && (m =? m')%positive && (e =? e')
  | _, _ => false
  end.

(** Agreement of [a / b], of [x * (a / b)] and of the rounding of
    [m * 2^e] with [SpecFloat]'s division, multiplication and
    normalization. *)
Definition agrees_div (a b : Z) : bool :=
  spec_eqb (to_spec (round_rat (Z.sgn b * a) (Z.abs b)))
           (SFdiv 53 1024 (spec_of_int a) (spec_of_int b)).

Definition agrees_mul (x a b : Z) : bool :=
  spec_eqb (to_spec (float_mul (round_rat x 1) (round_rat a b)))
           (SFmul 53 1024 (spec_of_int x)
              (SFdiv 53 1024 (spec_of_int a) (spec_of_int b))).

Definition agrees_round (m e : Z) : bool :=
  match (if 0 <=? e then round_rat (m * 2 ^ e) 1 else round_rat m (2 ^ (- e))) with
  | Finite m' e' =>
      spec_eqb (binary_normalize 53 1024 m' e' false) (binary_normalize 53 1024 m e false)
      && (Z.abs m' <=? 2 ^ 53) && (-1074 <=? e')
  | Inf s => spec_eqb (S754_infinity s) (binary_normalize 53 1024 m e false)
  | NaN => false
  end.

(** ** Vocabulary of the further properties *)

(** The order in which the generic generator hands out the days. *)
Definition generic_days : list string :=
  ["Mon"; "Wed"; "Fri"; "Sun"; "Tue"; "Thu"; "Sat"].

(** The number of entries of the plan whose load is at the floor of 20. *)
Definition at_floor (st : store) (sessions : list ref) : nat :=
  length (filter (fun r => load_units <$> st !! r = Some 20) sessions).

(** What the sanitizer guarantees of every session it builds. *)
Definition sanitized (s : SessionPlan) : Prop :=
  day s ∈ DAYS_ORDER /\ intensity s ∈ INTENSITIES
  /\ 20 <= duration_min s <= 60
  /\ load_units s = intensity_factor (intensity s) * duration_min s
  /\ appendable (notes s).

(** The limits every session of a plan keeps. *)
Definition within_limits (s : SessionPlan) : Prop :=
  20 <= duration_min s <= 60 /\ 20 <= load_units s <= 180.

(** Plans whose every entry names a record the guardrail can process and
    that is within the limits. *)
Definition plan_within_limits (st : store) (sessions : list ref) : Prop :=
  Forall (fun r => exists s, st !! r = Some s /\ ok_record s /\ within_limits s) sessions.

(** A response wrapped in a fenced code block with a language tag. *)
Definition fenced (tag body : string) : string :=
  concat_str [ "```"; tag; nl; body; nl; "```" ].

(** Text that does not begin inside a character. *)
Definition starts_plain (s : string) : Prop :=
  match s with
  | EmptyString => True
  | String c _ => is_continuation c = false
  end.

(** The sessions ticked as completed, and the sum of their effort scores. *)
Definition done_entries (es : list (bool * Z)) : list (bool * Z) :=
  List.filter fst es.

Definition effort_total (es : list (bool * Z)) : Z :=
  sum_Z (map snd (done_entries es)).

(** The advice the exact quotients select. *)
Definition advice_for (s k n : Z) : string :=
  if 8 * k <=? s then advice_high
  else if (s <=? 3 * k) && (7 * n <=? 10 * k) then advice_low
  else advice_steady.

(** The text of a JSON object, and the object in a block tagged json. *)
Definition json_object (mid : string) : string :=
  String "{"%char (mid +:+ "}").

Definition json_block (mid : string) : string :=
  "```json" +:+ nl +:+ json_object mid +:+ nl +:+ "```".

(** No client, and a client that answers every request with the same
    text; the world counts the requests made. *)
Definition offline_client : chat_client nat :=
  {| client_available := false;
     create_chat := fun _ n => (Raise ServiceError, S n) |}.

Definition echo_client (text : string) : chat_client nat :=
  {| client_available := true;
     create_chat := fun _ n => (Ok (Some text), S n) |}.

(** Session records as the page stores them: each a dict. *)
Definition stored_plan (plan : option pyval) : Prop :=
  plan = None \/ plan = Some PyNone
  \/ exists items, plan = Some (PyList items) /\ Forall (fun s => exists d, s = PyDict d) items.

(** A stand-in for the text of floats and containers. *)
Definition plain_repr (v : pyval) : string := "...".

(** A response whose items name distinct days. *)
Definition tidy_items : list pyval :=
  [ PyDict [("day", PyStr "Wed")]; PyDict [("day", PyStr "Mon"); ("intensity", PyStr "easy")] ].

(** Three sessions of the adherence form: two completed, with efforts 7
    and 8. *)
Definition form_week : list (bool * Z) := [(true, 7); (true, 8); (false, 0)].

(** ** Tactics *)

(** Both sides are tests [a <=? b]: decide each and compare. *)
Ltac decide_lebs :=
  repeat match goal with
         | |- context [?a <=? ?b] => destruct (Z.leb_spec a b)
         end;
  first [reflexivity | exfalso; nia].

(** A closed text that is not empty. *)
Ltac nonempty_text :=
  let H := fresh in
  intros H; apply (f_equal String.length) in H; vm_compute in H; discriminate H.

(** * Properties *)

(** ** Rounding to binary64 *)

Lemma rne_div_le_int a b v :
  0 <= a -> 0 < b -> a <= v * b -> rne_div a b <= v.
Proof.
  intros Ha Hb Hv. unfold rne_div.
  pose proof (Z.div_mod a b ltac:(lia)) as Hdm.
  pose proof (Z.mod_pos_bound a b Hb) as Hr.
  assert (Hq : a / b <= v) by (apply Z.div_le_upper_bound; lia).
  assert (Hq1 : 0 < a mod b -> a / b + 1 <= v) by nia.
  repeat case_match; lia.
Qed.

Lemma rne_div_ge_int a b v :
  0 < b -> v * b <= a -> v <= rne_div a b.
Proof.
  intros Hb Hv. unfold rne_div.
  assert (Hq : v <= a / b) by (apply Z.div_le_lower_bound; lia).
  repeat case_match; lia.
Qed.

Lemma rne_div_exact a b : 0 < b -> rne_div (a * b) b = a.
Proof.
  intros Hb. unfold rne_div.
  rewrite Z.mod_mul, Z.div_mul by lia.
  case_match; [done|lia].
Qed.

Lemma ilog2_ratio_lt a b k :
  0 < a -> 0 < b -> 0 <= k -> a < b * 2 ^ k -> ilog2_ratio a b < k.
Proof.
  intros Ha Hb Hk Hlt.
  destruct (Z_lt_ge_dec (ilog2_ratio a b) k) as [|Hge]; [done|exfalso].
  assert (Hlow : b * 2 ^ ilog2_ratio a b <= a).
  { unfold ilog2_ratio in *.
    set (d := Z.log2 a - Z.log2 b) in *.
    pose proof (Z.log2_spec a Ha) as [Ha1 Ha2].
    pose proof (Z.log2_spec b Hb) as [Hb1 Hb2].
    pose proof (Z.log2_nonneg a). pose proof (Z.log2_nonneg b).
    destruct (b * 2 ^ Z.max 0 d <=? a * 2 ^ Z.max 0 (- d)) eqn:Ht.
    - apply Z.leb_le in Ht.
      rewrite (Z.max_r 0 d), (Z.max_l 0 (- d)) in Ht by lia.
      rewrite Z.pow_0_r in Ht. lia.
    - assert (Hd : 1 <= d) by lia.
      assert (Hpow : 2 ^ Z.log2 a = 2 ^ (Z.log2 b + 1) * 2 ^ (d - 1)).
      { rewrite <- Z.pow_add_r by lia. f_equal. lia. }
      replace (Z.succ (Z.log2 b)) with (Z.log2 b + 1) in Hb2 by lia.
      assert (0 < 2 ^ (d - 1)) by (apply Z.pow_pos_nonneg; lia).
      nia. }
  assert (2 ^ k <= 2 ^ ilog2_ratio a b) by (apply Z.pow_le_mono_r; lia).
  nia.
Qed.

Lemma round_pos_small neg a b :
  0 < a -> 0 < b -> a < b * 2 ^ 53 ->
  exists m k, round_pos neg a b = Finite (if neg then - m else m) (- k)
    /\ 0 <= k <= 1074 /\ m = rne_div (a * 2 ^ k) b
    /\ forall j, 0 <= j <= 53 -> a < b * 2 ^ (53 - j) -> j <= k.
Proof.
  intros Ha Hb Hlt.
  pose proof (ilog2_ratio_lt a b 53 Ha Hb ltac:(lia) Hlt) as He.
  unfold round_pos. set (e := ilog2_ratio a b) in *.
  set (u := ulp_exp e).
  assert (Hu : -1074 <= u <= 0) by (unfold u, ulp_exp; lia).
  rewrite (Z.max_r 0 (- u)), (Z.max_l 0 u) by lia.
  rewrite Z.pow_0_r, Z.mul_1_r.
  set (m := rne_div (a * 2 ^ (- u)) b).
  assert (Hp : 0 < 2 ^ (- u)) by (apply Z.pow_pos_nonneg; lia).
  assert (Hm : m <= 2 ^ 53 * 2 ^ (- u)).
  { apply rne_div_le_int; [nia|lia|nia]. }
  assert (Hbig : 2 ^ 53 * 2 ^ (- u) < 2 ^ (1024 - u)).
  { rewrite <- Z.pow_add_r by lia. apply Z.pow_lt_mono_r; lia. }
  destruct (2 ^ (1024 - u) <=? m) eqn:Hov; [apply Z.leb_le in Hov; lia|].
  exists m, (- u). rewrite Z.opp_involutive.
  split; [done|]. split; [lia|]. split; [done|].
  intros j Hj Hlt'.
  pose proof (ilog2_ratio_lt a b (53 - j) Ha Hb ltac:(lia) Hlt') as He'.
  fold e in He'. unfold u, ulp_exp. lia.
Qed.

(** A rational [p / q] of magnitude below [2^(53-j)] lying between
    [lo / 2^j] and [hi / 2^j] rounds to a double between the same bounds. *)
Lemma round_rat_between p q j lo hi :
  0 < q -> 0 <= j <= 53 -> Z.abs p < q * 2 ^ (53 - j) ->
  lo * q <= p * 2 ^ j <= hi * q ->
  exists m k, round_rat p q = Finite m (- k) /\ 0 <= k
    /\ lo * 2 ^ k <= m * 2 ^ j <= hi * 2 ^ k.
Proof.
  intros Hq Hj Hmag Hb.
  assert (Hpj : 0 < 2 ^ j) by (apply Z.pow_pos_nonneg; lia).
  assert (Hmono : 2 ^ (53 - j) <= 2 ^ 53) by (apply Z.pow_le_mono_r; lia).
  unfold round_rat. destruct (p =? 0) eqn:Hp0.
  - apply Z.eqb_eq in Hp0. subst p.
    exists 0, 0. change (- 0) with 0. split; [done|]. split; [done|].
    rewrite Z.pow_0_r. nia.
  - apply Z.eqb_neq in Hp0.
    destruct (round_pos_small (p <? 0) (Z.abs p) q) as (m & k & -> & Hk & Hm & Hjk);
      [lia|lia|nia|].
    specialize (Hjk j Hj Hmag).
    assert (Hpk : 0 < 2 ^ (k - j)) by (apply Z.pow_pos_nonneg; lia).
    assert (Hsplit : 2 ^ k = 2 ^ (k - j) * 2 ^ j).
    { rewrite <- Z.pow_add_r by lia. f_equal. lia. }
    destruct (p <? 0) eqn:Hsgn.
    + apply Z.ltb_lt in Hsgn. rewrite Z.abs_neq in Hm by lia.
      exists (- m), k. split; [done|]. split; [lia|].
      assert (m <= (- lo) * 2 ^ (k - j)).
      { subst m. apply rne_div_le_int; [nia|lia|]. rewrite Hsplit. nia. }
      assert ((- hi) * 2 ^ (k - j) <= m).
      { subst m. apply rne_div_ge_int; [lia|]. rewrite Hsplit. nia. }
      rewrite Hsplit. nia.
    + apply Z.ltb_ge in Hsgn. rewrite Z.abs_eq in Hm by lia.
      exists m, k. split; [done|]. split; [lia|].
      assert (m <= hi * 2 ^ (k - j)).
      { subst m. apply rne_div_le_int; [nia|lia|]. rewrite Hsplit. nia. }
      assert (lo * 2 ^ (k - j) <= m).
      { subst m. apply rne_div_ge_int; [lia|]. rewrite Hsplit. nia. }
      rewrite Hsplit. nia.
Qed.

(** Truncation of a dyadic between two integers stays between them. *)
Lemma quot_between m d lo hi :
  0 < d -> lo * d <= m <= hi * d -> lo <= Z.quot m d <= hi.
Proof.
  intros Hd Hb.
  destruct (Z_le_gt_dec 0 m).
  - rewrite Z.quot_div_nonneg by lia.
    split; [apply Z.div_le_lower_bound; lia|].
    destruct (Z_le_gt_dec 0 hi); [|nia].
    apply Z.div_le_upper_bound; lia.
  - rewrite <- (Z.opp_involutive m), Z.quot_opp_l by lia.
    rewrite Z.quot_div_nonneg by lia.
    assert (- hi <= - m / d) by (apply Z.div_le_lower_bound; lia).
    assert (- m / d <= - lo).
    { destruct (Z_le_gt_dec 0 (- lo)); [|nia].
      apply Z.div_le_upper_bound; lia. }
    lia.
Qed.

Lemma int_of_float_finite m k :
  0 <= k -> int_of_float (Finite m (- k)) = Ok (Z.quot m (2 ^ k)).
Proof.
  intros Hk. unfold int_of_float. rewrite Z.opp_involutive.
  destruct (0 <=? - k) eqn:H; [|done].
  apply Z.leb_le in H. assert (k = 0) as -> by lia.
  change (- 0) with 0. rewrite !Z.pow_0_r, Z.quot_1_r. f_equal. lia.
Qed.

Lemma float_of_int_exact n :
  Z.abs n < 2 ^ 53 ->
  exists k, 0 <= k /\ float_of_int n = Ok (Finite (n * 2 ^ k) (- k)).
Proof.
  intros Hn. unfold float_of_int, round_rat.
  destruct (n =? 0) eqn:Hn0.
  - apply Z.eqb_eq in Hn0. subst. exists 0. done.
  - apply Z.eqb_neq in Hn0.
    destruct (round_pos_small (n <? 0) (Z.abs n) 1) as (m & k & -> & Hk & Hm & _);
      [lia|lia|lia|].
    exists k. split; [lia|]. do 2 f_equal.
    replace (Z.abs n * 2 ^ k) with (Z.abs n * 2 ^ k * 1) in Hm by lia.
    rewrite rne_div_exact in Hm by lia. subst m.
    destruct (n <? 0) eqn:Hs; [apply Z.ltb_lt in Hs|apply Z.ltb_ge in Hs]; lia.
Qed.

Lemma float_mul_finite m1 k1 m2 k2 :
  0 <= k1 -> 0 <= k2 ->
  float_mul (Finite m1 (- k1)) (Finite m2 (- k2)) = round_rat (m1 * m2) (2 ^ (k1 + k2)).
Proof.
  intros H1 H2. unfold float_mul.
  destruct (0 <=? - k1 + - k2) eqn:He.
  - apply Z.leb_le in He. assert (k1 = 0) as -> by lia. assert (k2 = 0) as -> by lia.
    simpl. by rewrite Z.mul_1_r.
  - do 2 f_equal. lia.
Qed.

(** [int(n * f)] for an exactly representable [n] and a double [f = m / 2^k]:
    the product is computed exactly, rounded once and truncated. *)
Lemma int_mul_float_between n m k j lo hi :
  Z.abs n < 2 ^ 53 -> 0 <= k -> 0 <= j <= 53 ->
  Z.abs (n * m) < 2 ^ k * 2 ^ (53 - j) ->
  lo * 2 ^ k <= n * m * 2 ^ j <= hi * 2 ^ k ->
  exists m' k', int_mul_float n (Finite m (- k)) = Ok (Finite m' (- k')) /\ 0 <= k'
    /\ lo * 2 ^ k' <= m' * 2 ^ j <= hi * 2 ^ k'.
Proof.
  intros Hn Hk Hj Hmag Hb.
  destruct (float_of_int_exact n Hn) as (k1 & Hk1 & Hf).
  unfold int_mul_float. rewrite Hf. unfold mbind, exn_bind.
  rewrite float_mul_finite by lia.
  assert (Hp1 : 0 < 2 ^ k1) by (apply Z.pow_pos_nonneg; lia).
  assert (Hpk : 0 < 2 ^ k) by (apply Z.pow_pos_nonneg; lia).
  destruct (round_rat_between (n * 2 ^ k1 * m) (2 ^ (k1 + k)) j lo hi)
    as (m' & k' & Hr & Hk' & Hb').
  - apply Z.pow_pos_nonneg; lia.
  - done.
  - rewrite Z.pow_add_r by lia.
    replace (n * 2 ^ k1 * m) with (n * m * 2 ^ k1) by lia.
    rewrite Z.abs_mul, (Z.abs_eq (2 ^ k1)) by lia. nia.
  - rewrite Z.pow_add_r by lia. nia.
  - exists m', k'. rewrite Hr. done.
Qed.

(** [int(last_week_load * 1.10)] is the integer part of eleven tenths. *)
Lemma int_mul_1_10 L :
  0 <= L < 2 ^ 48 ->
  (x ← int_mul_float L lit_1_10; int_of_float x) = Ok (11 * L / 10).
Proof.
  intros HL. set (n := 11 * L / 10).
  assert (Hn : 10 * n <= 11 * L < 10 * n + 10).
  { unfold n. pose proof (Z.div_mod (11 * L) 10 ltac:(lia)).
    pose proof (Z.mod_pos_bound (11 * L) 10 ltac:(lia)). lia. }
  destruct (int_mul_float_between L 4953959590107546 52 4 (16 * n) (16 * n + 15))
    as (m' & k' & Hr & Hk' & Hb'); [lia|lia|lia|lia|lia|].
  assert (Hlit : lit_1_10 = Finite 4953959590107546 (Z.opp 52)) by reflexivity.
  rewrite Hlit, Hr. unfold mbind, exn_bind. rewrite int_of_float_finite by done.
  f_equal.
  assert (Hp : 0 < 2 ^ k') by (apply Z.pow_pos_nonneg; lia).
  change (2 ^ 4) with 16 in Hb'.
  assert (0 <= n) by lia. assert (0 <= m') by nia.
  rewrite Z.quot_div_nonneg by lia.
  symmetry. apply Z.div_unique with (m' - n * 2 ^ k'); nia.
Qed.

Lemma allowed_max_of_spec L :
  0 <= L < 2 ^ 48 -> allowed_max_of L = Ok (Z.max (11 * L / 10) (L + 20)).
Proof.
  intros HL. unfold allowed_max_of.
  pose proof (int_mul_1_10 L HL) as H.
  destruct (int_mul_float L lit_1_10) as [x|]; simpl in *; [|done].
  by rewrite H.
Qed.

Lemma int_truediv_unit a b :
  0 <= a <= b -> 0 < b -> exists f, int_truediv a b = Ok f /\ unit_float f.
Proof.
  intros Ha Hb. unfold int_truediv.
  destruct (b =? 0) eqn:Hb0; [apply Z.eqb_eq in Hb0; lia|].
  rewrite Z.sgn_pos, Z.mul_1_l, Z.abs_eq by lia.
  destruct (round_rat_between a b 0 0 1) as (m & k & -> & Hk & Hm); [lia..|].
  exists (Finite m (- k)). split; [done|]. exists m, k.
  rewrite Z.pow_0_r in Hm. split; [done|]. split; [done|]. lia.
Qed.

(** Scaling by a factor of the unit interval moves a load toward zero, and
    the floor of 20 is applied after it. *)
Lemma scaled_load_spec f x :
  unit_float f -> Z.abs x < 2 ^ 53 ->
  exists t, scaled_load f x = Ok (Z.max 20 t)
    /\ (0 <= x -> 0 <= t <= x) /\ (x <= 0 -> x <= t <= 0).
Proof.
  intros (m & k & -> & Hk & Hm) Hx.
  assert (Hp : 0 < 2 ^ k) by (apply Z.pow_pos_nonneg; lia).
  destruct (int_mul_float_between x m k 0 (Z.min 0 x) (Z.max 0 x))
    as (m' & k' & Hr & Hk' & Hb'); [lia|lia|lia|..].
  - rewrite Z.abs_mul, (Z.abs_eq m) by lia. nia.
  - rewrite Z.pow_0_r. nia.
  - unfold scaled_load. rewrite Hr. unfold mbind, exn_bind.
    rewrite int_of_float_finite by done. exists (Z.quot m' (2 ^ k')). split; [done|].
    assert (Hp' : 0 < 2 ^ k') by (apply Z.pow_pos_nonneg; lia).
    rewrite Z.pow_0_r in Hb'.
    pose proof (quot_between m' (2 ^ k') (Z.min 0 x) (Z.max 0 x) Hp' ltac:(lia)).
    lia.
Qed.

(** ** The guardrail on the store *)

Lemma bind_Ok {A B} (m : exn A) (f : A -> exn B) b :
  (m ≫= f) = Ok b -> exists a, m = Ok a /\ f a = Ok b.
Proof. destruct m as [a|e]; [eauto|done]. Qed.

Lemma deref_Ok st r s : deref st r = Ok s <-> st !! r = Some s.
Proof. unfold deref. destruct (st !! r); split; intros; simplify_eq; done. Qed.

Lemma py_iadd_str_appendable v note :
  appendable v -> exists v', py_iadd_str v note = Ok v' /\ appendable v'.
Proof. destruct v; simpl; try done; eauto. Qed.

Lemma py_iadd_str_Ok v note v' :
  py_iadd_str v note = Ok v' -> appendable v /\ appendable v'.
Proof. destruct v; simpl; intros; simplify_eq; done. Qed.

Lemma same_frame_refl s : same_frame s s.
Proof. by repeat split. Qed.

Lemma same_frame_trans s1 s2 s3 :
  same_frame s1 s2 -> same_frame s2 s3 -> same_frame s1 s3.
Proof. unfold same_frame. intros (?&?&?&?) (?&?&?&?). repeat split; congruence. Qed.

Lemma scale_record_Ok factor note s s' :
  scale_record factor note s = Ok s' ->
  scaled_load factor (load_units s) = Ok (load_units s')
  /\ py_iadd_str (notes s) note = Ok (notes s')
  /\ same_frame s s'.
Proof.
  unfold scale_record. intros H.
  apply bind_Ok in H as (load & Hload & H).
  apply bind_Ok in H as (notes' & Hnotes & H).
  simplify_eq. simpl. by repeat split.
Qed.

Lemma scale_record_ok factor note s :
  unit_float factor -> ok_record s ->
  exists s', scale_record factor note s = Ok s' /\ ok_record s'
    /\ 20 <= load_units s' <= Z.max 20 (load_units s).
Proof.
  intros Hf [Hload Hnotes].
  destruct (scaled_load_spec factor (load_units s) Hf Hload) as (t & Ht & Hpos & Hneg).
  destruct (py_iadd_str_appendable _ note Hnotes) as (v' & Hv' & Happ).
  unfold scale_record. rewrite Ht, Hv'. simpl.
  eexists. split; [done|]. unfold ok_record. simpl.
  split; [split; [lia|done]|]. lia.
Qed.

Lemma scale_record_n_frame factor note k : forall s s',
  scale_record_n factor note k s = Ok s' -> same_frame s s'.
Proof.
  induction k as [|k IH]; intros s s' H; simpl in H.
  - simplify_eq. apply same_frame_refl.
  - apply bind_Ok in H as (s1 & H1 & H).
    apply scale_record_Ok in H1 as (_ & _ & Hfr).
    eapply same_frame_trans; eauto.
Qed.

(** The loop applies the body to each object once per occurrence of its
    reference in the list. *)
Lemma scale_loop_spec factor note sessions : forall st st',
  scale_loop factor note st sessions = Ok st' ->
  length st' = length st
  /\ forall r s, st !! r = Some s ->
       exists s', st' !! r = Some s'
         /\ scale_record_n factor note (count_occ Nat.eq_dec sessions r) s = Ok s'.
Proof.
  induction sessions as [|r0 sessions IH]; intros st st' H; simpl in H.
  - simplify_eq. split; [done|]. intros r s Hr. exists s. done.
  - apply bind_Ok in H as (st1 & H1 & H).
    unfold scale_session in H1.
    apply bind_Ok in H1 as (s0 & Hs0 & H1).
    apply bind_Ok in H1 as (s0' & Hs0' & H1).
    apply deref_Ok in Hs0. simplify_eq.
    destruct (IH _ _ H) as (Hlen & Hrec).
    rewrite length_insert in Hlen. split; [done|].
    intros r s Hr. simpl.
    destruct (Nat.eq_dec r0 r) as [->|Hne].
    + simplify_eq.
      destruct (Hrec r s0') as (s' & Hs' & Hn).
      { apply list_lookup_insert_eq. by eapply lookup_lt_Some. }
      exists s'. split; [done|]. simpl. by rewrite Hs0'.
    + destruct (Hrec r s) as (s' & Hs' & Hn).
      { by rewrite list_lookup_insert_ne. }
      exists s'. done.
Qed.

Lemma scale_record_n_ok factor note k : forall s,
  unit_float factor -> ok_record s ->
  exists s', scale_record_n factor note k s = Ok s' /\ ok_record s'
    /\ (k <> 0%nat -> 20 <= load_units s')
    /\ load_units s' <= Z.max 20 (load_units s).
Proof.
  induction k as [|k IH]; intros s Hf Hs; simpl.
  - exists s. split; [done|]. split; [done|]. split; [done|]. lia.
  - destruct (scale_record_ok factor note s Hf Hs) as (s1 & -> & Hs1 & Hb1). simpl.
    destruct (IH s1 Hf Hs1) as (s' & Hs'eq & Hs' & Hlo & Hhi).
    exists s'. split; [done|]. split; [done|]. split; [|lia].
    intros _. destruct k as [|k]; [simpl in Hs'eq; simplify_eq; lia|].
    apply Hlo. lia.
Qed.

Lemma scale_loop_ok factor note sessions : forall st,
  unit_float factor -> ok_refs st sessions ->
  exists st', scale_loop factor note st sessions = Ok st'.
Proof.
  induction sessions as [|r0 sessions IH]; intros st Hf Hok; simpl.
  - eauto.
  - apply Forall_cons in Hok as [(s0 & Hs0 & Hrec0) Hok].
    destruct (scale_record_ok factor note s0 Hf Hrec0) as (s0' & Hs0' & Hrec0' & _).
    unfold scale_session, deref. rewrite Hs0. simpl. rewrite Hs0'. simpl.
    apply IH; [done|].
    eapply Forall_impl; [exact Hok|]. intros r (s & Hs & Hrec). simpl.
    destruct (Nat.eq_dec r0 r) as [->|Hne].
    + exists s0'. split; [|done].
      apply list_lookup_insert_eq. by eapply lookup_lt_Some.
    + exists s. by rewrite list_lookup_insert_ne.
Qed.

Lemma sum_load_units_ok st sessions :
  ok_refs st sessions -> exists ct, sum_load_units st sessions = Ok ct.
Proof.
  induction 1 as [|r sessions (s & Hs & _) _ (ct & IH)]; simpl; [eauto|].
  unfold deref. rewrite Hs, IH. simpl. eauto.
Qed.

(** The total moves with the loads of the referenced objects. *)
Lemma sum_load_units_le st st' sessions : forall ct,
  (forall r, r ∈ sessions -> exists s s',
      st !! r = Some s /\ st' !! r = Some s' /\ load_units s' <= load_units s) ->
  sum_load_units st sessions = Ok ct ->
  exists ct', sum_load_units st' sessions = Ok ct' /\ ct' <= ct
    /\ ((exists r s s', r ∈ sessions /\ st !! r = Some s /\ st' !! r = Some s'
           /\ load_units s' < load_units s) -> ct' < ct).
Proof.
  induction sessions as [|r0 sessions IH]; intros ct Hle Hsum; simpl in *.
  - simplify_eq. exists 0. split; [done|]. split; [done|].
    intros (r & ? & ? & Hr & _). by apply elem_of_nil in Hr.
  - apply bind_Ok in Hsum as (s0 & Hs0 & Hsum).
    apply bind_Ok in Hsum as (total & Htotal & Hsum). simplify_eq.
    apply deref_Ok in Hs0.
    destruct (Hle r0) as (s & s0' & Hs & Hs0' & Hl0); [left|]. simplify_eq.
    destruct (IH total) as (total' & Htotal' & Hle' & Hlt'); [|done|].
    { intros r Hr. apply Hle. by right. }
    unfold deref. rewrite Hs0', Htotal'. simpl.
    eexists. split; [done|]. split; [lia|].
    intros (r & s & s' & Hr & Hs & Hs' & Hlt).
    apply elem_of_cons in Hr as [->|Hr].
    + simplify_eq. lia.
    + assert (total' < total); [|lia]. apply Hlt'. eauto 10.
Qed.

Lemma int_truediv_below a b :
  0 <= a < b -> b <= 2 ^ 31 ->
  exists m k, int_truediv a b = Ok (Finite m (- k)) /\ 0 <= k
    /\ 0 <= m /\ m * 2 ^ 31 <= (2 ^ 31 - 1) * 2 ^ k.
Proof.
  intros Ha Hb. unfold int_truediv.
  destruct (b =? 0) eqn:Hb0; [apply Z.eqb_eq in Hb0; lia|].
  rewrite Z.sgn_pos, Z.mul_1_l, Z.abs_eq by lia.
  destruct (round_rat_between a b 31 0 (2 ^ 31 - 1)) as (m & k & -> & Hk & Hm);
    [lia|lia|lia|lia|].
  exists m, k. split; [done|]. split; [done|].
  assert (0 < 2 ^ k) by (apply Z.pow_pos_nonneg; lia). lia.
Qed.

(** With a total of at most [2^31], a load above the floor of 20 (and below
    [2^22]) is strictly reduced. *)
Lemma scaled_load_lt a b f x n :
  0 <= a < b -> b <= 2 ^ 31 -> int_truediv a b = Ok f ->
  20 < x < 2 ^ 22 -> scaled_load f x = Ok n -> n < x.
Proof.
  intros Ha Hb Hf Hx Hn.
  destruct (int_truediv_below a b Ha Hb) as (m & k & Hf' & Hk & Hm0 & Hm).
  rewrite Hf in Hf'. simplify_eq.
  assert (Hp : 0 < 2 ^ k) by (apply Z.pow_pos_nonneg; lia).
  destruct (int_mul_float_between x m k 31 0 (x * 2 ^ 31 - x))
    as (m' & k' & Hr & Hk' & Hb'); [lia|lia|lia|..].
  - rewrite Z.abs_eq by nia. change (2 ^ (53 - 31)) with (2 ^ 22). nia.
  - nia.
  - unfold scaled_load in Hn. rewrite Hr in Hn. unfold mbind, exn_bind in Hn.
    rewrite int_of_float_finite in Hn by done. simplify_eq.
    assert (Hp' : 0 < 2 ^ k') by (apply Z.pow_pos_nonneg; lia).
    assert (0 <= m') by nia.
    rewrite Z.quot_div_nonneg by lia.
    assert (m' / 2 ^ k' < x); [|lia].
    apply Z.div_lt_upper_bound; [lia|]. nia.
Qed.

(** [int(x * factor)] against the exact quotient: with a total of at most
    [2^31] and a load below [2^20], the two roundings cannot carry the
    product across an integer, except down from an exact quotient. *)
Lemma int_scaled_floor am ct f x :
  0 < am < ct -> ct <= 2 ^ 31 -> int_truediv am ct = Ok f -> 0 <= x < 2 ^ 20 ->
  exists t, (y ← int_mul_float x f; int_of_float y) = Ok t
    /\ x * am / ct - 1 <= t <= x * am / ct
    /\ ((x * am) mod ct <> 0 -> t = x * am / ct).
Proof.
  intros Ham Hct Hf Hx.
  set (q := x * am / ct). set (r := (x * am) mod ct).
  assert (Hqr : x * am = ct * q + r) by (apply Z.div_mod; lia).
  assert (Hr : 0 <= r < ct) by (apply Z.mod_pos_bound; lia).
  assert (Hq0 : 0 <= q) by (apply Z.div_pos; nia).
  (* the factor, within one unit of 2^-53 *)
  set (lo := am * 2 ^ 53 / ct).
  assert (Hlo : lo * ct <= am * 2 ^ 53 < (lo + 1) * ct).
  { pose proof (Z.div_mod (am * 2 ^ 53) ct ltac:(lia)).
    pose proof (Z.mod_pos_bound (am * 2 ^ 53) ct ltac:(lia)). fold lo in H. lia. }
  assert (Hlo0 : 0 <= lo < 2 ^ 53) by nia.
  unfold int_truediv in Hf.
  destruct (ct =? 0) eqn:Hct0; [apply Z.eqb_eq in Hct0; lia|].
  rewrite Z.sgn_pos, Z.mul_1_l, Z.abs_eq in Hf by lia.
  destruct (round_rat_between am ct 53 lo (lo + 1)) as (m & k & Hm & Hk & Hmb);
    [lia|lia|rewrite Z.sub_diag, Z.pow_0_r; lia|lia|].
  rewrite Hm in Hf. injection Hf as <-.
  assert (Hpk : 0 < 2 ^ k) by (apply Z.pow_pos_nonneg; lia).
  assert (Hm0 : 0 <= m <= 2 ^ k) by nia.
  (* the product, within one unit of 2^-33 *)
  set (lo' := x * lo / 2 ^ 20).
  set (hi' := (x * (lo + 1) + (2 ^ 20 - 1)) / 2 ^ 20).
  assert (Hlo' : lo' * 2 ^ 20 <= x * lo < (lo' + 1) * 2 ^ 20).
  { pose proof (Z.div_mod (x * lo) (2 ^ 20) ltac:(lia)).
    pose proof (Z.mod_pos_bound (x * lo) (2 ^ 20) ltac:(lia)). fold lo' in H. lia. }
  assert (Hhi' : x * (lo + 1) <= hi' * 2 ^ 20 < x * (lo + 1) + 2 ^ 20).
  { pose proof (Z.div_mod (x * (lo + 1) + (2 ^ 20 - 1)) (2 ^ 20) ltac:(lia)).
    pose proof (Z.mod_pos_bound (x * (lo + 1) + (2 ^ 20 - 1)) (2 ^ 20) ltac:(lia)).
    fold hi' in H. lia. }
  destruct (int_mul_float_between x m k 33 lo' hi') as (m' & k' & Hr' & Hk' & Hb');
    [lia|lia|lia|..].
  - rewrite Z.abs_eq by nia. change (2 ^ (53 - 33)) with (2 ^ 20). nia.
  - assert (H53 : 2 ^ 53 = 2 ^ 33 * 2 ^ 20) by reflexivity.
    split.
    + assert (lo' * 2 ^ 20 * 2 ^ k <= x * (m * 2 ^ 53)) by nia. nia.
    + assert (x * (m * 2 ^ 53) <= hi' * 2 ^ 20 * 2 ^ k) by nia. nia.
  - rewrite Hr'. cbn [mbind exn_bind]. rewrite int_of_float_finite by done.
    eexists. split; [reflexivity|].
    assert (Hpk' : 0 < 2 ^ k') by (apply Z.pow_pos_nonneg; lia).
    assert (Hlo'0 : 0 <= lo') by (apply Z.div_pos; nia).
    assert (Hm'0 : 0 <= m') by nia.
    rewrite Z.quot_div_nonneg by lia.
    assert (Hupper : hi' < (q + 1) * 2 ^ 33).
    { assert (hi' * 2 ^ 20 * ct < (q + 1) * 2 ^ 53 * ct); [|nia].
      assert (hi' * 2 ^ 20 * ct < x * lo * ct + x * ct + 2 ^ 20 * ct) by nia.
      assert (x * lo * ct <= x * (am * 2 ^ 53)) by nia.
      assert (x * (am * 2 ^ 53) = (ct * q + r) * 2 ^ 53) by nia.
      assert ((x + 2 ^ 20) * ct < 2 ^ 53) by nia.
      nia. }
    assert (Hlower : (if Z.eq_dec r 0 then q - 1 else q) * 2 ^ 33 <= lo').
    { assert (x * lo * ct >= x * (am * 2 ^ 53) - x * ct) by nia.
      assert (lo' * 2 ^ 20 * ct > x * lo * ct - 2 ^ 20 * ct) by nia.
      assert (x * (am * 2 ^ 53) = (ct * q + r) * 2 ^ 53) by nia.
      assert ((x + 2 ^ 20) * ct < 2 ^ 52) by nia.
      destruct (Z.eq_dec r 0) as [Hr0|Hr0].
      - assert (lo' * 2 ^ 20 * ct > q * 2 ^ 53 * ct - 2 ^ 21 * ct) by nia.
        assert (lo' * 2 ^ 20 > q * 2 ^ 53 - 2 ^ 21) by nia. lia.
      - assert (lo' * 2 ^ 20 * ct > q * 2 ^ 53 * ct) by nia.
        assert (lo' * 2 ^ 20 > q * 2 ^ 53) by nia. lia. }
    assert (Ht_hi : m' / 2 ^ k' <= q).
    { assert (m' / 2 ^ k' < q + 1); [|lia].
      apply Z.div_lt_upper_bound; [lia|]. nia. }
    assert (Ht_lo : (if Z.eq_dec r 0 then q - 1 else q) <= m' / 2 ^ k').
    { apply Z.div_le_lower_bound; [lia|]. nia. }
    destruct (Z.eq_dec r 0); split; try lia; intros; lia.
Qed.

Lemma scaled_load_of_int f x t :
  (y ← int_mul_float x f; int_of_float y) = Ok t -> scaled_load f x = Ok (Z.max 20 t).
Proof.
  unfold scaled_load. destruct (int_mul_float x f) as [y|]; [|discriminate].
  cbn [mbind exn_bind]. by intros ->.
Qed.

(** The three branches of the guardrail. *)
Lemma guardrail_noop st sessions L :
  L <= 0 -> apply_weekly_load_guardrail st sessions L = Ok (st, sessions).
Proof.
  intros HL. unfold apply_weekly_load_guardrail.
  destruct (L <=? 0) eqn:H; [done|]. apply Z.leb_gt in H. lia.
Qed.

Lemma guardrail_within st sessions L ct am :
  0 < L -> sum_load_units st sessions = Ok ct -> allowed_max_of L = Ok am ->
  ct <= am ->
  apply_weekly_load_guardrail st sessions L =
    (r0 ← py_index sessions 0;
     s ← deref st r0;
     notes' ← py_iadd_str (notes s) (load_check_note ct L);
     Ok (<[r0 := set_notes notes' s]> st, sessions)).
Proof.
  intros HL Hct Ham Hle. unfold apply_weekly_load_guardrail.
  destruct (L <=? 0) eqn:H; [apply Z.leb_le in H; lia|].
  rewrite Hct, Ham. simpl.
  destruct (ct <=? am) eqn:H'; [done|]. apply Z.leb_gt in H'. lia.
Qed.

Lemma guardrail_scaled st sessions L ct am :
  0 < L -> sum_load_units st sessions = Ok ct -> allowed_max_of L = Ok am ->
  am < ct ->
  apply_weekly_load_guardrail st sessions L =
    (factor ← int_truediv am ct;
     st' ← scale_loop factor (guardrail_note L am) st sessions;
     Ok (st', sessions)).
Proof.
  intros HL Hct Ham Hlt. unfold apply_weekly_load_guardrail.
  destruct (L <=? 0) eqn:H; [apply Z.leb_le in H; lia|].
  rewrite Hct, Ham. simpl.
  destruct (ct <=? am) eqn:H'; [apply Z.leb_le in H'; lia|done].
Qed.

Lemma count_occ_NoDup_1 (l : list nat) r :
  NoDup l -> r ∈ l -> count_occ Nat.eq_dec l r = 1%nat.
Proof.
  intros Hnd Hr. apply NoDup_ListNoDup in Hnd.
  apply list_elem_of_In in Hr.
  pose proof (proj1 (NoDup_count_occ' Nat.eq_dec l) Hnd r Hr). done.
Qed.

Lemma count_occ_notin_0 (l : list nat) r :
  r ∉ l -> count_occ Nat.eq_dec l r = 0%nat.
Proof.
  intros Hr. apply count_occ_not_In. by rewrite <- list_elem_of_In.
Qed.

Lemma guardrail_frame_of_result st sessions L st' out :
  apply_weekly_load_guardrail st sessions L = Ok (st', out) ->
  out = sessions /\ length st' = length st
  /\ (forall r s, st !! r = Some s ->
        exists s', st' !! r = Some s' /\ same_frame s s')
  /\ (L <= 0 -> st' = st)
  /\ (0 < L -> forall ct am,
        sum_load_units st sessions = Ok ct -> allowed_max_of L = Ok am -> ct <= am ->
        exists r0 s0 notes',
          sessions !! 0%nat = Some r0 /\ st !! r0 = Some s0
          /\ py_iadd_str (notes s0) (load_check_note ct L) = Ok notes'
          /\ st' = <[r0 := set_notes notes' s0]> st
          /\ forall r s, st !! r = Some s ->
               exists s', st' !! r = Some s' /\ load_units s' = load_units s
                 /\ (r <> r0 -> s' = s)).
Proof.
  intros Hrun.
  destruct (Z_le_gt_dec L 0) as [HL|HL].
  { rewrite guardrail_noop in Hrun by done. injection Hrun as <- <-.
    split; [done|]. split; [done|]. split.
    - intros r s Hs. exists s. split; [done|apply same_frame_refl].
    - split; [done|lia]. }
  assert (Hrun' := Hrun). unfold apply_weekly_load_guardrail in Hrun'.
  destruct (L <=? 0) eqn:HL'; [apply Z.leb_le in HL'; lia|].
  apply bind_Ok in Hrun' as (ct & Hct & Hrun').
  apply bind_Ok in Hrun' as (am & Ham & _).
  destruct (Z_le_gt_dec ct am) as [Hle|Hgt].
  - rewrite (guardrail_within _ _ _ ct am) in Hrun by (done || lia).
    apply bind_Ok in Hrun as (r0 & Hr0 & Hrun).
    apply bind_Ok in Hrun as (s0 & Hs0 & Hrun).
    apply bind_Ok in Hrun as (notes' & Hnotes & Hrun).
    apply deref_Ok in Hs0.
    unfold py_index in Hr0. destruct (sessions !! 0%nat) as [r0'|] eqn:Hhd; [|done].
    injection Hr0 as ->. injection Hrun as <- <-.
    assert (Hpt : forall r s, st !! r = Some s ->
      exists s', <[r0:=set_notes notes' s0]> st !! r = Some s'
        /\ same_frame s s' /\ load_units s' = load_units s /\ (r <> r0 -> s' = s)).
    { intros r s Hs. destruct (Nat.eq_dec r0 r) as [->|Hne].
      - simplify_eq. exists (set_notes notes' s0). split.
        + apply list_lookup_insert_eq. by eapply lookup_lt_Some.
        + by repeat split.
      - exists s. rewrite list_lookup_insert_ne by done.
        split; [done|]. split; [apply same_frame_refl|]. done. }
    split; [done|]. split; [by rewrite length_insert|]. split.
    { intros r s Hs. destruct (Hpt r s Hs) as (s' & ? & ? & _). eauto. }
    split; [lia|]. intros _ ct' am' Hct' Ham' _.
    rewrite Hct in Hct'. injection Hct' as <-.
    exists r0, s0, notes'.
    split; [reflexivity|]. split; [assumption|]. split; [assumption|].
    split; [reflexivity|].
    intros r s Hs. destruct (Hpt r s Hs) as (s' & ? & _ & ? & ?). eauto.
  - rewrite (guardrail_scaled _ _ _ ct am) in Hrun by (done || lia).
    apply bind_Ok in Hrun as (f & Hf & Hrun).
    apply bind_Ok in Hrun as (st1 & Hloop & Hrun). injection Hrun as <- <-.
    apply scale_loop_spec in Hloop as (Hlen & Hrec).
    split; [done|]. split; [done|]. split.
    { intros r s Hs. destruct (Hrec r s Hs) as (s' & Hs' & Hn).
      exists s'. split; [done|]. by eapply scale_record_n_frame. }
    split; [lia|]. intros _ ct' am' Hct' Ham' Hle.
    rewrite Hct in Hct'. rewrite Ham in Ham'.
    injection Hct' as <-. injection Ham' as <-. lia.
Qed.

(** C1 (as amended): for a plan of distinct well-formed records, a prior
    load [0 < L < 2^48] and a total [ct] above
    [allowed_max = max (11 * L / 10) (L + 20)] (the integer part of
    [L * 1.10] is [11 * L / 10]), the guardrail returns; every session of
    the plan gets [load_units = max 20 (int (old * factor))], where
    [factor] is the double [allowed_max / ct] and [int] truncates, and gets
    the guardrail annotation appended to its notes; no other field and no
    other object changes.  For a total of at most [2^31] and an old load in
    [0, 2^20) the truncated product is the integer part of
    [old * allowed_max / ct], or one below it when [ct] divides
    [old * allowed_max].  When every old load is at least 20 the total
    does not grow, and it shrinks strictly as soon as one old load is above
    20 (for a total of at most [2^31] and that load below [2^22]). *)
Theorem guardrail_scaling st sessions L ct :
  NoDup sessions -> ok_refs st sessions -> 0 < L < 2 ^ 48 ->
  sum_load_units st sessions = Ok ct ->
  Z.max (11 * L / 10) (L + 20) < ct ->
  let allowed_max := Z.max (11 * L / 10) (L + 20) in
  exists factor st',
    allowed_max_of L = Ok allowed_max
    /\ int_truediv allowed_max ct = Ok factor
    /\ apply_weekly_load_guardrail st sessions L = Ok (st', sessions)
    /\ (forall r s, r ∈ sessions -> st !! r = Some s ->
          exists s', st' !! r = Some s'
            /\ scaled_load factor (load_units s) = Ok (load_units s')
            /\ py_iadd_str (notes s) (guardrail_note L allowed_max) = Ok (notes s')
            /\ same_frame s s'
            /\ (ct <= 2 ^ 31 -> 0 <= load_units s < 2 ^ 20 ->
                 exists t, load_units s' = Z.max 20 t
                   /\ load_units s * allowed_max / ct - 1 <= t
                        <= load_units s * allowed_max / ct
                   /\ ((load_units s * allowed_max) mod ct <> 0 ->
                        t = load_units s * allowed_max / ct)))
    /\ (forall r, r ∉ sessions -> st' !! r = st !! r)
    /\ ((forall r s, r ∈ sessions -> st !! r = Some s -> 20 <= load_units s) ->
          exists ct', sum_load_units st' sessions = Ok ct' /\ ct' <= ct
            /\ (ct <= 2 ^ 31 ->
                (exists r s, r ∈ sessions /\ st !! r = Some s
                   /\ 20 < load_units s < 2 ^ 22) -> ct' < ct)).
Proof.
  intros Hnd Hok HL Hct Hlt am.
  assert (Ham : allowed_max_of L = Ok am) by (apply allowed_max_of_spec; lia).
  assert (Ham0 : 20 <= am) by (unfold am; lia).
  destruct (int_truediv_unit am ct) as (f & Hf & Hunit); [lia|lia|].
  destruct (scale_loop_ok f (guardrail_note L am) sessions st Hunit Hok) as (st' & Hloop).
  exists f, st'. split; [done|]. split; [done|]. split.
  { rewrite (guardrail_scaled _ _ _ ct am) by (done || lia).
    rewrite Hf. simpl. rewrite Hloop. done. }
  apply scale_loop_spec in Hloop as (Hlen & Hrec).
  assert (Hin : forall r s, r ∈ sessions -> st !! r = Some s ->
    exists s', st' !! r = Some s' /\ scale_record f (guardrail_note L am) s = Ok s').
  { intros r s Hr Hs. destruct (Hrec r s Hs) as (s' & Hs' & Hn).
    rewrite count_occ_NoDup_1 in Hn by done. simpl in Hn.
    destruct (scale_record _ _ s) as [s1|] eqn:H1; [|done]. simpl in Hn.
    simplify_eq. eauto. }
  split.
  { intros r s Hr Hs. destruct (Hin r s Hr Hs) as (s' & Hs' & H1).
    apply scale_record_Ok in H1 as (Hload & Hnotes & Hfr).
    exists s'. split; [assumption|]. split; [assumption|]. split; [assumption|].
    split; [assumption|]. intros Hsmall Hx.
    destruct (int_scaled_floor am ct f (load_units s)) as (t & Ht & Hb & Hexact);
      [lia|assumption|assumption|assumption|].
    exists t. apply scaled_load_of_int in Ht. rewrite Hload in Ht.
    injection Ht as ->. split; [reflexivity|]. split; assumption. }
  split.
  { intros r Hr. destruct (st !! r) as [s|] eqn:Hs.
    - destruct (Hrec r s Hs) as (s' & Hs' & Hn).
      rewrite count_occ_notin_0 in Hn by done. simpl in Hn. by simplify_eq.
    - apply lookup_ge_None in Hs. apply lookup_ge_None. lia. }
  intros Hfloor.
  assert (Hdec : forall r s, r ∈ sessions -> st !! r = Some s ->
    exists s', st' !! r = Some s' /\ load_units s' <= load_units s
      /\ (ct <= 2 ^ 31 -> 20 < load_units s < 2 ^ 22 -> load_units s' < load_units s)).
  { intros r s Hr Hs. destruct (Hin r s Hr Hs) as (s' & Hs' & H1).
    exists s'. split; [done|].
    pose proof (proj1 (Forall_forall _ _) Hok r Hr) as (s0 & Hs0 & Hrec0).
    rewrite Hs in Hs0. injection Hs0 as <-.
    destruct (scale_record_ok f (guardrail_note L am) s Hunit Hrec0)
      as (s1 & H1' & _ & Hb).
    rewrite H1 in H1'. injection H1' as <-.
    specialize (Hfloor r s Hr Hs). split; [lia|].
    intros Hsmall Hx.
    apply scale_record_Ok in H1 as (Hload & _ & _).
    eapply (scaled_load_lt am ct); [| |done| |done]; lia. }
  destruct (sum_load_units_le st st' sessions ct) as (ct' & Hct' & Hle & Hstrict);
    [|done|].
  { intros r Hr.
    pose proof (proj1 (Forall_forall _ _) Hok r Hr) as (s0 & Hs0 & _).
    destruct (Hdec r s0 Hr Hs0) as (s' & ? & ? & _). eauto. }
  exists ct'. split; [done|]. split; [done|].
  intros Hsmall (r & s & Hr & Hs & Hx). apply Hstrict.
  destruct (Hdec r s Hr Hs) as (s' & Hs' & _ & Hlt'). exists r, s, s'. eauto.
Qed.

(** ** Sorting *)

Lemma insert_by_perm {A} (key : A -> Z) x l : insert_by key x l ≡ₚ x :: l.
Proof.
  induction l as [|y l IH]; simpl; [done|].
  destruct (key x <=? key y); [done|].
  rewrite IH. apply Permutation_swap.
Qed.

Lemma sort_by_key_perm {A} (key : A -> Z) l : sort_by_key key l ≡ₚ l.
Proof.
  induction l as [|x l IH]; simpl; [done|].
  rewrite insert_by_perm. by f_equiv.
Qed.

Lemma insert_by_sorted {A} (key : A -> Z) x l :
  sorted_by key l -> sorted_by key (insert_by key x l).
Proof.
  unfold sorted_by. induction 1 as [|y l Hs IH Hy]; simpl.
  - repeat constructor.
  - destruct (key x <=? key y) eqn:Hxy.
    + apply Z.leb_le in Hxy. constructor; [by constructor|].
      constructor; [done|]. eapply Forall_impl; [exact Hy|]. simpl. lia.
    + apply Z.leb_gt in Hxy. constructor; [done|].
      rewrite insert_by_perm. constructor; [lia|done].
Qed.

Lemma sort_by_key_sorted {A} (key : A -> Z) l : sorted_by key (sort_by_key key l).
Proof.
  induction l as [|x l IH]; simpl; [constructor|]. by apply insert_by_sorted.
Qed.

(** Stability: entries with the same key keep their order. *)
Lemma insert_by_stable {A} (key : A -> Z) k x l :
  sorted_by key l ->
  filter (fun y => key y = k) (insert_by key x l) = filter (fun y => key y = k) (x :: l).
Proof.
  unfold sorted_by. induction 1 as [|y l Hs IH Hy]; simpl; [done|].
  destruct (key x <=? key y) eqn:Hxy; [done|]. apply Z.leb_gt in Hxy.
  rewrite !filter_cons in *. rewrite IH.
  destruct (decide (key y = k)), (decide (key x = k)); try done. lia.
Qed.

Lemma sort_by_key_stable {A} (key : A -> Z) k l :
  filter (fun y => key y = k) (sort_by_key key l) = filter (fun y => key y = k) l.
Proof.
  induction l as [|x l IH]; simpl; [done|].
  rewrite insert_by_stable by apply sort_by_key_sorted.
  rewrite !filter_cons. by rewrite IH.
Qed.

Lemma sort_by_key_id {A} (key : A -> Z) l :
  sorted_by key l -> sort_by_key key l = l.
Proof.
  unfold sorted_by. induction 1 as [|x l Hs IH Hx]; simpl; [done|].
  rewrite IH. destruct l as [|y l]; [done|]. simpl.
  apply Forall_cons in Hx as [Hxy _].
  destruct (key x <=? key y) eqn:H; [done|]. apply Z.leb_gt in H. lia.
Qed.

(** ** Boxing templates *)

Lemma append_while_shorter_spec {A} n (x : A) fuel : forall l,
  append_while_shorter fuel n x l =
    l ++ replicate (Nat.min fuel (Z.to_nat (n - Z.of_nat (length l)))) x.
Proof.
  induction fuel as [|fuel IH]; intros l; cbn [append_while_shorter].
  - by rewrite app_nil_r.
  - destruct (Z.of_nat (length l) <? n) eqn:Hlt.
    + apply Z.ltb_lt in Hlt. rewrite IH, length_app. cbn [length].
      rewrite <- app_assoc. f_equal.
      replace (Nat.min (S fuel) (Z.to_nat (n - Z.of_nat (length l))))
        with (S (Nat.min fuel (Z.to_nat (n - Z.of_nat (length l + 1))))) by lia.
      done.
    + apply Z.ltb_ge in Hlt.
      replace (Nat.min (S fuel) (Z.to_nat (n - Z.of_nat (length l)))) with 0%nat by lia.
      by rewrite app_nil_r.
Qed.

Lemma insert_by_past (key : nat -> Z) x y m tl :
  key y < key x ->
  insert_by key x (replicate m y ++ tl) = replicate m y ++ insert_by key x tl.
Proof.
  intros Hlt. induction m as [|m IH]; simpl; [done|].
  destruct (key x <=? key y) eqn:H; [apply Z.leb_le in H; lia|]. by rewrite IH.
Qed.

Lemma sort_by_key_replicate (key : nat -> Z) x m :
  sort_by_key key (replicate m x) = replicate m x.
Proof.
  induction m as [|m IH]; simpl; [done|]. rewrite IH.
  destruct m; simpl; [done|]. by rewrite Z.leb_refl.
Qed.

(** Sorting the padded list: the copies of reference 0 gather in front. *)
Lemma sort_padded (key : nat -> Z) m :
  key 0%nat < key 1%nat -> key 1%nat < key 2%nat ->
  sort_by_key key ([0; 1; 2] ++ replicate m 0)%nat = (replicate (S m) 0 ++ [1; 2])%nat.
Proof.
  intros H01 H12. simpl. rewrite sort_by_key_replicate.
  rewrite <- (app_nil_r (replicate m 0%nat)) at 1.
  rewrite insert_by_past by lia. simpl.
  rewrite insert_by_past by lia. simpl.
  destruct (key 1%nat <=? key 2%nat) eqn:H; [|apply Z.leb_gt in H; lia].
  destruct m; simpl.
  - destruct (key 0%nat <=? key 1%nat) eqn:H'; [done|apply Z.leb_gt in H'; lia].
  - by rewrite Z.leb_refl.
Qed.

Lemma boxing_templates_cases level c :
  boxing_templates level c = novice_templates c
  \/ boxing_templates level c = intermediate_templates c
  \/ boxing_templates level c = advanced_templates c.
Proof. unfold boxing_templates. repeat case_bool_decide; auto. Qed.

Lemma boxing_templates_keys level c :
  let st := boxing_templates level c in
  length st = 3%nat
  /\ session_key st 0%nat < session_key st 1%nat
  /\ session_key st 1%nat < session_key st 2%nat.
Proof.
  destruct (boxing_templates_cases level c) as [-> | [-> | ->]];
    (split; [reflexivity|]); split; reflexivity.
Qed.

Lemma boxing_templates_ok level c : Forall ok_record (boxing_templates level c).
Proof.
  destruct (boxing_templates_cases level c) as [-> | [-> | ->]];
    repeat (constructor; [split; [reflexivity|exact I]|]); constructor.
Qed.

Lemma boxing_template_refs level c :
  seq 0 (length (boxing_templates level c)) = [0; 1; 2]%nat.
Proof. by destruct (boxing_templates_keys level c) as (-> & _). Qed.

Lemma padded_refs n :
  3 < n ->
  append_while_shorter (Z.to_nat n) n 0%nat [0; 1; 2]%nat =
    ([0; 1; 2] ++ replicate (Z.to_nat (n - 3)) 0)%nat.
Proof.
  intros Hn. rewrite append_while_shorter_spec. cbn [length].
  rewrite Nat.min_r by lia. do 2 f_equal.
Qed.

Lemma boxing_padded_plan level n c :
  3 < n ->
  generate_boxing_sessions_template level n c =
    Ok (boxing_templates level c, (replicate (Z.to_nat (n - 2)) 0 ++ [1; 2])%nat).
Proof.
  intros Hn. unfold generate_boxing_sessions_template.
  rewrite boxing_template_refs. cbn [length].
  destruct (n <=? Z.of_nat 3) eqn:H; [apply Z.leb_le in H; lia|].
  cbn [py_index lookup list_lookup mbind exn_bind].
  rewrite padded_refs by assumption.
  destruct (boxing_templates_keys level c) as (_ & H01 & H12).
  rewrite sort_padded by done.
  replace (Z.to_nat (n - 2)) with (S (Z.to_nat (n - 3))) by lia. reflexivity.
Qed.

(** C6 (as amended): for every level and every requested count above 3, the
    boxing selector returns exactly [count] entries over the three catalog
    objects.  The padding loop appends the reference of catalog entry 0
    [count - 3] times behind the catalog; the stable day sort then gathers
    these copies directly behind entry 0, so that entries [0 .. count - 3]
    of the returned plan are catalog entry 0 itself and the last two entries
    are catalog entries 1 and 2. *)
Theorem boxing_padding level n c :
  3 < n ->
  generate_boxing_sessions_template level n c =
    Ok (boxing_templates level c, (replicate (Z.to_nat (n - 2)) 0 ++ [1; 2])%nat)
  /\ append_while_shorter (Z.to_nat n) n 0%nat [0; 1; 2]%nat =
       ([0; 1; 2] ++ replicate (Z.to_nat (n - 3)) 0)%nat
  /\ Z.of_nat (length (replicate (Z.to_nat (n - 2)) 0 ++ [1; 2])%nat) = n.
Proof.
  intros Hn. split; [by apply boxing_padded_plan|]. split; [by apply padded_refs|].
  rewrite length_app, length_replicate. cbn [length]. lia.
Qed.

Lemma view_seq (st : store) k :
  (k <= length st)%nat -> view st (seq 0 k) = map Some (take k st).
Proof.
  unfold view. revert st. induction k as [|k IH]; intros st Hk; [done|].
  rewrite seq_S, map_app. cbn [map]. rewrite IH by lia.
  destruct (lookup_lt_is_Some_2 st k ltac:(lia)) as [s Hs].
  rewrite (take_S_r _ _ _ Hs), map_app. cbn [plus map]. by rewrite Hs.
Qed.

Lemma sorted_by_seq (key : nat -> Z) k :
  (k <= 3)%nat -> key 0%nat < key 1%nat -> key 1%nat < key 2%nat ->
  sorted_by key (seq 0 k).
Proof.
  intros Hk H01 H12. unfold sorted_by.
  destruct k as [|[|[|[|k]]]]; [| | | |lia]; cbn [seq];
    repeat (constructor; [|repeat (constructor; [lia|]); constructor]); constructor.
Qed.

(** C7: for every level and every requested count of at most 3, the boxing
    selector returns a prefix of that level's three-entry catalog, in
    catalog order ([seq 0 k] over the catalog store), which is sorted by the
    canonical day index; for a count [0 <= count <= 3] the prefix has
    exactly [count] entries.  (A negative count is a Python slice from the
    end: the prefix then has [max 0 (3 + count)] entries.) *)
Theorem boxing_prefix level n c :
  n <= 3 ->
  exists k : nat,
    generate_boxing_sessions_template level n c =
      Ok (boxing_templates level c, seq 0 k)
    /\ (k <= 3)%nat /\ (0 <= n -> Z.of_nat k = n)
    /\ view (boxing_templates level c) (seq 0 k) =
         map Some (take k (boxing_templates level c))
    /\ sorted_by (session_key (boxing_templates level c)) (seq 0 k).
Proof.
  intros Hn.
  destruct (boxing_templates_keys level c) as (Hlen & H01 & H12).
  set (k := if 0 <=? n then Z.to_nat n else Z.to_nat (Z.max 0 (3 + n))).
  assert (Hk : (k <= 3)%nat) by (unfold k; destruct (Z.leb_spec 0 n); lia).
  assert (Hslice : slice_to [0; 1; 2]%nat n = seq 0 k).
  { unfold slice_to, k. cbn [length].
    destruct (Z.leb_spec 0 n); change [0; 1; 2]%nat with (seq 0 3);
      rewrite take_seq; f_equal; lia. }
  assert (Hsorted : sorted_by (session_key (boxing_templates level c)) (seq 0 k))
    by (by apply sorted_by_seq).
  exists k. split; [|split; [done|split; [|split; [|done]]]].
  - unfold generate_boxing_sessions_template.
    rewrite boxing_template_refs. cbn [length].
    destruct (n <=? Z.of_nat 3) eqn:H; [|apply Z.leb_gt in H; lia].
    cbn [mbind exn_bind]. rewrite Hslice.
    by rewrite sort_by_key_id.
  - intros H0. unfold k. destruct (Z.leb_spec 0 n); lia.
  - apply view_seq. lia.
Qed.

(** ** Generic template *)

Lemma generic_session_day sport c i :
  exists s, generic_session sport c i = Ok s
    /\ DAYS_ORDER !! ((i * 2) mod 7)%nat = Some (day s) /\ ok_record s.
Proof.
  unfold generic_session. cbn [length DAYS_ORDER].
  assert (Hlt : ((i * 2) mod 7 < length DAYS_ORDER)%nat).
  { cbn [length DAYS_ORDER]. apply Nat.mod_upper_bound. lia. }
  destruct (lookup_lt_is_Some_2 _ _ Hlt) as [d Hd].
  unfold py_index. fold DAYS_ORDER. rewrite Hd. cbn [mbind exn_bind].
  eexists. split; [reflexivity|]. split; [reflexivity|].
  split; [reflexivity|exact I].
Qed.

Lemma generic_loop_spec sport c range : forall acc,
  exists new, generic_loop sport c range acc = Ok (acc ++ new)
    /\ length new = length range
    /\ forall j i, range !! j = Some i ->
         exists s, new !! j = Some s /\ generic_session sport c i = Ok s.
Proof.
  induction range as [|i range IH]; intros acc; cbn [generic_loop].
  - exists []. rewrite app_nil_r. split; [reflexivity|]. split; [reflexivity|].
    intros j i Hj. by rewrite lookup_nil in Hj.
  - destruct (generic_session_day sport c i) as (s & Hs & _).
    rewrite Hs. cbn [mbind exn_bind].
    destruct (IH (acc ++ [s])) as (new & Hloop & Hlen & Hnew).
    exists (s :: new). rewrite Hloop, <- app_assoc.
    split; [reflexivity|]. split; [cbn [length]; lia|].
    intros [|j] i' Hj; cbn [lookup list_lookup] in *.
    + injection Hj as <-. eauto.
    + by apply Hnew.
Qed.

Lemma sorted_by_lookup {A} (key : A -> Z) l i j x y :
  sorted_by key l -> (i < j)%nat -> l !! i = Some x -> l !! j = Some y ->
  key x <= key y.
Proof.
  unfold sorted_by. intros Hs. revert i j.
  induction Hs as [|z l Hs IH Hz]; intros i j Hij Hi Hj.
  - by rewrite lookup_nil in Hi.
  - destruct j as [|j]; [lia|]. cbn [lookup list_lookup] in Hj.
    destruct i as [|i]; cbn [lookup list_lookup] in Hi.
    + injection Hi as <-.
      apply (proj1 (Forall_forall _ _) Hz). by eapply list_elem_of_lookup_2.
    + eapply IH; [|done..]. lia.
Qed.

(** C8 (the code departs from the claim): for every sport, level and
    requested count of five or more, the generic generator returns its
    sessions in the order it built them, with Sunday at index 3 before
    Tuesday at index 4, so the returned list is not sorted by the day
    index.  The generic generator has no final sort, unlike the boxing
    selector and the AI path. *)
Theorem generic_template_unsorted sport level n c :
  5 <= n ->
  exists st sessions,
    generate_generic_sessions_template sport level n c = Ok (st, sessions)
    /\ Z.of_nat (length sessions) = n
    /\ sessions !! 3%nat = Some 3%nat /\ sessions !! 4%nat = Some 4%nat
    /\ day <$> st !! 3%nat = Some "Sun" /\ day <$> st !! 4%nat = Some "Tue"
    /\ ~ sorted_by (session_key st) sessions.
Proof.
  intros Hn. unfold generate_generic_sessions_template.
  destruct (generic_loop_spec sport c (seq 0 (Z.to_nat n)) []) as (st & -> & Hlen & Hst).
  rewrite length_seq in Hlen. cbn [app mbind exn_bind].
  exists st, (seq 0 (length st)). split; [reflexivity|].
  rewrite length_seq, Hlen. split; [lia|].
  assert (H3 : seq 0 (Z.to_nat n) !! 3%nat = Some 3%nat) by (apply lookup_seq; lia).
  assert (H4 : seq 0 (Z.to_nat n) !! 4%nat = Some 4%nat) by (apply lookup_seq; lia).
  split; [assumption|]. split; [assumption|].
  destruct (Hst _ _ H3) as (s3 & Hs3 & Hg3).
  destruct (Hst _ _ H4) as (s4 & Hs4 & Hg4).
  destruct (generic_session_day sport c 3) as (s3' & Hg3' & Hd3 & _).
  destruct (generic_session_day sport c 4) as (s4' & Hg4' & Hd4 & _).
  rewrite Hg3 in Hg3'. injection Hg3' as <-.
  rewrite Hg4 in Hg4'. injection Hg4' as <-.
  cbn in Hd3, Hd4. injection Hd3 as Hd3. injection Hd4 as Hd4.
  rewrite Hs3, Hs4. cbn [fmap option_fmap option_map].
  rewrite <- Hd3, <- Hd4. split; [reflexivity|]. split; [reflexivity|].
  intros Hsorted.
  pose proof (sorted_by_lookup _ _ 3 4 3%nat 4%nat Hsorted ltac:(lia) H3 H4) as Hle.
  unfold session_key in Hle. rewrite Hs3, Hs4, <- Hd3, <- Hd4 in Hle.
  vm_compute in Hle. by apply Hle.
Qed.

(** ** The guardrail: failure on the empty plan, success otherwise *)

(** On the empty session list and any prior-week load [0 < L < 2^48] the
    guardrail raises [IndexError]: the total 0 is within the allowed band,
    and the within-band branch reads [sessions[0]]. *)
Lemma guardrail_empty_plan_raises st L :
  0 < L < 2 ^ 48 -> apply_weekly_load_guardrail st [] L = Raise IndexError.
Proof.
  intros HL.
  rewrite (guardrail_within st [] L 0 (Z.max (11 * L / 10) (L + 20)));
    [reflexivity|lia|reflexivity|apply allowed_max_of_spec; lia|lia].
Qed.

Lemma guardrail_total st sessions L :
  sessions <> [] -> ok_refs st sessions -> L < 2 ^ 48 ->
  exists st', apply_weekly_load_guardrail st sessions L = Ok (st', sessions).
Proof.
  intros Hne Hok HL.
  destruct (Z_le_gt_dec L 0) as [H0|H0].
  { exists st. by apply guardrail_noop. }
  destruct (sum_load_units_ok st sessions Hok) as (ct & Hct).
  set (am := Z.max (11 * L / 10) (L + 20)).
  assert (Ham : allowed_max_of L = Ok am) by (apply allowed_max_of_spec; lia).
  destruct (Z_le_gt_dec ct am) as [Hle|Hgt].
  - rewrite (guardrail_within _ _ _ ct am) by (assumption || lia).
    destruct sessions as [|r0 sessions]; [done|].
    apply Forall_cons in Hok as [(s0 & Hs0 & _ & Happ) _].
    destruct (py_iadd_str_appendable _ (load_check_note ct L) Happ) as (v' & Hv' & _).
    cbn [py_index lookup list_lookup mbind exn_bind]. unfold deref.
    rewrite Hs0. cbn [mbind exn_bind]. rewrite Hv'. cbn [mbind exn_bind]. eauto.
  - rewrite (guardrail_scaled _ _ _ ct am) by (assumption || lia).
    destruct (int_truediv_unit am ct) as (f & Hf & Hunit); [unfold am; lia|lia|].
    destruct (scale_loop_ok f (guardrail_note L am) sessions st Hunit Hok) as (st' & Hloop).
    rewrite Hf. cbn [mbind exn_bind]. rewrite Hloop. cbn [mbind exn_bind]. eauto.
Qed.

(** C9 (as amended): the guardrail returns, with the list it was given, on
    every non-empty plan of well-formed records (valid references, loads
    below [2^53] in magnitude, notes a text or a list) for every prior-week
    load below [2^48], and on every list, the empty one included, when the
    prior load is at most 0.  On the empty list with a prior load
    [0 < L < 2^48] it raises [IndexError]. *)
Theorem guardrail_returns st sessions L :
  (L <= 0 -> apply_weekly_load_guardrail st sessions L = Ok (st, sessions))
  /\ (sessions <> [] -> ok_refs st sessions -> L < 2 ^ 48 ->
        exists st', apply_weekly_load_guardrail st sessions L = Ok (st', sessions))
  /\ (sessions = [] -> 0 < L < 2 ^ 48 ->
        apply_weekly_load_guardrail st sessions L = Raise IndexError).
Proof.
  split; [apply guardrail_noop|]. split; [apply guardrail_total|].
  intros -> HL. by apply guardrail_empty_plan_raises.
Qed.

Lemma view_lookup st sessions i r :
  sessions !! i = Some r -> view st sessions !! i = Some (st !! r).
Proof.
  intros H. unfold view. change (map ?f ?l) with (f <$> l).
  by rewrite list_lookup_fmap, H.
Qed.

(** C5 (as amended): the guardrail returns the very list of references it
    was given, in the same store positions, and never writes [day],
    [focus], [intensity] or [duration_min].  With a prior load [L <= 0] it
    returns store and list unchanged.  With [L > 0] and the total within
    the allowed maximum, no load changes and the only record written is the
    one behind the first entry, whose notes get the load-check note
    appended once.  Every entry that is this same record shows the note,
    every other entry is unchanged; in a plan of distinct records only the
    first session changes.  It does return on every non-empty plan of
    well-formed records with [L < 2^48]. *)
Theorem guardrail_frame st sessions L :
  (L <= 0 -> apply_weekly_load_guardrail st sessions L = Ok (st, sessions))
  /\ (sessions <> [] -> ok_refs st sessions -> L < 2 ^ 48 ->
        exists st', apply_weekly_load_guardrail st sessions L = Ok (st', sessions))
  /\ (forall st' out,
        apply_weekly_load_guardrail st sessions L = Ok (st', out) ->
        out = sessions /\ length st' = length st
        /\ (forall r s, st !! r = Some s ->
              exists s', st' !! r = Some s' /\ same_frame s s')
        /\ (0 < L -> forall ct am,
              sum_load_units st sessions = Ok ct -> allowed_max_of L = Ok am ->
              ct <= am ->
              exists r0 s0 notes',
                sessions !! 0%nat = Some r0 /\ st !! r0 = Some s0
                /\ py_iadd_str (notes s0) (load_check_note ct L) = Ok notes'
                /\ (forall text, notes s0 = PyStr text ->
                      notes' = PyStr (text +:+ load_check_note ct L))
                /\ st' = <[r0 := set_notes notes' s0]> st
                /\ (forall r s, st !! r = Some s ->
                     exists s', st' !! r = Some s' /\ load_units s' = load_units s
                       /\ (r <> r0 -> s' = s))
                /\ (forall i, sessions !! i = Some r0 ->
                      view st' sessions !! i = Some (Some (set_notes notes' s0)))
                /\ (forall i r, sessions !! i = Some r -> r <> r0 ->
                      view st' sessions !! i = view st sessions !! i)
                /\ (NoDup sessions -> forall i, (0 < i)%nat ->
                      view st' sessions !! i = view st sessions !! i))).
Proof.
  split; [apply guardrail_noop|]. split; [apply guardrail_total|].
  intros st' out Hrun.
  destruct (guardrail_frame_of_result _ _ _ _ _ Hrun) as (H1 & H2 & H3 & _ & H5).
  split; [assumption|]. split; [assumption|]. split; [assumption|].
  intros HL ct am Hct Ham Hle.
  destruct (H5 HL ct am Hct Ham Hle) as (r0 & s0 & notes' & Hr0 & Hs0 & Hn & Hst & Hrest).
  exists r0, s0, notes'.
  split; [assumption|]. split; [assumption|]. split; [assumption|].
  split.
  { intros text Ht. rewrite Ht in Hn. cbn [py_iadd_str] in Hn. by injection Hn as <-. }
  split; [assumption|]. split; [assumption|].
  assert (Hother : forall i r, sessions !! i = Some r -> r <> r0 ->
            view st' sessions !! i = view st sessions !! i).
  { intros i r Hi Hne. rewrite !(view_lookup _ _ _ _ Hi), Hst.
    by rewrite list_lookup_insert_ne. }
  split.
  { intros i Hi. rewrite (view_lookup _ _ _ _ Hi), Hst.
    rewrite list_lookup_insert_eq; [reflexivity|]. by eapply lookup_lt_Some. }
  split; [exact Hother|].
  intros Hnd i Hi.
  destruct (sessions !! i) as [r|] eqn:Hr.
  - apply (Hother i r Hr). intros ->.
    pose proof (NoDup_lookup _ _ _ _ Hnd Hr Hr0). lia.
  - unfold view. change (map ?f ?l) with (f <$> l).
    by rewrite !list_lookup_fmap, Hr.
Qed.

(** ** Shared records under the guardrail *)

Lemma append_nil_r s : s +:+ EmptyString = s.
Proof.
  induction s as [|a s IH]; [reflexivity|].
  change (String a (s +:+ EmptyString) = String a s). by rewrite IH.
Qed.

Lemma append_assoc s1 s2 s3 : (s1 +:+ s2) +:+ s3 = s1 +:+ (s2 +:+ s3).
Proof.
  induction s1 as [|a s1 IH]; [reflexivity|].
  change (String a ((s1 +:+ s2) +:+ s3) = String a (s1 +:+ (s2 +:+ s3))).
  by rewrite IH.
Qed.

Lemma scale_record_n_load factor note k : forall s s',
  scale_record_n factor note k s = Ok s' ->
  scaled_load_n factor k (load_units s) = Ok (load_units s').
Proof.
  induction k as [|k IH]; intros s s' H; cbn [scale_record_n scaled_load_n] in *.
  - by injection H as <-.
  - apply bind_Ok in H as (s1 & H1 & H).
    apply scale_record_Ok in H1 as (-> & _ & _). cbn [mbind exn_bind]. by apply IH.
Qed.

Lemma scale_record_n_notes factor note k : forall s s' text,
  notes s = PyStr text ->
  scale_record_n factor note k s = Ok s' ->
  notes s' = PyStr (text +:+ concat_str (replicate k note)).
Proof.
  induction k as [|k IH]; intros s s' text Ht H; cbn [scale_record_n] in H.
  - injection H as <-. rewrite Ht. cbn [replicate concat_str foldr].
    by rewrite append_nil_r.
  - apply bind_Ok in H as (s1 & H1 & H).
    apply scale_record_Ok in H1 as (_ & Hn & _).
    rewrite Ht in Hn. cbn [py_iadd_str] in Hn. injection Hn as Hn.
    rewrite (IH s1 s' (text +:+ note)) by (by symmetry || assumption).
    cbn [replicate concat_str foldr]. by rewrite append_assoc.
Qed.

Lemma count_occ_replicate_tail k :
  count_occ Nat.eq_dec (replicate k 0 ++ [1; 2])%nat 0%nat = k.
Proof. induction k as [|k IH]; [reflexivity|]. cbn. by rewrite IH. Qed.

Lemma chain_bound (xs : list Z) :
  (forall j x y, xs !! j = Some x -> xs !! S j = Some y -> 20 <= y <= Z.max 20 x) ->
  forall d i x y, xs !! i = Some x -> xs !! (i + d)%nat = Some y -> y <= Z.max 20 x.
Proof.
  intros Hstep. induction d as [|d IH]; intros i x y Hx Hy.
  - rewrite Nat.add_0_r in Hy. rewrite Hx in Hy. injection Hy as <-. lia.
  - replace (i + S d)%nat with (S (i + d)) in Hy by lia.
    destruct (lookup_lt_is_Some_2 xs (i + d)%nat) as [z Hz].
    { apply lookup_lt_Some in Hy. lia. }
    pose proof (IH i x z Hx Hz). pose proof (Hstep _ _ _ Hz Hy). lia.
Qed.

Lemma scale_record_n_chain am ct f note :
  0 < am < ct -> ct <= 2 ^ 31 -> int_truediv am ct = Ok f ->
  forall k s s',
    0 <= load_units s < 2 ^ 20 ->
    scale_record_n f note k s = Ok s' ->
    exists xs : list Z,
      length xs = S k /\ xs !! 0%nat = Some (load_units s)
      /\ xs !! k = Some (load_units s')
      /\ forall j x y, xs !! j = Some x -> xs !! S j = Some y ->
           exists t, (p ← int_mul_float x f; int_of_float p) = Ok t
             /\ y = Z.max 20 t
             /\ x * am / ct - 1 <= t <= x * am / ct
             /\ ((x * am) mod ct <> 0 -> t = x * am / ct).
Proof.
  intros Ham Hct Hf. induction k as [|k IH]; intros s s' Hs H; cbn [scale_record_n] in H.
  - injection H as <-. exists [load_units s]. split; [reflexivity|].
    split; [reflexivity|]. split; [reflexivity|].
    intros j x y _ Hy. destruct j; discriminate Hy.
  - apply bind_Ok in H as (s1 & H1 & H).
    apply scale_record_Ok in H1 as (Hl1 & _ & _).
    destruct (int_scaled_floor am ct f (load_units s) Ham Hct Hf Hs) as (t & Ht & Hb & Hex).
    pose proof (scaled_load_of_int _ _ _ Ht) as Hl1'.
    rewrite Hl1 in Hl1'. injection Hl1' as Hl1'.
    assert (Hq : load_units s * am / ct <= load_units s).
    { apply Z.div_le_upper_bound; nia. }
    assert (Hq0 : 0 <= load_units s * am / ct) by (apply Z.div_pos; nia).
    destruct (IH s1 s') as (xs & Hlen & H0 & Hk & Hstep); [lia|exact H|].
    exists (load_units s :: xs). split; [cbn [length]; by rewrite Hlen|].
    split; [reflexivity|]. split; [exact Hk|].
    intros j x y Hx Hy. destruct j as [|j].
    + change (Some (load_units s) = Some x) in Hx.
      change (xs !! 0%nat = Some y) in Hy.
      injection Hx as <-. rewrite H0 in Hy. injection Hy as <-.
      exists t. split; [exact Ht|]. split; [exact Hl1'|]. split; [exact Hb|exact Hex].
    + change (xs !! j = Some x) in Hx. change (xs !! S j = Some y) in Hy.
      by eapply Hstep.
Qed.

(** C10 (as amended): when the boxing selector pads a request for [n > 3]
    sessions, the first [n - 2] entries of the plan are one and the same
    reference, that of catalog entry 0.  If the guardrail then scales the
    plan (total at most [2^31]), the loop body runs on that record once per
    occurrence.  Its loads form a chain [xs] of [n - 1] values from the
    catalog load to the final load, each step being
    [max(20, int(x * factor))] with [int(x * factor)] the integer part of
    [x * allowed_max / current_total] (or one below it when the quotient is
    exact).  The final load is at most one application [x1] of the formula,
    strictly below it when [x1] is above the floor of 20, and equal to it
    when [x1] is the floor.  The notes end with [n - 2] copies of the
    guardrail annotation, and every one of these entries shows the same
    final record. *)
Theorem padding_shares_record level n c L st sessions ct :
  3 < n -> 0 < L < 2 ^ 48 ->
  generate_boxing_sessions_template level n c = Ok (st, sessions) ->
  sum_load_units st sessions = Ok ct ->
  Z.max (11 * L / 10) (L + 20) < ct -> ct <= 2 ^ 31 ->
  let allowed_max := Z.max (11 * L / 10) (L + 20) in
  let note := guardrail_note L allowed_max in
  let k := Z.to_nat (n - 2) in
  (forall i, (i < k)%nat -> sessions !! i = Some 0%nat)
  /\ count_occ Nat.eq_dec sessions 0%nat = k
  /\ exists factor st' t0 t0' text (xs : list Z) x1,
       int_truediv allowed_max ct = Ok factor
       /\ apply_weekly_load_guardrail st sessions L = Ok (st', sessions)
       /\ st !! 0%nat = Some t0 /\ notes t0 = PyStr text
       /\ st' !! 0%nat = Some t0'
       /\ length xs = S k
       /\ xs !! 0%nat = Some (load_units t0)
       /\ xs !! 1%nat = Some x1
       /\ xs !! k = Some (load_units t0')
       /\ (forall j x y, xs !! j = Some x -> xs !! S j = Some y ->
             exists t, (p ← int_mul_float x factor; int_of_float p) = Ok t
               /\ y = Z.max 20 t
               /\ x * allowed_max / ct - 1 <= t <= x * allowed_max / ct
               /\ ((x * allowed_max) mod ct <> 0 -> t = x * allowed_max / ct))
       /\ notes t0' = PyStr (text +:+ concat_str (replicate k note))
       /\ (forall i, (i < k)%nat -> view st' sessions !! i = Some (Some t0'))
       /\ load_units t0' <= x1
       /\ (20 < x1 -> load_units t0' < x1)
       /\ (x1 = 20 -> load_units t0' = 20).
Proof.
  intros Hn HL Hgen Hct Hlt Hct31 am note k.
  pose proof (boxing_padded_plan level n c Hn) as Hgen'.
  rewrite Hgen in Hgen'. injection Hgen' as -> ->. fold k in Hct |- *.
  assert (Hhead : forall i, (i < k)%nat ->
            (replicate k 0 ++ [1; 2])%nat !! i = Some 0%nat).
  { intros i Hi. rewrite lookup_app_l by (by rewrite length_replicate).
    by apply lookup_replicate_2. }
  split; [exact Hhead|]. split; [apply count_occ_replicate_tail|].
  pose proof (boxing_templates_ok level c) as Hrec.
  destruct (boxing_templates_keys level c) as (Hlen & _ & _).
  assert (Hok : ok_refs (boxing_templates level c) (replicate k 0 ++ [1; 2])%nat).
  { apply Forall_forall. intros r Hr.
    assert (Hr' : (r < 3)%nat).
    { apply elem_of_app in Hr as [Hr|Hr].
      - apply elem_of_replicate in Hr as [-> _]. lia.
      - apply elem_of_cons in Hr as [->|Hr]; [lia|].
        apply list_elem_of_singleton in Hr as ->. lia. }
    destruct (lookup_lt_is_Some_2 (boxing_templates level c) r ltac:(lia)) as [s Hs].
    exists s. split; [done|].
    apply (proj1 (Forall_forall _ _) Hrec). by eapply list_elem_of_lookup_2. }
  assert (Ham : allowed_max_of L = Ok am) by (apply allowed_max_of_spec; lia).
  assert (Ham0 : 0 < am < ct) by (unfold am in *; lia).
  destruct (int_truediv_unit am ct) as (f & Hf & Hunit); [lia|lia|].
  destruct (scale_loop_ok f note _ _ Hunit Hok) as (st' & Hloop).
  destruct (lookup_lt_is_Some_2 (boxing_templates level c) 0 ltac:(lia)) as [t0 Ht0].
  assert (Htext : (exists text, notes t0 = PyStr text) /\ 0 <= load_units t0 < 2 ^ 20).
  { destruct (boxing_templates_cases level c) as [E | [E | E]]; rewrite E in Ht0;
      injection Ht0 as <-; (split; [eexists; reflexivity|cbn [load_units]; lia]). }
  destruct Htext as ((text & Htext) & Hload0).
  pose proof (scale_loop_spec _ _ _ _ _ Hloop) as (_ & Hspec).
  destruct (Hspec 0%nat t0 Ht0) as (t0' & Ht0' & Hn0).
  rewrite count_occ_replicate_tail in Hn0.
  destruct (scale_record_n_chain am ct f note Ham0 Hct31 Hf k t0 t0') as
    (xs & Hxlen & Hx0 & Hxk & Hstep); [lia|exact Hn0|].
  assert (Hk2 : (2 <= k)%nat) by (unfold k; lia).
  destruct (lookup_lt_is_Some_2 xs 1%nat ltac:(lia)) as [x1 Hx1].
  destruct (lookup_lt_is_Some_2 xs 2%nat ltac:(lia)) as [x2 Hx2].
  exists f, st', t0, t0', text, xs, x1.
  split; [assumption|]. split.
  { rewrite (guardrail_scaled _ _ _ ct am) by (assumption || lia).
    rewrite Hf. cbn [mbind exn_bind]. fold note. rewrite Hloop. reflexivity. }
  split; [assumption|]. split; [assumption|]. split; [assumption|].
  split; [assumption|]. split; [assumption|]. split; [assumption|].
  split; [assumption|]. split; [exact Hstep|].
  split; [by eapply scale_record_n_notes|].
  split.
  { intros i Hi. unfold view. rewrite list_lookup_fmap, (Hhead i Hi).
    cbn [fmap option_fmap option_map]. by rewrite Ht0'. }
  (* the loads never rise along the chain, and fall while above the floor *)
  assert (Hmono : forall j x y, xs !! j = Some x -> xs !! S j = Some y ->
            20 <= y <= Z.max 20 x /\ (20 < x -> y < x)).
  { intros j x y Hx Hy. destruct (Hstep j x y Hx Hy) as (t & _ & -> & [_ Hb] & _).
    assert (Hq : x * am / ct <= Z.max 20 x) by (apply Z.div_le_upper_bound; nia).
    split; [lia|]. intros Hx20.
    assert (Hq' : x * am / ct < x) by (apply Z.div_lt_upper_bound; nia).
    lia. }
  assert (Hlast : load_units t0' <= Z.max 20 x2).
  { apply (chain_bound xs (fun j x y Hx Hy => proj1 (Hmono j x y Hx Hy))
             (k - 2)%nat 2%nat x2 (load_units t0') Hx2).
    replace (2 + (k - 2))%nat with k by lia. exact Hxk. }
  destruct (Hmono 1%nat x1 x2 Hx1 Hx2) as (Hx2b & Hx2lt).
  assert (Hfloor : 20 <= load_units t0').
  { destruct (lookup_lt_is_Some_2 xs (k - 1)%nat ltac:(lia)) as [z Hz].
    assert (Hxk' : xs !! S (k - 1) = Some (load_units t0'))
      by (replace (S (k - 1)) with k by lia; exact Hxk).
    destruct (Hmono _ _ _ Hz Hxk') as (? & _). lia. }
  assert (Hx1b : 20 <= x1).
  { destruct (Hmono 0%nat _ x1 Hx0 Hx1) as (? & _). lia. }
  split; [lia|]. split; [intros H20; specialize (Hx2lt H20); lia|].
  intros ->. lia.
Qed.

(** ** Day resolution of the AI path *)

Lemma scan_days_find base offsets used :
  scan_days base offsets used =
    Ok (find (fun d => bool_decide (d ∉ used))
          (map (fun o => DAYS_ORDER !!! ((base + o) mod 7)%nat) offsets)).
Proof.
  induction offsets as [|o offsets IH]; [reflexivity|].
  cbn [scan_days map find]. unfold py_index.
  change (length DAYS_ORDER) with 7%nat.
  rewrite (list_lookup_lookup_total_lt DAYS_ORDER ((base + o) mod 7))
    by (change (length DAYS_ORDER) with 7%nat; apply Nat.mod_upper_bound; lia).
  cbn [mbind exn_bind]. repeat case_bool_decide; try done.
Qed.

Lemma scan_days_spec base used :
  (base < 7)%nat ->
  scan_days base (seq 0 (length DAYS_ORDER)) used = Ok (first_free_day base used).
Proof.
  intros Hb. rewrite scan_days_find. unfold first_free_day. do 2 f_equal.
  destruct base as [|[|[|[|[|[|[|base]]]]]]]; [reflexivity..|lia].
Qed.

Lemma list_index_lt x l i : list_index x l = Ok i -> l !! i = Some x.
Proof.
  revert i. induction l as [|y l IH]; intros i H; cbn [list_index] in H; [done|].
  case_bool_decide.
  - injection H as <-. by subst.
  - apply bind_Ok in H as (j & Hj & H). injection H as <-. by apply IH.
Qed.

Lemma list_index_elem x l : x ∈ l -> exists i, list_index x l = Ok i.
Proof.
  induction 1 as [x l|x y l _ (i & IH)]; cbn [list_index].
  - rewrite bool_decide_eq_true_2 by done. eauto.
  - case_bool_decide; [eauto|]. rewrite IH. cbn. eauto.
Qed.

Lemma canonical_day_elem v : canonical_day v ∈ DAYS_ORDER.
Proof.
  destruct v; cbn [canonical_day]; try (by apply list_elem_of_In; left).
  case_bool_decide; [done|]. by apply list_elem_of_In; left.
Qed.

Lemma NoDup_DAYS_ORDER : NoDup DAYS_ORDER.
Proof. apply (bool_decide_unpack (NoDup DAYS_ORDER)). vm_compute. exact I. Qed.

(** Fewer than seven days are taken: a free day exists. *)
Lemma first_free_day_Some base (used : gset string) :
  (size used < 7)%nat -> exists d, first_free_day base used = Some d.
Proof.
  intros Hsize. unfold first_free_day.
  destruct (find _ _) as [d|] eqn:Hfind; [eauto|exfalso].
  assert (Hsub : list_to_set DAYS_ORDER ⊆ used).
  { intros d Hd. apply elem_of_list_to_set in Hd.
    pose proof (find_none _ _ Hfind d) as Hnone. cbn beta in Hnone.
    destruct (decide (d ∈ used)) as [|Hnot]; [done|].
    rewrite bool_decide_eq_true_2 in Hnone by done.
    discriminate Hnone. apply list_elem_of_In. by apply elem_of_rotate. }
  apply subseteq_size in Hsub.
  rewrite size_list_to_set in Hsub by apply NoDup_DAYS_ORDER.
  change (length DAYS_ORDER) with 7%nat in Hsub. lia.
Qed.

Lemma first_free_day_spec base (used : gset string) d :
  first_free_day base used = Some d -> (d ∉ used) /\ (d ∈ DAYS_ORDER).
Proof.
  unfold first_free_day. intros H. apply find_some in H as [Hin Hd].
  apply bool_decide_eq_true_1 in Hd. split; [done|].
  apply list_elem_of_In in Hin. by apply elem_of_rotate in Hin.
Qed.

Section AIPathFacts.
Context {W : Type} (svc : services W).

(** What a successful run of the loop body gives. *)
Lemma sanitize_item_Ok sport c item used s used' :
  sanitize_item svc sport c item used = Ok (s, used') ->
  exists raw_day base found raw_intensity t raw_duration d raw_notes,
    py_get item "day" (PyStr "Mon") = Ok raw_day
    /\ list_index (canonical_day raw_day) DAYS_ORDER = Ok base
    /\ scan_days base (seq 0 (length DAYS_ORDER)) used = Ok found
    /\ (day s, used') =
         match found with
         | Some candidate_day => (candidate_day, {[candidate_day]} ∪ used)
         | None => (canonical_day raw_day, used)
         end
    /\ py_get item "focus" (PyStr (sport +:+ " session")) = Ok (focus s)
    /\ py_get item "intensity" (PyStr "Moderate") = Ok raw_intensity
    /\ py_title raw_intensity = Ok t
    /\ intensity s = (if bool_decide (t ∈ INTENSITIES) then t else "Moderate")
    /\ py_get item "duration_min" (PyInt 30) = Ok raw_duration
    /\ py_int svc raw_duration = Ok d
    /\ duration_min s = Z.max 20 (Z.min 60 d)
    /\ load_units s = intensity_factor (intensity s) * duration_min s
    /\ py_get item "notes" (PyStr EmptyString) = Ok raw_notes
    /\ py_iadd_str raw_notes (safety_postscript c) = Ok (notes s).
Proof.
  unfold sanitize_item. intros H.
  apply bind_Ok in H as (raw_day & Hday & H).
  apply bind_Ok in H as (base & Hbase & H).
  apply bind_Ok in H as (found & Hfound & H).
  exists raw_day, base, found.
  destruct (match found with
            | Some candidate_day => (candidate_day, {[candidate_day]} ∪ used)
            | None => (canonical_day raw_day, used)
            end) as [day1 used1] eqn:Hres.
  apply bind_Ok in H as (focus1 & Hfocus & H).
  apply bind_Ok in H as (raw_intensity & Hint & H).
  apply bind_Ok in H as (t & Htitle & H).
  apply bind_Ok in H as (raw_duration & Hdur & H).
  apply bind_Ok in H as (d & Hd & H).
  apply bind_Ok in H as (raw_notes & Hnotes & H).
  apply bind_Ok in H as (notes1 & Hadd & H).
  injection H as <- <-. cbn [day focus intensity duration_min load_units notes].
  exists raw_intensity, t, raw_duration, d, raw_notes.
  repeat (split; [assumption || reflexivity|]). assumption.
Qed.

(** C4: every session the sanitizer builds from a raw item has
    [duration_min] equal to the raw value (default 30) coerced by [int] and
    clamped to [20, 60]; its intensity is the title-cased raw value (default
    Moderate) when that is Easy, Moderate or Hard and Moderate otherwise;
    and its [load_units] is computed as factor times [duration_min], with
    factor 1 for Easy, 2 for Moderate and 3 for Hard. *)
Theorem ai_fields_sanitized sport c item used s used' :
  sanitize_item svc sport c item used = Ok (s, used') ->
  exists raw_duration d raw_intensity t,
    py_get item "duration_min" (PyInt 30) = Ok raw_duration
    /\ py_int svc raw_duration = Ok d
    /\ duration_min s = Z.max 20 (Z.min 60 d)
    /\ 20 <= duration_min s <= 60
    /\ py_get item "intensity" (PyStr "Moderate") = Ok raw_intensity
    /\ py_title raw_intensity = Ok t
    /\ intensity s = (if bool_decide (t ∈ INTENSITIES) then t else "Moderate")
    /\ ((intensity s = "Easy" /\ load_units s = 1 * duration_min s)
        \/ (intensity s = "Moderate" /\ load_units s = 2 * duration_min s)
        \/ (intensity s = "Hard" /\ load_units s = 3 * duration_min s)).
Proof.
  intros H.
  apply sanitize_item_Ok in H
    as (_ & _ & _ & ri & t & rd & d & _ & _ & _ & _ & _ & _ & Hi & Ht & Hint
        & Hd & Hpd & Hdur & Hload & _).
  exists rd, d, ri, t.
  split; [assumption|]. split; [assumption|]. split; [assumption|].
  split; [lia|]. split; [assumption|]. split; [assumption|].
  split; [assumption|].
  rewrite Hload.
  assert (Hin : intensity s ∈ INTENSITIES).
  { rewrite Hint. case_bool_decide; [assumption|].
    apply list_elem_of_In. right. by left. }
  unfold INTENSITIES in Hin.
  apply elem_of_cons in Hin as [->|Hin]; [left; by split|].
  apply elem_of_cons in Hin as [->|Hin]; [right; left; by split|].
  apply list_elem_of_singleton in Hin as ->. right; right; by split.
Qed.

(** The day the loop body assigns when fewer than seven days are taken. *)
Lemma sanitize_item_day sport c item (used : gset string) s used' :
  (size used < 7)%nat ->
  sanitize_item svc sport c item used = Ok (s, used') ->
  exists raw_day base,
    py_get item "day" (PyStr "Mon") = Ok raw_day
    /\ DAYS_ORDER !! base = Some (canonical_day raw_day)
    /\ first_free_day base used = Some (day s)
    /\ (day s ∉ used) /\ used' = {[day s]} ∪ used.
Proof.
  intros Hsize H.
  apply sanitize_item_Ok in H
    as (raw_day & base & found & _ & _ & _ & _ & _ & Hday & Hbase & Hfound & Hres & _).
  apply list_index_lt in Hbase.
  rewrite scan_days_spec in Hfound
    by (apply lookup_lt_Some in Hbase; exact Hbase).
  injection Hfound as <-.
  destruct (first_free_day_Some base used Hsize) as (d & Hd).
  rewrite Hd in Hres. injection Hres as -> ->.
  exists raw_day, base.
  split; [assumption|]. split; [assumption|]. split; [assumption|].
  split; [|reflexivity]. by apply first_free_day_spec in Hd as [? _].
Qed.

(** Invariant of the [for item in sessions_data] loop for a requested
    count of at most seven: the days assigned so far are distinct, and
    each new session comes from its item with the days of the sessions
    before it taken. *)
Lemma sanitize_loop_inv sport c n items : forall sessions used out,
  n <= 7 ->
  used = list_to_set (day <$> sessions) ->
  NoDup (day <$> sessions) ->
  sanitize_loop svc sport c n items sessions used = Ok out ->
  NoDup (day <$> out)
  /\ exists new, out = sessions ++ new
       /\ forall k s, new !! k = Some s ->
            exists item used',
              items !! k = Some item
              /\ sanitize_item svc sport c item
                   (list_to_set (day <$> (sessions ++ take k new))) = Ok (s, used').
Proof.
  induction items as [|item items IH]; intros sessions used out Hn Hused Hnd H;
    cbn [sanitize_loop] in H.
  - injection H as <-. split; [assumption|]. exists []. rewrite app_nil_r.
    split; [reflexivity|]. intros k s Hk. by rewrite lookup_nil in Hk.
  - destruct (Z.leb_spec n (Z.of_nat (length sessions))) as [Hfull|Hroom].
    { injection H as <-. split; [assumption|]. exists []. rewrite app_nil_r.
      split; [reflexivity|]. intros k s Hk. by rewrite lookup_nil in Hk. }
    apply bind_Ok in H as ([s used1] & Hitem & H).
    assert (Hsize : (size used < 7)%nat).
    { rewrite Hused, size_list_to_set, length_fmap by assumption. lia. }
    destruct (sanitize_item_day _ _ _ _ _ _ Hsize Hitem)
      as (rd0 & b0 & _ & _ & _ & Hfresh & Hused1).
    destruct (IH (sessions ++ [s]) used1 out Hn) as (Hnd' & new & Hout & Hnew).
    + rewrite Hused1, Hused, fmap_app. change (day <$> [s]) with [day s].
      rewrite list_to_set_snoc_L. apply union_comm_L.
    + rewrite fmap_app. apply NoDup_app. split; [assumption|]. split.
      * intros d Hd Hd'. change (day <$> [s]) with [day s] in Hd'.
        apply list_elem_of_singleton in Hd'. rewrite Hd' in Hd.
        apply Hfresh. rewrite Hused. by apply elem_of_list_to_set.
      * apply NoDup_singleton.
    + exact H.
    + split; [assumption|]. exists (s :: new).
      split; [by rewrite Hout, <- app_assoc|].
      intros [|k] s' Hk; cbn [lookup list_lookup take] in *.
      * injection Hk as <-. exists item, used1. split; [reflexivity|].
        rewrite app_nil_r, <- Hused. exact Hitem.
      * destruct (Hnew k s' Hk) as (item' & used' & Hi & Hs).
        exists item', used'. split; [assumption|].
        rewrite <- app_assoc in Hs. exact Hs.
Qed.

Lemma generate_sessions_ai_Some sport level n L c w st sessions :
  (generate_sessions_ai svc sport level n L c w).1 = Some (st, sessions) ->
  OPENAI_AVAILABLE svc = true
  /\ exists target content data sessions_data items,
       total_minutes_target level n L = Ok target
       /\ (chat_completion svc (build_prompt sport level n target c) w).1 = Ok content
       /\ json_loads svc (strip_fence content) = Ok data
       /\ py_get data "sessions" (PyList []) = Ok sessions_data
       /\ py_iter sessions_data = Ok items
       /\ sanitize_loop svc sport c n items [] ∅ = Ok st
       /\ st <> []
       /\ sessions = sort_by_key (session_key st) (seq 0 (length st)).
Proof.
  unfold generate_sessions_ai. intros H.
  destruct (OPENAI_AVAILABLE svc); [|discriminate H]. split; [reflexivity|].
  cbn [negb] in H. unfold generate_sessions_ai_try in H.
  destruct (total_minutes_target level n L) as [target|e]; [|discriminate H].
  destruct (chat_completion svc (build_prompt sport level n target c) w)
    as [[content|e] w'] eqn:Hchat; [|discriminate H].
  cbn [fst mbind exn_bind] in H.
  destruct (sessions_of_content svc sport n c content) as [r|e] eqn:Htry;
    [|discriminate H].
  cbn [fst] in H. subst r. unfold sessions_of_content in Htry.
  apply bind_Ok in Htry as (data & Hdata & Htry).
  apply bind_Ok in Htry as (sessions_data & Hsd & Htry).
  apply bind_Ok in Htry as (items & Hitems & Htry).
  apply bind_Ok in Htry as (st1 & Hloop & Htry).
  exists target, content, data, sessions_data, items.
  destruct st1 as [|s1 st1]; [discriminate Htry|].
  injection Htry as <- <-.
  split; [reflexivity|]. split; [by rewrite Hchat|].
  repeat (split; [assumption|]). split; [discriminate|reflexivity].
Qed.

(** At most one request is made, and none without a client. *)
Lemma generate_sessions_ai_world sport level n L c w :
  (OPENAI_AVAILABLE svc = false -> (generate_sessions_ai svc sport level n L c w).2 = w)
  /\ ((generate_sessions_ai svc sport level n L c w).2 = w
      \/ exists target,
           total_minutes_target level n L = Ok target
           /\ (generate_sessions_ai svc sport level n L c w).2 =
                (chat_completion svc (build_prompt sport level n target c) w).2).
Proof.
  unfold generate_sessions_ai, generate_sessions_ai_try.
  destruct (OPENAI_AVAILABLE svc); cbn [negb]; [|split; [reflexivity|by left]].
  split; [discriminate|].
  destruct (total_minutes_target level n L) as [target|e]; [|by left].
  right. exists target. split; [reflexivity|].
  by destruct (chat_completion svc (build_prompt sport level n target c) w).
Qed.
End AIPathFacts.

Lemma plan_days_NoDup (st : store) sessions :
  sessions ≡ₚ seq 0 (length st) -> NoDup (day <$> st) -> NoDup (plan_days st sessions).
Proof.
  intros Hperm Hnd. unfold plan_days.
  change (NoDup ((fun r => day <$> st !! r) <$> sessions)).
  rewrite Hperm.
  assert (Heq : (fun r => day <$> st !! r) <$> seq 0 (length st) = Some <$> (day <$> st)).
  { apply list_eq. intros i. rewrite !list_lookup_fmap.
    destruct (decide (i < length st)%nat) as [Hi|Hi].
    - rewrite lookup_seq_lt by assumption.
      destruct (lookup_lt_is_Some_2 st i Hi) as [s Hs]. cbn. by rewrite Hs.
    - rewrite lookup_seq_ge by lia. rewrite (lookup_ge_None_2 st i) by lia. done. }
  rewrite Heq. apply NoDup_fmap_2; [apply _|assumption].
Qed.

Lemma canonical_day_cases v :
  (forall d, v = PyStr d -> d ∈ DAYS_ORDER -> canonical_day v = d)
  /\ ((forall d, v = PyStr d -> d ∉ DAYS_ORDER) -> canonical_day v = "Mon").
Proof.
  split.
  - intros d -> Hd. cbn [canonical_day]. by rewrite bool_decide_eq_true_2.
  - intros Hno. destruct v; try reflexivity. cbn [canonical_day].
    rewrite bool_decide_eq_false_2; [reflexivity|]. by apply Hno.
Qed.

(** C3: for every requested count of at most 7 and every response, the
    plan the AI path returns has pairwise-distinct days.  Session [k] of
    the response starts from a base day: the day of its item when that is
    the text of one of the seven days, and Mon otherwise (no day, a value
    that is not text, or any other text).  It gets the first day, scanning
    the seven days cyclically forward from the index of the base day, that
    no earlier session of the same response holds. *)
Theorem ai_days_distinct {W} (svc : services W) sport level n L c w st sessions :
  n <= 7 ->
  (generate_sessions_ai svc sport level n L c w).1 = Some (st, sessions) ->
  NoDup (plan_days st sessions)
  /\ sessions ≡ₚ seq 0 (length st)
  /\ exists target content data sessions_data items,
       total_minutes_target level n L = Ok target
       /\ (chat_completion svc (build_prompt sport level n target c) w).1 = Ok content
       /\ json_loads svc (strip_fence content) = Ok data
       /\ py_get data "sessions" (PyList []) = Ok sessions_data
       /\ py_iter sessions_data = Ok items
       /\ forall k s, st !! k = Some s ->
            exists item raw_day base_day base,
              items !! k = Some item
              /\ py_get item "day" (PyStr "Mon") = Ok raw_day
              /\ (forall d, raw_day = PyStr d -> d ∈ DAYS_ORDER -> base_day = d)
              /\ ((forall d, raw_day = PyStr d -> d ∉ DAYS_ORDER) -> base_day = "Mon")
              /\ DAYS_ORDER !! base = Some base_day
              /\ first_free_day base (list_to_set (day <$> take k st)) = Some (day s).
Proof.
  intros Hn H.
  apply generate_sessions_ai_Some in H
    as (_ & target & content & data & sd & items & Ht & Hc & Hd & Hsd & Hit & Hloop
        & _ & ->).
  destruct (sanitize_loop_inv svc sport c n items [] ∅ st Hn) as (Hnd & new & Hst & Hnew);
    [reflexivity|constructor|assumption|].
  cbn [app] in Hst. subst new.
  assert (Hperm : sort_by_key (session_key st) (seq 0 (length st)) ≡ₚ seq 0 (length st))
    by apply sort_by_key_perm.
  split; [by apply plan_days_NoDup|]. split; [assumption|].
  exists target, content, data, sd, items.
  repeat (split; [assumption|]).
  intros k s Hk.
  destruct (Hnew k s Hk) as (item & used' & Hitem & Hs). cbn [app] in Hs.
  assert (Hsize : (size (list_to_set (day <$> take k st) : gset string) < 7)%nat).
  { assert (Hk' : (k < length st)%nat) by (by eapply lookup_lt_Some).
    assert (Hlen : Z.of_nat (length st) <= 7).
    { (* every append happened below the requested count *)
      clear -Hloop Hn. 
      assert (Hgen : forall items sessions used out,
        sanitize_loop svc sport c n items sessions used = Ok out ->
        Z.of_nat (length out) <= Z.max n (Z.of_nat (length sessions))).
      { clear. induction items as [|item items IH]; intros sessions used out H;
          cbn [sanitize_loop] in H.
        - injection H as <-. lia.
        - destruct (Z.leb_spec n (Z.of_nat (length sessions))); [injection H as <-; lia|].
          apply bind_Ok in H as ([s u] & _ & H). apply IH in H.
          rewrite length_app in H. cbn [length] in H. lia. }
      apply Hgen in Hloop. cbn [length] in Hloop. lia. }
    rewrite size_list_to_set.
    - rewrite length_fmap, length_take. lia.
    - rewrite fmap_take. eapply sublist_NoDup; [exact Hnd|apply sublist_take]. }
  destruct (sanitize_item_day svc _ _ _ _ _ _ Hsize Hs)
    as (raw_day & base & Hrd & Hbase & Hfree & _).
  destruct (canonical_day_cases raw_day) as (Hin & Hout).
  exists item, raw_day, (canonical_day raw_day), base.
  repeat (split; [assumption|]). assumption.
Qed.

(** ** Fallback of the orchestrator *)

Lemma week_plan_fallback {W} (svc : services W) sport level n L c w :
  (generate_sessions_ai svc sport level n L c w).1 = None ->
  (generate_week_plan svc sport level n L c w).1 =
    (plan ← template_sessions sport level n c;
     apply_weekly_load_guardrail plan.1 plan.2 L).
Proof.
  unfold generate_week_plan.
  destruct (generate_sessions_ai svc sport level n L c w) as [ai w'].
  cbn [fst]. by intros ->.
Qed.

(** Only the AI result is used when there is one: nothing of the templates
    is merged into it. *)
Lemma week_plan_uses_ai_only {W} (svc : services W) sport level n L c w st sessions :
  (generate_sessions_ai svc sport level n L c w).1 = Some (st, sessions) ->
  (generate_week_plan svc sport level n L c w).1 =
    apply_weekly_load_guardrail st sessions L.
Proof.
  intros H. unfold generate_week_plan.
  pose proof (generate_sessions_ai_Some svc _ _ _ _ _ _ _ _ H)
    as (_ & tg & ct & dt & sd & it & _ & _ & _ & _ & _ & _ & Hne & Hsort).
  destruct (generate_sessions_ai svc sport level n L c w) as [ai w'].
  cbn [fst] in *. subst ai.
  destruct st as [|s st]; [done|].
  pose proof (sort_by_key_perm (session_key (s :: st)) (seq 0 (length (s :: st)))) as Hp.
  rewrite <- Hsort in Hp.
  destruct sessions as [|r rs]; [|reflexivity].
  apply Permutation_length in Hp. rewrite length_seq in Hp. discriminate Hp.
Qed.

(** The orchestrator makes no request of its own. *)
Lemma week_plan_world {W} (svc : services W) sport level n L c w :
  (generate_week_plan svc sport level n L c w).2 =
    (generate_sessions_ai svc sport level n L c w).2.
Proof.
  unfold generate_week_plan.
  by destruct (generate_sessions_ai svc sport level n L c w).
Qed.

Lemma ai_try_client_raises {W} (svc : services W) sport level n L c w target e :
  total_minutes_target level n L = Ok target ->
  (chat_completion svc (build_prompt sport level n target c) w).1 = Raise e ->
  (generate_sessions_ai_try svc sport level n L c w).1 = Raise e.
Proof.
  intros Ht Hc. unfold generate_sessions_ai_try. rewrite Ht.
  destruct (chat_completion svc (build_prompt sport level n target c) w) as [r w'].
  cbn [fst] in *. by rewrite Hc.
Qed.

Lemma ai_try_parse_raises {W} (svc : services W) sport level n L c w target content e :
  total_minutes_target level n L = Ok target ->
  (chat_completion svc (build_prompt sport level n target c) w).1 = Ok content ->
  json_loads svc (strip_fence content) = Raise e ->
  (generate_sessions_ai_try svc sport level n L c w).1 = Raise e.
Proof.
  intros Ht Hc Hp. unfold generate_sessions_ai_try. rewrite Ht.
  destruct (chat_completion svc (build_prompt sport level n target c) w) as [r w'].
  cbn [fst] in *. rewrite Hc. cbn [mbind exn_bind].
  unfold sessions_of_content. by rewrite Hp.
Qed.

(** C2: when no client is configured, or when anything in the request,
    parse and sanitize pipeline raises, [generate_sessions_ai] returns the
    failure signal [None] and [generate_week_plan] returns exactly the
    guardrail applied to the template plan: the boxing catalog when the
    lower-cased sport is "boxing", the generic generator otherwise.  The
    world is left as the AI attempt left it: untouched without a client,
    and after at most one request otherwise (no retry). *)
Theorem ai_failure_falls_back {W} (svc : services W) sport level n L c w :
  OPENAI_AVAILABLE svc = false
  \/ (exists e, (generate_sessions_ai_try svc sport level n L c w).1 = Raise e) ->
  (generate_sessions_ai svc sport level n L c w).1 = None
  /\ (generate_week_plan svc sport level n L c w).1 =
       (plan ← (if bool_decide (lower sport = "boxing")
                then generate_boxing_sessions_template level n c
                else generate_generic_sessions_template sport level n c);
        apply_weekly_load_guardrail plan.1 plan.2 L)
  /\ (OPENAI_AVAILABLE svc = false -> (generate_week_plan svc sport level n L c w).2 = w)
  /\ ((generate_week_plan svc sport level n L c w).2 = w
      \/ exists target,
           total_minutes_target level n L = Ok target
           /\ (generate_week_plan svc sport level n L c w).2 =
                (chat_completion svc (build_prompt sport level n target c) w).2).
Proof.
  intros Hfail.
  assert (Hnone : (generate_sessions_ai svc sport level n L c w).1 = None).
  { unfold generate_sessions_ai. destruct Hfail as [-> | (e & He)]; [reflexivity|].
    destruct (negb _); [reflexivity|].
    destruct (generate_sessions_ai_try svc sport level n L c w) as [r w'].
    cbn [fst] in *. by rewrite He. }
  split; [assumption|]. split; [by rewrite week_plan_fallback|].
  rewrite week_plan_world. apply generate_sessions_ai_world.
Qed.

(** * Further properties of the plan pipeline *)

(** ** The minutes target of the prompt *)

(** [int(last_week_load * 0.8)] is the integer part of four fifths. *)
Lemma int_mul_0_8 L :
  0 <= L < 2 ^ 48 ->
  (x ← int_mul_float L lit_0_8; int_of_float x) = Ok (4 * L / 5).
Proof.
  intros HL. set (n := 4 * L / 5).
  assert (Hn : 5 * n <= 4 * L < 5 * n + 5).
  { unfold n. pose proof (Z.div_mod (4 * L) 5 ltac:(lia)).
    pose proof (Z.mod_pos_bound (4 * L) 5 ltac:(lia)). lia. }
  destruct (int_mul_float_between L 7205759403792794 53 4 (16 * n) (16 * n + 15))
    as (m' & k' & Hr & Hk' & Hb'); [lia|lia|lia|lia|lia|].
  assert (Hlit : lit_0_8 = Finite 7205759403792794 (Z.opp 53)) by reflexivity.
  rewrite Hlit, Hr. unfold mbind, exn_bind. rewrite int_of_float_finite by done.
  f_equal.
  assert (Hp : 0 < 2 ^ k') by (apply Z.pow_pos_nonneg; lia).
  change (2 ^ 4) with 16 in Hb'.
  assert (0 <= n) by lia. assert (0 <= m') by nia.
  rewrite Z.quot_div_nonneg by lia.
  symmetry. apply Z.div_unique with (m' - n * 2 ^ k'); nia.
Qed.

(** X6: for a prior load [0 < L < 2^48] the minutes target written into the
    prompt is the integer part of four fifths of the load, clamped to
    [60, 300]: [int(L * 0.8)] is [4 * L / 5] exactly, whatever the level and
    the requested count. *)
Theorem minutes_target_spec level n L :
  0 < L < 2 ^ 48 ->
  total_minutes_target level n L = Ok (Z.max 60 (Z.min 300 (4 * L / 5)))
  /\ 60 <= Z.max 60 (Z.min 300 (4 * L / 5)) <= 300.
Proof.
  intros HL. split; [|lia].
  unfold total_minutes_target.
  destruct (L <=? 0) eqn:H0; [apply Z.leb_le in H0; lia|].
  pose proof (int_mul_0_8 L ltac:(lia)) as H.
  destruct (int_mul_float L lit_0_8) as [x|]; cbn [mbind exn_bind] in *; [|discriminate H].
  rewrite H. reflexivity.
Qed.

(** ** The generic template *)

Lemma day_index_get_lookup b d :
  DAYS_ORDER !! b = Some d -> day_index_get d = Z.of_nat b.
Proof.
  intros H.
  do 7 (destruct b as [|b]; [injection H as <-; reflexivity|]).
  discriminate H.
Qed.

Lemma sorted_by_seq_mono (key : nat -> Z) k : forall a,
  (forall i j, (a <= i)%nat -> (i < j)%nat -> (j < a + k)%nat -> key i <= key j) ->
  sorted_by key (seq a k).
Proof.
  unfold sorted_by. induction k as [|k IH]; intros a H; cbn [seq]; constructor.
  - apply IH. intros i j Hi Hij Hj. apply H; lia.
  - apply Forall_forall. intros j Hj. apply elem_of_seq in Hj. apply H; lia.
Qed.


Lemma generic_store sport c k :
  exists st, generic_loop sport c (seq 0 k) [] = Ok st
    /\ length st = k
    /\ forall i s, st !! i = Some s -> generic_session sport c i = Ok s.
Proof.
  destruct (generic_loop_spec sport c (seq 0 k) []) as (st & H & Hlen & Hst).
  cbn [app] in H. exists st. split; [exact H|].
  rewrite length_seq in Hlen. split; [exact Hlen|].
  intros i s Hs.
  assert (Hi : (i < k)%nat) by (rewrite <- Hlen; by eapply lookup_lt_Some).
  destruct (Hst i i) as (s' & Hs' & Hg); [by apply lookup_seq_lt|].
  rewrite Hs in Hs'. by injection Hs' as <-.
Qed.

(** Session [i] of the generic generator. *)
Lemma generic_store_records sport c k st :
  generic_loop sport c (seq 0 k) [] = Ok st ->
  length st = k
  /\ forall i s, st !! i = Some s ->
       generic_days !! (i mod 7)%nat = Some (day s)
       /\ DAYS_ORDER !! ((i * 2) mod 7)%nat = Some (day s)
       /\ intensity s = "Moderate" /\ duration_min s = 30 /\ load_units s = 40
       /\ ok_record s.
Proof.
  intros Hloop.
  destruct (generic_store sport c k) as (st' & Hloop' & Hlen & Hst).
  rewrite Hloop in Hloop'. injection Hloop' as <-.
  split; [exact Hlen|]. intros i s Hs. apply Hst in Hs.
  destruct (generic_session_day sport c i) as (s' & Hs' & Hd & Hok).
  rewrite Hs in Hs'. injection Hs' as <-.
  assert (Hgd : DAYS_ORDER !! ((i * 2) mod 7)%nat = generic_days !! (i mod 7)%nat).
  { replace ((i * 2) mod 7)%nat with (((i mod 7) * 2) mod 7)%nat
      by (rewrite Nat.Div0.mul_mod_idemp_l; reflexivity).
    pose proof (Nat.mod_upper_bound i 7 ltac:(lia)) as Hb.
    destruct (i mod 7)%nat as [|[|[|[|[|[|[|j]]]]]]]; [reflexivity..|lia]. }
  split; [by rewrite <- Hgd|]. split; [exact Hd|].
  unfold generic_session in Hs.
  destruct (py_index DAYS_ORDER ((i * 2) mod length DAYS_ORDER)) as [d|];
    cbn [mbind exn_bind] in Hs; [|discriminate Hs].
  injection Hs as <-. split; [reflexivity|]. split; [reflexivity|].
  split; [reflexivity|exact Hok].
Qed.

(** X7: the generic generator returns [max 0 n] fresh sessions in the
    order it built them; session [i] is on day [i mod 7] of Mon, Wed, Fri,
    Sun, Tue, Thu, Sat, Moderate, 30 minutes, load 40.  Up to seven sessions
    are on pairwise distinct days, up to four are in day order, and from
    eight on the eighth session repeats the Monday of the first. *)
Theorem generic_template_days sport level n c :
  exists st,
    generate_generic_sessions_template sport level n c = Ok (st, seq 0 (length st))
    /\ length st = Z.to_nat n
    /\ (forall i s, st !! i = Some s ->
          generic_days !! (i mod 7)%nat = Some (day s)
          /\ intensity s = "Moderate" /\ duration_min s = 30 /\ load_units s = 40)
    /\ (n <= 7 -> NoDup (plan_days st (seq 0 (length st))))
    /\ (n <= 4 -> sorted_by (session_key st) (seq 0 (length st)))
    /\ (8 <= n -> day <$> st !! 7%nat = Some "Mon" /\ day <$> st !! 0%nat = Some "Mon").
Proof.
  destruct (generic_store sport c (Z.to_nat n)) as (st & Hloop & _ & _).
  destruct (generic_store_records sport c _ st Hloop) as (Hlen & Hrec).
  exists st. unfold generate_generic_sessions_template. rewrite Hloop.
  cbn [mbind exn_bind]. split; [reflexivity|]. split; [exact Hlen|].
  split.
  { intros i s Hs. destruct (Hrec i s Hs) as (Hg & _ & Hi & Hd & Hl & _).
    split; [exact Hg|]. split; [exact Hi|]. split; [exact Hd|exact Hl]. }
  split.
  { intros Hn. apply plan_days_NoDup; [reflexivity|].
    assert (Heq : day <$> st = take (length st) generic_days).
    { apply list_eq. intros i. rewrite list_lookup_fmap.
      destruct (decide (i < length st)%nat) as [Hi|Hi].
      - destruct (lookup_lt_is_Some_2 st i Hi) as [s Hs]. rewrite Hs.
        cbn [fmap option_fmap option_map].
        rewrite lookup_take_lt by assumption.
        destruct (Hrec i s Hs) as (Hd & _).
        rewrite Nat.mod_small in Hd by lia. by rewrite Hd.
      - rewrite (lookup_ge_None_2 st i) by lia.
        rewrite lookup_take_ge by lia. reflexivity. }
    rewrite Heq. eapply sublist_NoDup; [|apply sublist_take].
    apply (bool_decide_unpack (NoDup generic_days)). vm_compute. exact I. }
  split.
  { intros Hn. apply sorted_by_seq_mono. intros i j _ Hij Hj.
    destruct (lookup_lt_is_Some_2 st i ltac:(lia)) as [si Hsi].
    destruct (lookup_lt_is_Some_2 st j ltac:(lia)) as [sj Hsj].
    unfold session_key. rewrite Hsi, Hsj.
    destruct (Hrec i si Hsi) as (_ & Hdi & _). destruct (Hrec j sj Hsj) as (_ & Hdj & _).
    rewrite (day_index_get_lookup _ _ Hdi), (day_index_get_lookup _ _ Hdj).
    rewrite !Nat.mod_small by lia. lia. }
  intros Hn.
  destruct (lookup_lt_is_Some_2 st 7 ltac:(lia)) as [s7 Hs7].
  destruct (lookup_lt_is_Some_2 st 0 ltac:(lia)) as [s0 Hs0].
  destruct (Hrec 7%nat s7 Hs7) as (Hd7 & _). destruct (Hrec 0%nat s0 Hs0) as (Hd0 & _).
  rewrite Hs7, Hs0. cbn [fmap option_fmap option_map].
  cbn in Hd7, Hd0. injection Hd7 as <-. injection Hd0 as <-. split; reflexivity.
Qed.

(** ** What the guardrail achieves *)

(** The scaling branch on a plan of distinct records: the loop body runs
    once on each. *)
Lemma guardrail_scaled_records st sessions L ct :
  NoDup sessions -> ok_refs st sessions -> 0 < L < 2 ^ 48 ->
  sum_load_units st sessions = Ok ct ->
  Z.max (11 * L / 10) (L + 20) < ct ->
  let am := Z.max (11 * L / 10) (L + 20) in
  exists f st',
    int_truediv am ct = Ok f /\ unit_float f
    /\ apply_weekly_load_guardrail st sessions L = Ok (st', sessions)
    /\ forall r s, r ∈ sessions -> st !! r = Some s ->
         exists s', st' !! r = Some s'
           /\ scaled_load f (load_units s) = Ok (load_units s').
Proof.
  intros Hnd Hok HL Hct Hlt am.
  assert (Ham : allowed_max_of L = Ok am) by (apply allowed_max_of_spec; lia).
  destruct (int_truediv_unit am ct) as (f & Hf & Hunit); [unfold am; lia|lia|].
  destruct (scale_loop_ok f (guardrail_note L am) sessions st Hunit Hok) as (st' & Hloop).
  exists f, st'. split; [exact Hf|]. split; [exact Hunit|]. split.
  { rewrite (guardrail_scaled _ _ _ ct am) by (assumption || lia).
    rewrite Hf. cbn [mbind exn_bind]. rewrite Hloop. reflexivity. }
  apply scale_loop_spec in Hloop as (_ & Hrec).
  intros r s Hr Hs. destruct (Hrec r s Hs) as (s' & Hs' & Hn).
  rewrite count_occ_NoDup_1 in Hn by assumption. cbn [scale_record_n] in Hn.
  apply bind_Ok in Hn as (s1 & H1 & Hn). injection Hn as ->.
  exists s'. split; [exact Hs'|].
  by apply scale_record_Ok in H1 as (Hload & _ & _).
Qed.

(** The totals before and after, weighted: every entry above the floor
    carries at most its share of the allowed maximum. *)
Lemma sum_load_units_scaled am ct st st' sessions : forall T,
  0 <= ct ->
  (forall r, r ∈ sessions -> exists s s',
      st !! r = Some s /\ st' !! r = Some s'
      /\ (load_units s' = 20 \/ ct * load_units s' <= am * load_units s)
      /\ 0 <= am * load_units s) ->
  sum_load_units st sessions = Ok T ->
  exists T', sum_load_units st' sessions = Ok T'
    /\ ct * T' <= am * T + ct * (20 * Z.of_nat (at_floor st' sessions)).
Proof.
  intros T Hct. revert T.
  induction sessions as [|r0 sessions IH]; intros T Hpt Hsum; cbn [sum_load_units] in *.
  - injection Hsum as <-. exists 0. split; [reflexivity|]. unfold at_floor. cbn. lia.
  - apply bind_Ok in Hsum as (s0 & Hs0 & Hsum).
    apply bind_Ok in Hsum as (T0 & HT0 & Hsum). injection Hsum as <-.
    apply deref_Ok in Hs0.
    destruct (Hpt r0) as (s & s0' & Hs & Hs0' & Hcase & Hnn); [left|].
    rewrite Hs0 in Hs. injection Hs as <-.
    destruct (IH T0) as (T0' & HT0' & Hle); [|exact HT0|].
    { intros r Hr. apply Hpt. by right. }
    unfold deref. rewrite Hs0', HT0'. cbn [mbind exn_bind].
    eexists. split; [reflexivity|].
    unfold at_floor in *. rewrite filter_cons. rewrite Hs0'.
    cbn [fmap option_fmap option_map].
    destruct (decide (Some (load_units s0') = Some 20)) as [Heq|Hne]; cbn [length].
    + injection Heq as Heq. rewrite Heq. nia.
    + destruct Hcase as [Heq|Hle']; [by rewrite Heq in Hne|]. nia.
Qed.

(** X4: when the guardrail scales a plan of distinct records (total at most
    [2^31], loads in [0, 2^20)), the new total is at most the allowed
    maximum plus 20 for every session that ends at the floor of 20.  The
    target is met when no session ends at the floor; the floor can carry
    the total above it. *)
Theorem guardrail_total_bound st sessions L ct :
  NoDup sessions -> ok_refs st sessions -> 0 < L < 2 ^ 48 ->
  sum_load_units st sessions = Ok ct ->
  Z.max (11 * L / 10) (L + 20) < ct -> ct <= 2 ^ 31 ->
  (forall r s, r ∈ sessions -> st !! r = Some s -> 0 <= load_units s < 2 ^ 20) ->
  let allowed_max := Z.max (11 * L / 10) (L + 20) in
  exists st' ct',
    apply_weekly_load_guardrail st sessions L = Ok (st', sessions)
    /\ sum_load_units st' sessions = Ok ct'
    /\ ct' <= allowed_max + 20 * Z.of_nat (at_floor st' sessions)
    /\ (at_floor st' sessions <= length sessions)%nat.
Proof.
  intros Hnd Hok HL Hct Hlt Hsmall Hloads am.
  destruct (guardrail_scaled_records st sessions L ct Hnd Hok HL Hct Hlt)
    as (f & st' & Hf & _ & Hrun & Hrec). fold am in Hf.
  destruct (sum_load_units_scaled am ct st st' sessions ct) as (ct' & Hct' & Hle);
    [lia| |exact Hct|].
  { intros r Hr.
    pose proof (proj1 (Forall_forall _ _) Hok r Hr) as (s & Hs & _).
    destruct (Hrec r s Hr Hs) as (s' & Hs' & Hload).
    specialize (Hloads r s Hr Hs).
    exists s, s'. split; [exact Hs|]. split; [exact Hs'|].
    split; [|unfold am; nia].
    destruct (int_scaled_floor am ct f (load_units s)) as (t & Ht & Hb & _);
      [unfold am; lia|assumption|assumption|assumption|].
    apply scaled_load_of_int in Ht. rewrite Hload in Ht. injection Ht as Ht.
    destruct (Z_le_gt_dec t 20) as [Hfl|Hfl]; [left; lia|right].
    rewrite Ht, Z.max_r by lia.
    pose proof (Z.mul_div_le (load_units s * am) ct ltac:(lia)). nia. }
  exists st', ct'. split; [exact Hrun|]. split; [exact Hct'|].
  split; [|unfold at_floor; apply length_filter].
  assert (ct * ct' <= ct * (am + 20 * Z.of_nat (at_floor st' sessions))) by lia.
  apply Z.mul_le_mono_pos_l with ct; lia.
Qed.

(** Scaling keeps the order of two loads. *)
Lemma scaling_keeps_order am ct f x y lx ly :
  0 < am < ct -> ct <= 2 ^ 31 -> int_truediv am ct = Ok f ->
  0 <= x <= y -> y < 2 ^ 20 ->
  scaled_load f x = Ok lx -> scaled_load f y = Ok ly -> lx <= ly.
Proof.
  intros Ham Hct Hf Hx Hy Hlx Hly.
  destruct (int_scaled_floor am ct f x) as (tx & Htx & Hbx & Hex);
    [assumption|assumption|assumption|lia|].
  destruct (int_scaled_floor am ct f y) as (ty & Hty & Hby & Hey);
    [assumption|assumption|assumption|lia|].
  pose proof (scaled_load_of_int _ _ _ Htx) as Htx'.
  pose proof (scaled_load_of_int _ _ _ Hty) as Hty'.
  rewrite Hlx in Htx'. rewrite Hly in Hty'. injection Htx' as ->. injection Hty' as ->.
  assert (tx <= ty); [|lia].
  assert (Hq : x * am / ct <= y * am / ct) by (apply Z.div_le_mono; nia).
  destruct (Z.eq_dec ((y * am) mod ct) 0) as [H0|H0]; [|specialize (Hey H0); lia].
  destruct (Z.eq_dec (x * am / ct) (y * am / ct)) as [Heq|Hneq]; [|lia].
  (* an exact quotient of [y] reached by [x] forces [x = y] *)
  assert (Hy0 : y * am = ct * (y * am / ct)).
  { pose proof (Z.div_mod (y * am) ct ltac:(lia)). lia. }
  pose proof (Z.mul_div_le (x * am) ct ltac:(lia)) as Hxq.
  assert (x = y) by nia. subst y. rewrite Htx in Hty. injection Hty as ->. lia.
Qed.

(** ** The plan of the AI path *)

Lemma first_free_day_head base (used : gset string) d :
  DAYS_ORDER !! base = Some d -> d ∉ used -> first_free_day base used = Some d.
Proof.
  intros Hb Hd. unfold first_free_day.
  assert (Hrot : exists tl, rotate base DAYS_ORDER = d :: tl).
  { do 7 (destruct base as [|base]; [injection Hb as <-; eexists; reflexivity|]).
    discriminate Hb. }
  destruct Hrot as (tl & ->). cbn [find].
  by rewrite bool_decide_eq_true_2.
Qed.

Lemma sanitized_limits s : sanitized s -> ok_record s /\ within_limits s.
Proof.
  intros (_ & Hi & Hd & Hl & Hn). unfold ok_record, within_limits.
  assert (Hf : 1 <= intensity_factor (intensity s) <= 3).
  { unfold intensity_factor. repeat case_bool_decide; lia. }
  assert (Hb : 20 <= load_units s <= 180) by nia.
  split; [split; [lia|exact Hn]|]. split; [exact Hd|exact Hb].
Qed.

Section AIShape.
Context {W : Type} (svc : services W).

Lemma sanitize_item_sanitized sport c item used s used' :
  sanitize_item svc sport c item used = Ok (s, used') -> sanitized s.
Proof.
  intros H.
  apply sanitize_item_Ok in H
    as (raw_day & base & found & ri & t & rd & d & rn & _ & Hbase & Hfound & Hres & _
        & _ & _ & Hint & _ & _ & Hdur & Hload & _ & Hnotes).
  apply list_index_lt in Hbase.
  rewrite scan_days_spec in Hfound by (apply lookup_lt_Some in Hbase; exact Hbase).
  injection Hfound as <-.
  split.
  { destruct (first_free_day base used) as [cd|] eqn:Hfree.
    - injection Hres as -> _. by apply first_free_day_spec in Hfree as [_ ?].
    - injection Hres as -> _. apply canonical_day_elem. }
  split.
  { rewrite Hint. case_bool_decide; [assumption|].
    apply list_elem_of_In. right. by left. }
  split; [lia|]. split; [exact Hload|].
  by apply py_iadd_str_Ok in Hnotes as [_ ?].
Qed.

(** The loop takes the items in order until the requested count is
    reached, and no further. *)
Lemma sanitize_loop_shape sport c n items : forall sessions used out,
  sanitize_loop svc sport c n items sessions used = Ok out ->
  exists new, out = sessions ++ new
    /\ length new =
         Nat.min (length items) (Z.to_nat (n - Z.of_nat (length sessions)))
    /\ Forall sanitized new.
Proof.
  induction items as [|item items IH]; intros sessions used out H;
    cbn [sanitize_loop] in H.
  - injection H as <-. exists []. rewrite app_nil_r.
    split; [reflexivity|]. split; [reflexivity|constructor].
  - destruct (Z.leb_spec n (Z.of_nat (length sessions))) as [Hfull|Hroom].
    { injection H as <-. exists []. rewrite app_nil_r.
      split; [reflexivity|]. split; [cbn [length]; lia|constructor]. }
    apply bind_Ok in H as ([s used1] & Hitem & H).
    apply IH in H as (new & -> & Hlen & Hnew).
    exists (s :: new). split; [by rewrite <- app_assoc|]. split.
    + rewrite length_app in Hlen. cbn [length] in *. lia.
    + constructor; [by eapply sanitize_item_sanitized|exact Hnew].
Qed.

Lemma sanitize_loop_take sport c n items : forall sessions used,
  sanitize_loop svc sport c n items sessions used =
    sanitize_loop svc sport c n
      (take (Z.to_nat (n - Z.of_nat (length sessions))) items) sessions used.
Proof.
  induction items as [|item items IH]; intros sessions used.
  - by rewrite take_nil.
  - cbn [sanitize_loop].
    destruct (Z.leb_spec n (Z.of_nat (length sessions))) as [Hfull|Hroom].
    + replace (Z.to_nat (n - Z.of_nat (length sessions))) with 0%nat by lia.
      reflexivity.
    + replace (Z.to_nat (n - Z.of_nat (length sessions)))
        with (S (Z.to_nat (n - Z.of_nat (length sessions) - 1))) by lia.
      cbn [take sanitize_loop].
      destruct (Z.leb_spec n (Z.of_nat (length sessions))) as [Hfull'|_]; [lia|].
      destruct (sanitize_item svc sport c item used) as [[s used1]|e];
        cbn [mbind exn_bind]; [|reflexivity].
      rewrite IH. rewrite length_app. cbn [length].
      do 2 f_equal. lia.
Qed.

(** Items whose days are canonical and pairwise distinct keep them. *)
Lemma sanitize_loop_keeps_days sport c n items : forall days prev sessions used out,
  Forall2 (fun item d => py_get item "day" (PyStr "Mon") = Ok (PyStr d)) items days ->
  Forall (fun d => d ∈ DAYS_ORDER) days ->
  NoDup (prev ++ days) ->
  used = list_to_set prev ->
  sanitize_loop svc sport c n items sessions used = Ok out ->
  exists new, out = sessions ++ new /\ day <$> new = take (length new) days.
Proof.
  induction items as [|item items IH]; intros days prev sessions used out Hget Hcan Hnd Hused H;
    cbn [sanitize_loop] in H.
  - injection H as <-. exists []. rewrite app_nil_r. split; reflexivity.
  - destruct (Z.leb_spec n (Z.of_nat (length sessions))) as [Hfull|Hroom].
    { injection H as <-. exists []. rewrite app_nil_r. split; reflexivity. }
    apply bind_Ok in H as ([s used1] & Hitem & H).
    apply Forall2_cons_inv_l in Hget as (d & days' & Hd & Hget & ->).
    apply Forall_cons in Hcan as [Hdc Hcan].
    assert (Hfresh : d ∉ used).
    { rewrite Hused, elem_of_list_to_set. intros Hin.
      apply NoDup_app in Hnd as (_ & Hdisj & _). apply (Hdisj d Hin). left. }
    apply sanitize_item_Ok in Hitem
      as (raw_day & base & found & _ & _ & _ & _ & _ & Hraw & Hbase & Hfound & Hres & _).
    rewrite Hd in Hraw. injection Hraw as <-.
    cbn [canonical_day] in Hbase, Hres.
    rewrite bool_decide_eq_true_2 in Hbase, Hres by assumption.
    apply list_index_lt in Hbase.
    rewrite scan_days_spec in Hfound by (apply lookup_lt_Some in Hbase; exact Hbase).
    rewrite (first_free_day_head base used d Hbase Hfresh) in Hfound.
    injection Hfound as <-. injection Hres as Hday ->.
    destruct (IH days' (prev ++ [d]) (sessions ++ [s]) ({[d]} ∪ used) out)
      as (new & -> & Hnew); [assumption|assumption| | |exact H|].
    + by rewrite <- app_assoc.
    + rewrite Hused, list_to_set_snoc_L. apply union_comm_L.
    + exists (s :: new). split; [by rewrite <- app_assoc|].
      cbn [length take fmap list_fmap]. rewrite Hday. f_equal. exact Hnew.
Qed.
End AIShape.

(** X9: the sanitizer reads at most the first [n] items of the response:
    what comes after them is not looked at, so it cannot make the loop
    raise. *)
Theorem sanitize_ignores_surplus_items {W} (svc : services W) sport c n items :
  sanitize_loop svc sport c n items [] ∅ =
    sanitize_loop svc sport c n (take (Z.to_nat n) items) [] ∅.
Proof.
  rewrite (sanitize_loop_take svc sport c n items [] ∅). cbn [length].
  by rewrite Z.sub_0_r.
Qed.

(** X10: when the items of the response name canonical days that are
    pairwise distinct, every session the sanitizer builds keeps the day its
    item asked for. *)
Theorem ai_keeps_distinct_days {W} (svc : services W) sport c n items days st :
  Forall2 (fun item d => py_get item "day" (PyStr "Mon") = Ok (PyStr d)) items days ->
  Forall (fun d => d ∈ DAYS_ORDER) days -> NoDup days ->
  sanitize_loop svc sport c n items [] ∅ = Ok st ->
  day <$> st = take (length st) days.
Proof.
  intros Hget Hcan Hnd Hloop.
  destruct (sanitize_loop_keeps_days svc sport c n items days [] [] ∅ st)
    as (new & -> & Hnew); [assumption|assumption|assumption|reflexivity|assumption|].
  exact Hnew.
Qed.

(** X8: a plan the AI path returns lists every session it built exactly
    once (no shared records), sorted by the day index; it has as many
    sessions as the response has items, up to the requested count, and at
    least one; every session has a canonical day, an intensity among Easy,
    Moderate and Hard, a duration in [20, 60], the load computed from them,
    and notes that are a text or a list, which the guardrail can append to. *)
Theorem ai_plan_shape {W} (svc : services W) sport level n L c w st sessions :
  (generate_sessions_ai svc sport level n L c w).1 = Some (st, sessions) ->
  sessions ≡ₚ seq 0 (length st) /\ NoDup sessions
  /\ sorted_by (session_key st) sessions
  /\ (1 <= length st)%nat /\ Z.of_nat (length st) <= n
  /\ Forall sanitized st
  /\ exists target content data sessions_data items,
       total_minutes_target level n L = Ok target
       /\ (chat_completion svc (build_prompt sport level n target c) w).1 = Ok content
       /\ json_loads svc (strip_fence content) = Ok data
       /\ py_get data "sessions" (PyList []) = Ok sessions_data
       /\ py_iter sessions_data = Ok items
       /\ length st = Nat.min (length items) (Z.to_nat n).
Proof.
  intros H.
  apply generate_sessions_ai_Some in H
    as (_ & target & content & data & sd & items & Ht & Hc & Hd & Hsd & Hit & Hloop
        & Hne & ->).
  apply sanitize_loop_shape in Hloop as (new & Hst & Hlen & Hnew).
  cbn [app length] in Hst, Hlen. subst new. rewrite Z.sub_0_r in Hlen.
  assert (Hperm : sort_by_key (session_key st) (seq 0 (length st)) ≡ₚ seq 0 (length st))
    by apply sort_by_key_perm.
  split; [exact Hperm|].
  split; [rewrite Hperm; apply NoDup_seq|].
  split; [apply sort_by_key_sorted|].
  assert (Hpos : (1 <= length st)%nat).
  { destruct st; [by destruct Hne|cbn [length]; lia]. }
  split; [exact Hpos|]. split; [lia|].
  split; [exact Hnew|].
  exists target, content, data, sd, items.
  repeat (split; [assumption|]). exact Hlen.
Qed.

(** ** The orchestrator on the inputs of the page *)

Lemma boxing_templates_limits level c :
  Forall (fun s => ok_record s /\ within_limits s) (boxing_templates level c).
Proof.
  pose proof (boxing_templates_ok level c) as Hok.
  destruct (boxing_templates_cases level c) as [E | [E | E]]; rewrite E in *;
    apply Forall_forall; intros s Hs;
    (split; [by apply (proj1 (Forall_forall _ _) Hok)|]);
    repeat (apply elem_of_cons in Hs as [->|Hs];
            [unfold within_limits; cbn [duration_min load_units]; lia|]);
    by apply elem_of_nil in Hs.
Qed.

(** The boxing selector on a request for at least one session. *)
Lemma boxing_plan_refs level n c :
  1 <= n ->
  exists sessions,
    generate_boxing_sessions_template level n c = Ok (boxing_templates level c, sessions)
    /\ Z.of_nat (length sessions) = n
    /\ Forall (fun r => (r < 3)%nat) sessions.
Proof.
  intros Hn. destruct (Z_le_gt_dec n 3) as [Hle|Hgt].
  - destruct (boxing_templates_keys level c) as (Hlen & H01 & H12).
    exists (seq 0 (Z.to_nat n)). split.
    + unfold generate_boxing_sessions_template.
      rewrite boxing_template_refs. cbn [length].
      destruct (n <=? Z.of_nat 3) eqn:H; [|apply Z.leb_gt in H; lia].
      cbn [mbind exn_bind].
      assert (Hslice : slice_to [0; 1; 2]%nat n = seq 0 (Z.to_nat n)).
      { unfold slice_to. destruct (Z.leb_spec 0 n); [|lia].
        change [0; 1; 2]%nat with (seq 0 3). rewrite take_seq. f_equal. lia. }
      rewrite Hslice.
      rewrite sort_by_key_id by (apply sorted_by_seq; [lia|exact H01|exact H12]).
      reflexivity.
    + rewrite length_seq. split; [lia|].
      apply Forall_forall. intros r Hr. apply elem_of_seq in Hr. lia.
  - exists (replicate (Z.to_nat (n - 2)) 0 ++ [1; 2])%nat.
    split; [apply boxing_padded_plan; lia|].
    rewrite length_app, length_replicate. cbn [length]. split; [lia|].
    apply Forall_app. split.
    + apply Forall_forall. intros r Hr. apply elem_of_replicate in Hr as [-> _]. lia.
    + repeat (constructor; [lia|]). constructor.
Qed.

Lemma template_sessions_limits sport level n c :
  1 <= n ->
  exists st sessions,
    template_sessions sport level n c = Ok (st, sessions)
    /\ Z.of_nat (length sessions) = n
    /\ plan_within_limits st sessions.
Proof.
  intros Hn. unfold template_sessions. case_bool_decide as Hb.
  - destruct (boxing_plan_refs level n c Hn) as (sessions & Hgen & Hlen & Hrefs).
    exists (boxing_templates level c), sessions.
    split; [exact Hgen|]. split; [exact Hlen|].
    destruct (boxing_templates_keys level c) as (Hl3 & _ & _).
    eapply Forall_impl; [exact Hrefs|]. intros r Hr. cbn beta in Hr.
    destruct (lookup_lt_is_Some_2 (boxing_templates level c) r ltac:(lia)) as [s Hs].
    exists s. split; [exact Hs|].
    apply (proj1 (Forall_forall _ _) (boxing_templates_limits level c)).
    by eapply list_elem_of_lookup_2.
  - destruct (generic_store sport c (Z.to_nat n)) as (st & Hloop & _ & _).
    destruct (generic_store_records sport c _ st Hloop) as (Hlen & Hrec).
    exists st, (seq 0 (length st)). split.
    { unfold generate_generic_sessions_template. rewrite Hloop. reflexivity. }
    rewrite length_seq. split; [lia|].
    apply Forall_forall. intros r Hr. apply elem_of_seq in Hr.
    destruct (lookup_lt_is_Some_2 st r ltac:(lia)) as [s Hs].
    exists s. split; [exact Hs|].
    destruct (Hrec r s Hs) as (_ & _ & _ & Hd & Hl & Hok).
    split; [exact Hok|]. unfold within_limits. lia.
Qed.

Lemma ai_plan_limits {W} (svc : services W) sport level n L c w st sessions :
  (generate_sessions_ai svc sport level n L c w).1 = Some (st, sessions) ->
  sessions <> [] /\ Z.of_nat (length sessions) <= n /\ plan_within_limits st sessions.
Proof.
  intros H.
  apply generate_sessions_ai_Some in H
    as (_ & target & content & data & sd & items & _ & _ & _ & _ & _ & Hloop & Hne & ->).
  apply sanitize_loop_shape in Hloop as (new & Hst & Hlen & Hnew).
  cbn [app length] in Hst, Hlen. subst new.
  pose proof (sort_by_key_perm (session_key st) (seq 0 (length st))) as Hperm.
  assert (Hl : length (sort_by_key (session_key st) (seq 0 (length st))) = length st).
  { rewrite Hperm. apply length_seq. }
  split.
  { intros E. rewrite E in Hl. destruct st; [by destruct Hne|discriminate Hl]. }
  split.
  { rewrite Hl. destruct st; [by destruct Hne|]. cbn [length] in *. lia. }
  unfold plan_within_limits. rewrite Hperm.
  apply Forall_forall. intros r Hr. apply elem_of_seq in Hr.
  destruct (lookup_lt_is_Some_2 st r ltac:(lia)) as [s Hs].
  exists s. split; [exact Hs|]. apply sanitized_limits.
  apply (proj1 (Forall_forall _ _) Hnew). by eapply list_elem_of_lookup_2.
Qed.

Lemma plan_within_limits_ok st sessions :
  plan_within_limits st sessions -> ok_refs st sessions.
Proof.
  intros H. eapply Forall_impl; [exact H|]. intros r (s & Hs & Hok & _). eauto.
Qed.

(** The guardrail keeps a plan within the limits. *)
Lemma guardrail_keeps_limits st sessions L :
  sessions <> [] -> plan_within_limits st sessions -> L < 2 ^ 48 ->
  exists st', apply_weekly_load_guardrail st sessions L = Ok (st', sessions)
    /\ Forall (fun r => exists s', st' !! r = Some s' /\ within_limits s') sessions.
Proof.
  intros Hne Hlim HL.
  pose proof (plan_within_limits_ok _ _ Hlim) as Hok.
  destruct (guardrail_total st sessions L Hne Hok HL) as (st' & Hrun).
  exists st'. split; [exact Hrun|].
  apply Forall_forall. intros r Hr.
  pose proof (proj1 (Forall_forall _ _) Hlim r Hr) as (s & Hs & Hrec & Hd & Hl).
  destruct (guardrail_frame_of_result _ _ _ _ _ Hrun) as (_ & _ & Hframe & Hnoop & Hin).
  destruct (Hframe r s Hs) as (s' & Hs' & _ & _ & _ & Hdur).
  exists s'. split; [exact Hs'|]. split; [lia|].
  destruct (Z_le_gt_dec L 0) as [H0|H0].
  { rewrite (Hnoop H0) in Hs'. rewrite Hs in Hs'. injection Hs' as <-. exact Hl. }
  destruct (sum_load_units_ok st sessions Hok) as (ct & Hct).
  set (am := Z.max (11 * L / 10) (L + 20)).
  assert (Ham : allowed_max_of L = Ok am) by (apply allowed_max_of_spec; lia).
  destruct (Z_le_gt_dec ct am) as [Hle|Hgt].
  - destruct (Hin ltac:(lia) ct am Hct Ham Hle) as (r0 & s0 & n' & _ & _ & _ & _ & Hsame).
    destruct (Hsame r s Hs) as (s'' & Hs'' & Hload & _).
    rewrite Hs' in Hs''. injection Hs'' as <-. lia.
  - rewrite (guardrail_scaled _ _ _ ct am) in Hrun by (assumption || lia).
    apply bind_Ok in Hrun as (f & Hf & Hrun).
    apply bind_Ok in Hrun as (st1 & Hloop & Hrun). injection Hrun as <-.
    destruct (int_truediv_unit am ct) as (f' & Hf' & Hunit); [unfold am; lia|lia|].
    rewrite Hf in Hf'. injection Hf' as <-.
    apply scale_loop_spec in Hloop as (_ & Hspec).
    destruct (Hspec r s Hs) as (s'' & Hs'' & Hn).
    rewrite Hs' in Hs''. injection Hs'' as <-.
    destruct (scale_record_n_ok f (guardrail_note L am)
                (count_occ Nat.eq_dec sessions r) s Hunit Hrec)
      as (s'' & Hn' & _ & Hlo & Hhi).
    rewrite Hn in Hn'. injection Hn' as <-.
    assert (Hocc : count_occ Nat.eq_dec sessions r <> 0%nat).
    { apply list_elem_of_In in Hr.
      pose proof (proj1 (count_occ_In Nat.eq_dec sessions r) Hr). lia. }
    specialize (Hlo Hocc). lia.
Qed.

(** X1: for a requested count of at least one and a prior load below
    [2^48], [generate_week_plan] returns a plan whatever the client answers:
    it is not empty, has at most the requested count of sessions (exactly
    the count when the AI path gave nothing), and every session has a
    duration in [20, 60] and a load in [20, 180]. *)
Theorem week_plan_returns {W} (svc : services W) sport level n L c w :
  1 <= n -> L < 2 ^ 48 ->
  exists st sessions,
    (generate_week_plan svc sport level n L c w).1 = Ok (st, sessions)
    /\ sessions <> [] /\ Z.of_nat (length sessions) <= n
    /\ ((generate_sessions_ai svc sport level n L c w).1 = None ->
          Z.of_nat (length sessions) = n)
    /\ Forall (fun r => exists s, st !! r = Some s
                 /\ 20 <= duration_min s <= 60 /\ 20 <= load_units s <= 180) sessions.
Proof.
  intros Hn HL.
  destruct ((generate_sessions_ai svc sport level n L c w).1) as [[st0 sessions]|] eqn:Hai.
  - rewrite (week_plan_uses_ai_only svc _ _ _ _ _ _ _ _ Hai).
    destruct (ai_plan_limits svc _ _ _ _ _ _ _ _ Hai) as (Hne & Hlen & Hlim).
    destruct (guardrail_keeps_limits st0 sessions L Hne Hlim HL) as (st' & Hrun & Hres).
    exists st', sessions. split; [exact Hrun|]. split; [exact Hne|].
    split; [exact Hlen|]. split; [discriminate|exact Hres].
  - rewrite (week_plan_fallback svc _ _ _ _ _ _ Hai).
    destruct (template_sessions_limits sport level n c Hn)
      as (st0 & sessions & Hgen & Hlen & Hlim).
    rewrite Hgen. cbn [mbind exn_bind fst snd].
    assert (Hne : sessions <> []).
    { intros ->. cbn [length] in Hlen. lia. }
    destruct (guardrail_keeps_limits st0 sessions L Hne Hlim HL) as (st' & Hrun & Hres).
    exists st', sessions. split; [exact Hrun|]. split; [exact Hne|].
    split; [lia|]. split; [intros _; exact Hlen|exact Hres].
Qed.

(** ** The fence of a fenced response *)

Lemma append_String c a b : String c a +:+ b = String c (a +:+ b).
Proof. reflexivity. Qed.

Lemma append_empty_l b : EmptyString +:+ b = b.
Proof. reflexivity. Qed.

Lemma length_append a b :
  String.length (a +:+ b) = (String.length a + String.length b)%nat.
Proof.
  induction a as [|c a IH]; [reflexivity|].
  rewrite append_String. cbn [String.length]. by rewrite IH.
Qed.

Lemma take_continuation_spec s :
  let '(k, r) := take_continuation s in
  s = k +:+ r /\ (String.length r <= String.length s)%nat /\ starts_plain r.
Proof.
  induction s as [|c s IH]; cbn [take_continuation]; [by split|].
  destruct (is_continuation c) eqn:Hc.
  - destruct (take_continuation s) as [k r]. destruct IH as (-> & Hlen & Hr).
    split; [reflexivity|]. split; [|exact Hr].
    cbn [String.length]. lia.
  - split; [reflexivity|]. split; [lia|exact Hc].
Qed.

Lemma take_continuation_plain s : starts_plain s -> take_continuation s = (EmptyString, s).
Proof. destruct s as [|c s]; [done|]. cbn. by intros ->. Qed.

Lemma take_continuation_app a b :
  starts_plain b ->
  take_continuation (a +:+ b) =
    let '(k, r) := take_continuation a in (k, r +:+ b).
Proof.
  intros Hb. induction a as [|c a IH].
  - rewrite append_empty_l. by rewrite take_continuation_plain.
  - rewrite append_String. cbn [take_continuation].
    destruct (is_continuation c); [|reflexivity].
    rewrite IH. by destruct (take_continuation a).
Qed.

Lemma chars_fuel_more s : forall f1 f2,
  (String.length s <= f1)%nat -> (String.length s <= f2)%nat ->
  chars_fuel f1 s = chars_fuel f2 s.
Proof.
  remember (String.length s) as n eqn:Hn.
  revert s Hn. induction (lt_wf n) as [n _ IH]. intros s Hn f1 f2 H1 H2.
  destruct s as [|c s]; [by destruct f1, f2|].
  cbn [String.length] in Hn.
  destruct f1 as [|f1]; [lia|]. destruct f2 as [|f2]; [lia|].
  cbn [chars_fuel].
  pose proof (take_continuation_spec s) as Hs.
  destruct (take_continuation s) as [k r]. destruct Hs as (_ & Hlen & _).
  f_equal. apply (IH (String.length r)); [lia|reflexivity|lia|lia].
Qed.

Lemma chars_fuel_concat f : forall s,
  (String.length s <= f)%nat -> concat_str (chars_fuel f s) = s.
Proof.
  induction f as [|f IH]; intros s Hs.
  - destruct s; [reflexivity|cbn [String.length] in Hs; lia].
  - destruct s as [|c s]; [reflexivity|]. cbn [chars_fuel String.length] in *.
    pose proof (take_continuation_spec s) as Hk.
    destruct (take_continuation s) as [k r]. destruct Hk as (-> & Hlen & _).
    cbn [concat_str foldr]. fold (concat_str (chars_fuel f r)).
    rewrite IH by lia. reflexivity.
Qed.

Lemma py_chars_concat s : concat_str (py_chars s) = s.
Proof. apply chars_fuel_concat. lia. Qed.

Lemma chars_fuel_app b f : forall a,
  (String.length a <= f)%nat -> starts_plain b ->
  chars_fuel (f + String.length b) (a +:+ b) =
    chars_fuel f a ++ chars_fuel (String.length b) b.
Proof.
  induction f as [|f IH]; intros a Ha Hb.
  - destruct a; [|cbn [String.length] in Ha; lia]. reflexivity.
  - destruct a as [|c a].
    + rewrite append_empty_l. cbn [chars_fuel app]. apply chars_fuel_more; lia.
    + rewrite append_String. cbn [String.length] in Ha.
      cbn [plus chars_fuel]. rewrite take_continuation_app by assumption.
      pose proof (take_continuation_spec a) as Hk.
      destruct (take_continuation a) as [k r]. destruct Hk as (_ & Hlen & _).
      cbn [app]. f_equal. apply IH; [lia|assumption].
Qed.

Lemma py_chars_app a b :
  starts_plain b -> py_chars (a +:+ b) = py_chars a ++ py_chars b.
Proof.
  intros Hb. unfold py_chars. rewrite length_append. by apply chars_fuel_app.
Qed.

Lemma py_chars_cons c s :
  starts_plain s -> py_chars (String c s) = String c EmptyString :: py_chars s.
Proof.
  intros Hs. unfold py_chars. cbn [String.length chars_fuel].
  by rewrite take_continuation_plain.
Qed.

Lemma drop_while_all {A} (p : A -> bool) pre l :
  Forall (fun x => p x = true) pre -> drop_while p (pre ++ l) = drop_while p l.
Proof. induction 1 as [|x pre Hx _ IH]; [reflexivity|]. cbn. by rewrite Hx. Qed.

Lemma drop_while_stop {A} (p : A -> bool) x l :
  p x = false -> drop_while p (x :: l) = x :: l.
Proof. intros Hx. cbn. by rewrite Hx. Qed.

(** Stripping removes the characters of the class at both ends, up to the
    first and the last character outside it. *)
Lemma strip_with_spec p s pre x mid y post :
  py_chars s = pre ++ (x :: mid ++ [y]) ++ post ->
  Forall (fun c => p c = true) pre -> Forall (fun c => p c = true) post ->
  p x = false -> p y = false ->
  strip_with p s = concat_str (x :: mid ++ [y]).
Proof.
  intros Hs Hpre Hpost Hx Hy. unfold strip_with. rewrite Hs.
  rewrite drop_while_all by assumption.
  assert (Hrev : rev (x :: mid ++ [y]) = y :: rev (x :: mid)).
  { rewrite app_comm_cons, rev_app_distr. reflexivity. }
  assert (Hfront : drop_while p ((x :: mid ++ [y]) ++ post) = (x :: mid ++ [y]) ++ post).
  { rewrite <- app_comm_cons. by apply drop_while_stop. }
  rewrite Hfront, rev_app_distr.
  rewrite drop_while_all by (by apply Forall_rev).
  rewrite Hrev, drop_while_stop by assumption.
  rewrite <- Hrev, rev_involutive. reflexivity.
Qed.

Lemma strip_with_single p s x :
  py_chars s = [x] -> p x = false -> strip_with p s = s.
Proof.
  intros Hs Hx. unfold strip_with. rewrite Hs. cbn [drop_while]. rewrite Hx.
  cbn [rev app drop_while]. rewrite Hx. cbn [rev app].
  by rewrite <- Hs, py_chars_concat.
Qed.

Local Open Scope char_scope.

Lemma not_whitespace_lead (c : ascii) k :
  (32 < nat_of_ascii c)%nat -> (nat_of_ascii c < 128)%nat ->
  bool_decide (String c k ∈ py_whitespace) = false.
Proof.
  intros Hlo Hhi. apply bool_decide_eq_false_2. intros H.
  apply list_elem_of_In in H. vm_compute in H.
  repeat (destruct H as [H|H];
          [injection H as H _; subst c; vm_compute in Hlo, Hhi; lia|]).
  exact H.
Qed.

Lemma is_whitespace_nl : bool_decide (nl ∈ py_whitespace) = true.
Proof. vm_compute. reflexivity. Qed.

Lemma py_chars_object mid :
  exists k rest,
    py_chars (String "{" (mid +:+ "}")) = String "{" k :: rest ++ [String "}" EmptyString].
Proof.
  change (String "{" (mid +:+ "}")) with (String "{" mid +:+ "}").
  rewrite py_chars_app by reflexivity.
  unfold py_chars at 1. cbn [String.length chars_fuel].
  destruct (take_continuation mid) as [k r].
  exists k, (chars_fuel (String.length mid) r). reflexivity.
Qed.
Local Close Scope char_scope.

Lemma fenced_json body :
  fenced "json" body = "```json" +:+ nl +:+ body +:+ nl +:+ "```".
Proof.
  unfold fenced. cbn [concat_str foldr]. by rewrite append_nil_r.
Qed.

Lemma concat_str_app a b : concat_str (a ++ b) = concat_str a +:+ concat_str b.
Proof.
  induction a as [|x a IH]; [reflexivity|].
  cbn [app concat_str foldr]. fold (concat_str (a ++ b)). fold (concat_str a).
  by rewrite IH, append_assoc.
Qed.

Lemma prefix_append old rest : String.prefix old (old +:+ rest) = true.
Proof.
  induction old as [|c old IH]; [by destruct rest|].
  rewrite append_String. cbn [String.prefix].
  destruct (ascii_dec c c) as [_|Hne]; [exact IH|by destruct Hne].
Qed.

Lemma substring_all s : String.substring 0 (String.length s) s = s.
Proof. induction s as [|c s IH]; [reflexivity|]. cbn. by rewrite IH. Qed.

Lemma substring_append old rest :
  String.substring (String.length old) (String.length rest) (old +:+ rest) = rest.
Proof.
  induction old as [|c old IH]; [apply substring_all|].
  rewrite append_String. cbn [String.length String.substring]. exact IH.
Qed.

Lemma remove_first_prefix old rest : remove_first old (old +:+ rest) = rest.
Proof.
  assert (H : forall s, String.prefix old s = true ->
            remove_first old s =
              String.substring (String.length old)
                (String.length s - String.length old) s).
  { intros s Hs. destruct s; cbn [remove_first]; by rewrite Hs. }
  rewrite H by apply prefix_append.
  rewrite length_append.
  replace (String.length old + String.length rest - String.length old)%nat
    with (String.length rest) by lia.
  apply substring_append.
Qed.

Lemma strip_fence_raw content :
  strip_fence content =
    if startswith (strip content) "```"
    then strip (remove_first "json" (strip_backticks (strip content)))
    else strip content.
Proof. reflexivity. Qed.

Lemma strip_spec s pre x mid y post :
  py_chars s = pre ++ (x :: mid ++ [y]) ++ post ->
  Forall (fun c => bool_decide (c ∈ py_whitespace) = true) pre ->
  Forall (fun c => bool_decide (c ∈ py_whitespace) = true) post ->
  bool_decide (x ∈ py_whitespace) = false ->
  bool_decide (y ∈ py_whitespace) = false ->
  strip s = concat_str (x :: mid ++ [y]).
Proof. apply strip_with_spec. Qed.

Lemma strip_backticks_spec s pre x mid y post :
  py_chars s = pre ++ (x :: mid ++ [y]) ++ post ->
  Forall (fun c => bool_decide (c = String backtick EmptyString) = true) pre ->
  Forall (fun c => bool_decide (c = String backtick EmptyString) = true) post ->
  bool_decide (x = String backtick EmptyString) = false ->
  bool_decide (y = String backtick EmptyString) = false ->
  strip_backticks s = concat_str (x :: mid ++ [y]).
Proof. apply strip_with_spec. Qed.

Section Fence.
Local Open Scope char_scope.
Variable mid : string.

Lemma strip_body : strip (json_object mid) = json_object mid.
Proof.
  destruct (py_chars_object mid) as (k & rest & Hb).
  rewrite (strip_spec (json_object mid) [] (String "{" k) rest (String "}" EmptyString) []).
  - unfold json_object. by rewrite <- Hb, py_chars_concat.
  - unfold json_object. by rewrite app_nil_r.
  - constructor.
  - constructor.
  - apply not_whitespace_lead; vm_compute; lia.
  - apply not_whitespace_lead; vm_compute; lia.
Qed.

Lemma py_chars_block :
  py_chars (json_block mid) =
    map (fun c => String c EmptyString) ["`"; "`"; "`"; "j"; "s"; "o"; "n"; ascii_of_nat 10]
    ++ py_chars (json_object mid)
    ++ map (fun c => String c EmptyString) [ascii_of_nat 10; "`"; "`"; "`"].
Proof.
  unfold json_block.
  change ("```json" +:+ nl +:+ json_object mid +:+ nl +:+ "```")
    with (("```json" +:+ nl) +:+ (json_object mid +:+ (nl +:+ "```"))).
  rewrite (py_chars_app ("```json" +:+ nl) (json_object mid +:+ (nl +:+ "```")))
    by reflexivity.
  rewrite (py_chars_app (json_object mid) (nl +:+ "```")) by reflexivity.
  reflexivity.
Qed.

Lemma strip_block : strip (json_block mid) = json_block mid.
Proof.
  pose proof py_chars_block as HF.
  rewrite (strip_spec (json_block mid) [] (String "`" EmptyString)
             (map (fun c => String c EmptyString) ["`"; "`"; "j"; "s"; "o"; "n"; ascii_of_nat 10]
              ++ py_chars (json_object mid)
              ++ map (fun c => String c EmptyString) [ascii_of_nat 10; "`"; "`"])
             (String "`" EmptyString) []).
  - transitivity (concat_str (py_chars (json_block mid))); [|apply py_chars_concat].
    rewrite HF. f_equal. cbn [map app]. rewrite <- !app_assoc. reflexivity.
  - rewrite HF, app_nil_r. cbn [map app]. rewrite <- !app_assoc. reflexivity.
  - constructor.
  - constructor.
  - apply not_whitespace_lead; vm_compute; lia.
  - apply not_whitespace_lead; vm_compute; lia.
Qed.

Lemma strip_backticks_block :
  strip_backticks (json_block mid) = "json" +:+ nl +:+ json_object mid +:+ nl.
Proof.
  pose proof py_chars_block as HF.
  rewrite (strip_backticks_spec (json_block mid)
             (map (fun c => String c EmptyString) ["`"; "`"; "`"])
             (String "j" EmptyString)
             (map (fun c => String c EmptyString) ["s"; "o"; "n"; ascii_of_nat 10]
              ++ py_chars (json_object mid))
             nl
             (map (fun c => String c EmptyString) ["`"; "`"; "`"])).
  - rewrite app_comm_cons, concat_str_app.
    rewrite app_comm_cons, concat_str_app, py_chars_concat.
    cbn [map concat_str foldr]. rewrite !append_nil_r. reflexivity.
  - rewrite HF. cbn [map app]. rewrite <- !app_assoc. reflexivity.
  - repeat (constructor; [reflexivity|]). constructor.
  - repeat (constructor; [reflexivity|]). constructor.
  - reflexivity.
  - reflexivity.
Qed.

Lemma strip_inner : strip (nl +:+ json_object mid +:+ nl) = json_object mid.
Proof.
  destruct (py_chars_object mid) as (k & rest & Hb).
  rewrite (strip_spec (nl +:+ json_object mid +:+ nl) [nl] (String "{" k) rest
             (String "}" EmptyString) [nl]).
  - unfold json_object. by rewrite <- Hb, py_chars_concat.
  - change (nl +:+ json_object mid +:+ nl)
      with (String (ascii_of_nat 10) (json_object mid +:+ nl)).
    rewrite py_chars_cons by reflexivity.
    rewrite (py_chars_app (json_object mid) nl) by reflexivity.
    unfold json_object. rewrite Hb. reflexivity.
  - constructor; [apply is_whitespace_nl|constructor].
  - constructor; [apply is_whitespace_nl|constructor].
  - apply not_whitespace_lead; vm_compute; lia.
  - apply not_whitespace_lead; vm_compute; lia.
Qed.

Lemma strip_padded_block : strip (nl +:+ json_block mid +:+ nl) = json_block mid.
Proof.
  pose proof py_chars_block as HF.
  rewrite (strip_spec (nl +:+ json_block mid +:+ nl) [nl] (String "`" EmptyString)
             (map (fun c => String c EmptyString) ["`"; "`"; "j"; "s"; "o"; "n"; ascii_of_nat 10]
              ++ py_chars (json_object mid)
              ++ map (fun c => String c EmptyString) [ascii_of_nat 10; "`"; "`"])
             (String "`" EmptyString) [nl]).
  - transitivity (concat_str (py_chars (json_block mid))); [|apply py_chars_concat].
    rewrite HF. f_equal. cbn [map app]. rewrite <- !app_assoc. reflexivity.
  - change (nl +:+ json_block mid +:+ nl)
      with (String (ascii_of_nat 10) (json_block mid +:+ nl)).
    rewrite py_chars_cons by reflexivity.
    rewrite (py_chars_app (json_block mid) nl) by reflexivity. rewrite HF.
    cbn [map app]. rewrite <- !app_assoc. reflexivity.
  - constructor; [apply is_whitespace_nl|constructor].
  - constructor; [apply is_whitespace_nl|constructor].
  - apply not_whitespace_lead; vm_compute; lia.
  - apply not_whitespace_lead; vm_compute; lia.
Qed.

Lemma unwrap_block :
  (if startswith (json_block mid) "```"
   then strip (remove_first "json" (strip_backticks (json_block mid)))
   else json_block mid) = json_object mid.
Proof.
  assert (Hstart : startswith (json_block mid) "```" = true) by reflexivity.
  rewrite Hstart, strip_backticks_block.
  change ("json" +:+ nl +:+ json_object mid +:+ nl)
    with ("json" +:+ (nl +:+ json_object mid +:+ nl)).
  rewrite remove_first_prefix. apply strip_inner.
Qed.
End Fence.

(** X11: the text of a JSON object comes out of [strip_fence] unchanged,
    whether the response is the bare object, the object in a fenced block
    tagged json, or that block between newlines. *)
Theorem strip_fence_unwraps mid :
  strip_fence (json_object mid) = json_object mid
  /\ strip_fence (fenced "json" (json_object mid)) = json_object mid
  /\ strip_fence (nl +:+ fenced "json" (json_object mid) +:+ nl) = json_object mid.
Proof.
  split; [|split].
  - rewrite strip_fence_raw, strip_body. reflexivity.
  - rewrite strip_fence_raw, fenced_json. fold (json_block mid).
    rewrite strip_block. apply unwrap_block.
  - rewrite strip_fence_raw, fenced_json. fold (json_block mid).
    rewrite strip_padded_block. apply unwrap_block.
Qed.

(** * Properties of the adherence summary *)

(** ** Comparisons of doubles *)

Lemma dyadic_compare_spec m1 k1 m2 k2 :
  0 <= k1 -> 0 <= k2 ->
  dyadic_compare m1 (- k1) m2 (- k2) = (m1 * 2 ^ k2 ?= m2 * 2 ^ k1).
Proof.
  intros H1 H2. unfold dyadic_compare.
  set (e := Z.min (- k1) (- k2)).
  set (t := k1 + k2 + e).
  assert (Ht : 0 <= t) by (unfold t, e; lia).
  assert (Hp : 2 ^ t > 0) by (apply Z.lt_gt, Z.pow_pos_nonneg; lia).
  rewrite (Zmult_compare_compat_r _ _ (2 ^ t) Hp).
  rewrite <- !Z.mul_assoc, <- !Z.pow_add_r by (unfold t, e; lia).
  replace (- k1 - e + t) with k2 by (unfold t; lia).
  replace (- k2 - e + t) with k1 by (unfold t; lia).
  reflexivity.
Qed.

Lemma float_geb_finite m1 k1 m2 k2 :
  0 <= k1 -> 0 <= k2 ->
  float_geb (Finite m1 (- k1)) (Finite m2 (- k2)) = (m2 * 2 ^ k1 <=? m1 * 2 ^ k2).
Proof.
  intros H1 H2. unfold float_geb, float_compare.
  rewrite dyadic_compare_spec by assumption.
  rewrite Z.leb_compare, (Z.compare_antisym (m1 * 2 ^ k2)).
  by destruct (m1 * 2 ^ k2 ?= m2 * 2 ^ k1).
Qed.

Lemma float_leb_finite m1 k1 m2 k2 :
  0 <= k1 -> 0 <= k2 ->
  float_leb (Finite m1 (- k1)) (Finite m2 (- k2)) = (m1 * 2 ^ k2 <=? m2 * 2 ^ k1).
Proof.
  intros H1 H2. unfold float_leb, float_compare.
  rewrite dyadic_compare_spec by assumption.
  rewrite Z.leb_compare.
  by destruct (m1 * 2 ^ k2 ?= m2 * 2 ^ k1).
Qed.

(** The quotient of two ints, between dyadic bounds. *)
Lemma int_truediv_between a b j lo hi :
  0 < b -> 0 <= j <= 53 -> Z.abs a < b * 2 ^ (53 - j) ->
  lo * b <= a * 2 ^ j <= hi * b ->
  exists m k, int_truediv a b = Ok (Finite m (- k)) /\ 0 <= k
    /\ lo * 2 ^ k <= m * 2 ^ j <= hi * 2 ^ k.
Proof.
  intros Hb Hj Hmag Hbd. unfold int_truediv.
  destruct (b =? 0) eqn:Hb0; [apply Z.eqb_eq in Hb0; lia|].
  rewrite Z.sgn_pos, Z.mul_1_l, Z.abs_eq by lia.
  destruct (round_rat_between a b j lo hi) as (m & k & -> & Hk & Hm);
    [assumption..|].
  exists m, k. split; [reflexivity|]. split; assumption.
Qed.

(** The tests on the average effort and the completion rate decide as the
    exact quotients do. *)
Lemma average_at_least s k avg v :
  0 < k <= 2 ^ 40 -> 0 <= s <= 10 * k -> 0 <= v <= 10 ->
  int_truediv s k = Ok avg ->
  float_geb_int avg v = (v * k <=? s) /\ float_leb_int avg v = (s <=? v * k).
Proof.
  intros Hk Hs Hv Havg.
  assert (H40 : 2 ^ 40 = 1099511627776) by reflexivity.
  unfold float_geb_int, float_leb_int.
  change (Finite v 0) with (Finite v (- 0)).
  destruct (Z_lt_le_dec s (v * k)) as [Hlt|Hge].
  - destruct (int_truediv_between s k 40 0 (v * 2 ^ 40 - 1))
      as (m & kk & Hm & Hkk & Hb); [lia|lia| |nia|].
    { change (2 ^ (53 - 40)) with 8192. lia. }
    rewrite Havg in Hm. injection Hm as ->.
    assert (Hp : 0 < 2 ^ kk) by (apply Z.pow_pos_nonneg; lia).
    rewrite float_geb_finite, float_leb_finite by lia.
    rewrite Z.pow_0_r, Z.mul_1_r.
    split; decide_lebs.
  - destruct (Z.eq_dec s (v * k)) as [Heq|Hne].
    + destruct (int_truediv_between s k 0 v v)
        as (m & kk & Hm & Hkk & Hb); [lia|lia| |lia|].
      { change (2 ^ (53 - 0)) with 9007199254740992. lia. }
      rewrite Havg in Hm. injection Hm as ->.
      rewrite float_geb_finite, float_leb_finite by lia.
      rewrite Z.pow_0_r, !Z.mul_1_r in *.
      split; decide_lebs.
    + destruct (int_truediv_between s k 40 (v * 2 ^ 40 + 1) (10 * 2 ^ 40))
        as (m & kk & Hm & Hkk & Hb); [lia|lia| |nia|].
      { change (2 ^ (53 - 40)) with 8192. lia. }
      rewrite Havg in Hm. injection Hm as ->.
      assert (Hp : 0 < 2 ^ kk) by (apply Z.pow_pos_nonneg; lia).
      rewrite float_geb_finite, float_leb_finite by lia.
      rewrite Z.pow_0_r, Z.mul_1_r.
      split; decide_lebs.
Qed.

Lemma rate_at_least_0_7 k n comp_rate :
  0 <= k <= n -> 0 < n <= 2 ^ 40 -> int_truediv k n = Ok comp_rate ->
  float_geb comp_rate lit_0_7 = (7 * n <=? 10 * k).
Proof.
  intros Hk Hn Hrate.
  assert (H40 : 2 ^ 40 = 1099511627776) by reflexivity.
  assert (H52 : 2 ^ 52 = 4503599627370496) by reflexivity.
  assert (Hlit : lit_0_7 = Finite 6305039478318694 (Z.opp 53)) by reflexivity.
  rewrite Hlit.
  destruct (Z_le_gt_dec (7 * n) (10 * k)) as [Hge|Hlt].
  - destruct (int_truediv_between k n 52 3152519739159347 (2 ^ 52))
      as (m & kk & Hm & Hkk & Hb); [lia|lia| |lia|].
    { change (2 ^ (53 - 52)) with 2. lia. }
    rewrite Hrate in Hm. injection Hm as ->.
    assert (Hp : 0 < 2 ^ kk) by (apply Z.pow_pos_nonneg; lia).
    rewrite float_geb_finite by lia.
    change (2 ^ 53) with (2 * 2 ^ 52). decide_lebs.
  - destruct (int_truediv_between k n 52 0 3152519739159346)
      as (m & kk & Hm & Hkk & Hb); [lia|lia| |lia|].
    { change (2 ^ (53 - 52)) with 2. lia. }
    rewrite Hrate in Hm. injection Hm as ->.
    assert (Hp : 0 < 2 ^ kk) by (apply Z.pow_pos_nonneg; lia).
    rewrite float_geb_finite by lia.
    change (2 ^ 53) with (2 * 2 ^ 52). decide_lebs.
Qed.

(** ** Decimal formatting *)

Lemma rne_div_nearest a b i :
  0 < b -> (2 * i - 1) * b < 2 * a < (2 * i + 1) * b -> rne_div a b = i.
Proof.
  intros Hb Hi. unfold rne_div.
  pose proof (Z.div_mod a b ltac:(lia)) as Hdm.
  pose proof (Z.mod_pos_bound a b Hb) as Hr.
  assert (Hq : a / b = i - 1 \/ a / b = i) by nia.
  repeat case_match;
    repeat match goal with
           | H : (_ <? _) = true |- _ => apply Z.ltb_lt in H
           | H : (_ <? _) = false |- _ => apply Z.ltb_ge in H
           end; nia.
Qed.

Lemma rne_div_within a b i :
  0 <= a -> 0 < b -> i * b <= a <= (i + 1) * b -> i <= rne_div a b <= i + 1.
Proof.
  intros Ha Hb Hi. split.
  - apply rne_div_ge_int; lia.
  - apply rne_div_le_int; lia.
Qed.

(** A value [m / p] known to within [e / s] of the rational [x / n], with
    [2 * e * n <= s], rounds to an integer nearest to [x / n]. *)
Lemma rne_div_accurate m p x n lo hi s e :
  0 <= m -> 0 < p -> 0 < n -> 0 < s -> 0 <= e -> 2 * e * n <= s -> 0 <= x ->
  lo * p <= m * s <= hi * p ->
  x * s - e * n < lo * n -> hi * n < x * s + e * n ->
  2 * Z.abs (x - rne_div m p * n) <= n.
Proof.
  intros Hm Hp Hn Hs He Hsn Hx Hb Hlo Hhi.
  set (i := x / n). set (r := x mod n).
  assert (Hxi : x = n * i + r) by (apply Z.div_mod; lia).
  assert (Hr : 0 <= r < n) by (apply Z.mod_pos_bound; lia).
  assert (Hi0 : 0 <= i) by (apply Z.div_pos; lia).
  (* the bounds, scaled by [n * p] *)
  assert (Hup : m * s * n <= hi * n * p).
  { replace (hi * n * p) with (hi * p * n) by ring.
    apply Z.mul_le_mono_nonneg_r; lia. }
  assert (Hdn : lo * n * p <= m * s * n).
  { replace (lo * n * p) with (lo * p * n) by ring.
    apply Z.mul_le_mono_nonneg_r; lia. }
  assert (Hup' : hi * n * p < (x * s + e * n) * p) by (apply Z.mul_lt_mono_pos_r; lia).
  assert (Hdn' : (x * s - e * n) * p < lo * n * p) by (apply Z.mul_lt_mono_pos_r; lia).
  assert (Hxs : x * s = i * (s * n) + r * s) by (rewrite Hxi; ring).
  assert (Hrs : 0 <= r * s) by nia.
  assert (Hsn' : 0 < s * n) by nia.
  assert (Hmul : forall u v, u <= v -> u * p <= v * p)
    by (intros; apply Z.mul_le_mono_nonneg_r; lia).
  assert (Hen : 2 * (e * n) <= s * n) by nia.
  destruct (Z.lt_trichotomy (2 * r) n) as [Hlt|[Heq|Hgt]].
  - assert (E : rne_div m p = i); [|rewrite E; lia].
    apply rne_div_nearest; [assumption|].
    assert (Hr2 : 2 * (r * s) <= (n - 1) * s) by nia.
    assert (K1 : (2 * i - 1) * (s * n) <= 2 * (x * s - e * n)) by lia.
    assert (K2 : 2 * (x * s + e * n) <= (2 * i + 1) * (s * n)) by lia.
    apply Hmul in K1, K2.
    split; apply Z.mul_lt_mono_pos_r with (s * n); lia.
  - assert (E : rne_div m p = i \/ rne_div m p = i + 1);
      [|destruct E as [E|E]; rewrite E; lia].
    assert (Hw : i <= rne_div m p <= i + 1); [|lia].
    apply rne_div_within; [assumption|assumption|].
    assert (Hr2 : 2 * (r * s) = s * n) by nia.
    assert (K1 : i * (s * n) <= x * s - e * n) by lia.
    assert (K2 : x * s + e * n <= (i + 1) * (s * n)) by lia.
    apply Hmul in K1, K2.
    split; apply Z.mul_le_mono_pos_r with (s * n); lia.
  - assert (E : rne_div m p = i + 1); [|rewrite E; lia].
    apply rne_div_nearest; [assumption|].
    assert (Hr2 : (n + 1) * s <= 2 * (r * s)) by nia.
    assert (Hr3 : r * s <= (n - 1) * s) by nia.
    assert (K1 : (2 * (i + 1) - 1) * (s * n) <= 2 * (x * s - e * n)) by lia.
    assert (K2 : 2 * (x * s + e * n) <= (2 * (i + 1) + 1) * (s * n)) by lia.
    apply Hmul in K1, K2.
    split; apply Z.mul_lt_mono_pos_r with (s * n); lia.
Qed.

Lemma format_fixed_finite d m k :
  0 <= m -> 0 <= k ->
  format_fixed d (Finite m (- k)) =
    let n := rne_div (m * 10 ^ Z.of_nat d) (2 ^ k) in
    concat_str
      [ EmptyString; str_of_int (n / 10 ^ Z.of_nat d);
        match d with
        | O => EmptyString
        | _ => "." +:+ pad_zeros d (str_of_int (n mod 10 ^ Z.of_nat d))
        end ].
Proof.
  intros Hm Hk. unfold format_fixed. rewrite Z.abs_eq by assumption.
  destruct (m <? 0) eqn:Hneg; [apply Z.ltb_lt in Hneg; lia|].
  rewrite Z.opp_involutive.
  destruct (0 <=? - k) eqn:He; [|reflexivity].
  apply Z.leb_le in He. assert (k = 0) as -> by lia.
  change (- 0) with 0. rewrite !Z.pow_0_r.
  pose proof (rne_div_exact (m * 10 ^ Z.of_nat d) 1 ltac:(lia)) as E.
  rewrite Z.mul_1_r in E. rewrite E, Z.mul_1_r. reflexivity.
Qed.

Lemma format_fixed_0 m k :
  0 <= m -> 0 <= k ->
  format_fixed 0 (Finite m (- k)) = str_of_int (rne_div m (2 ^ k)).
Proof.
  intros Hm Hk. rewrite format_fixed_finite by assumption.
  cbn [Z.of_nat]. rewrite Z.pow_0_r, Z.mul_1_r, Z.div_1_r.
  cbn [concat_str foldr]. by rewrite !append_nil_r.
Qed.

Lemma pad_digit x : 0 <= x < 10 -> pad_zeros 1 (str_of_int x) = str_of_int x.
Proof.
  intros Hx.
  assert (H : x = 0 \/ x = 1 \/ x = 2 \/ x = 3 \/ x = 4 \/ x = 5 \/ x = 6
              \/ x = 7 \/ x = 8 \/ x = 9) by lia.
  repeat (destruct H as [->|H]; [reflexivity|]). by subst x.
Qed.

Lemma format_fixed_1 m k :
  0 <= m -> 0 <= k ->
  format_fixed 1 (Finite m (- k)) =
    let n := rne_div (m * 10) (2 ^ k) in
    str_of_int (n / 10) +:+ "." +:+ str_of_int (n mod 10).
Proof.
  intros Hm Hk. rewrite format_fixed_finite by assumption.
  change (10 ^ Z.of_nat 1) with 10. cbn zeta.
  rewrite pad_digit by (apply Z.mod_pos_bound; lia).
  cbn [concat_str foldr]. by rewrite !append_nil_r.
Qed.

(** [f * n] for a double [f = m / 2^k] and an exactly representable [n]. *)
Lemma float_mul_int_between n m k j lo hi :
  Z.abs n < 2 ^ 53 -> 0 <= k -> 0 <= j <= 53 ->
  Z.abs (n * m) < 2 ^ k * 2 ^ (53 - j) ->
  lo * 2 ^ k <= n * m * 2 ^ j <= hi * 2 ^ k ->
  exists m' k', float_mul_int (Finite m (- k)) n = Ok (Finite m' (- k')) /\ 0 <= k'
    /\ lo * 2 ^ k' <= m' * 2 ^ j <= hi * 2 ^ k'.
Proof.
  intros Hn Hk Hj Hmag Hb.
  destruct (float_of_int_exact n Hn) as (k1 & Hk1 & Hf).
  unfold float_mul_int. rewrite Hf. unfold mbind, exn_bind.
  rewrite float_mul_finite by lia.
  assert (Hp1 : 0 < 2 ^ k1) by (apply Z.pow_pos_nonneg; lia).
  assert (Hpk : 0 < 2 ^ k) by (apply Z.pow_pos_nonneg; lia).
  destruct (round_rat_between (m * (n * 2 ^ k1)) (2 ^ (k + k1)) j lo hi)
    as (m' & k' & Hr & Hk' & Hb').
  - apply Z.pow_pos_nonneg; lia.
  - done.
  - rewrite Z.pow_add_r by lia.
    replace (m * (n * 2 ^ k1)) with (n * m * 2 ^ k1) by lia.
    rewrite Z.abs_mul, (Z.abs_eq (2 ^ k1)) by lia. nia.
  - rewrite Z.pow_add_r by lia. nia.
  - exists m', k'. rewrite Hr. done.
Qed.

Lemma percent_digits k n comp_rate percent :
  0 <= k <= n -> 0 < n <= 2 ^ 40 ->
  int_truediv k n = Ok comp_rate -> float_mul_int comp_rate 100 = Ok percent ->
  exists p, format_fixed 0 percent = str_of_int p
    /\ 0 <= p <= 100 /\ 2 * Z.abs (100 * k - p * n) <= n.
Proof.
  intros Hk Hn Hrate Hpct.
  assert (H40 : 2 ^ 40 = 1099511627776) by reflexivity.
  assert (H45 : 2 ^ 45 = 35184372088832) by reflexivity.
  assert (H52 : 2 ^ 52 = 4503599627370496) by reflexivity.
  set (lo1 := k * 2 ^ 52 / n).
  assert (A1 : lo1 * n <= k * 2 ^ 52 < (lo1 + 1) * n).
  { pose proof (Z.div_mod (k * 2 ^ 52) n ltac:(lia)) as Hd.
    pose proof (Z.mod_pos_bound (k * 2 ^ 52) n ltac:(lia)). fold lo1 in Hd. lia. }
  assert (A0 : 0 <= lo1 <= 2 ^ 52).
  { split; [apply Z.div_pos; lia|]. apply Z.div_le_upper_bound; nia. }
  destruct (int_truediv_between k n 52 lo1 (lo1 + 1))
    as (m & kk & Hm & Hkk & Hb); [lia|lia| |lia|].
  { change (2 ^ (53 - 52)) with 2. lia. }
  rewrite Hrate in Hm. injection Hm as ->.
  assert (Hp : 0 < 2 ^ kk) by (apply Z.pow_pos_nonneg; lia).
  assert (Hm0 : 0 <= m) by nia.
  set (lo2 := 100 * lo1 / 128).
  set (hi2 := (100 * (lo1 + 1) + 127) / 128).
  assert (A2 : 128 * lo2 <= 100 * lo1 < 128 * lo2 + 128).
  { pose proof (Z.div_mod (100 * lo1) 128 ltac:(lia)) as Hd.
    pose proof (Z.mod_pos_bound (100 * lo1) 128 ltac:(lia)). fold lo2 in Hd. lia. }
  assert (A3 : 100 * (lo1 + 1) <= 128 * hi2 < 100 * (lo1 + 1) + 128).
  { pose proof (Z.div_mod (100 * (lo1 + 1) + 127) 128 ltac:(lia)) as Hd.
    pose proof (Z.mod_pos_bound (100 * (lo1 + 1) + 127) 128 ltac:(lia)).
    fold hi2 in Hd. lia. }
  destruct (float_mul_int_between 100 m kk 45 lo2 hi2)
    as (m2 & k2 & Hm2 & Hk2 & Hb2); [lia|lia|lia|..].
  - change (2 ^ (53 - 45)) with 256. rewrite Z.abs_eq by lia. nia.
  - rewrite H45. split; nia.
  - rewrite Hpct in Hm2. injection Hm2 as ->.
    assert (Hp2 : 0 < 2 ^ k2) by (apply Z.pow_pos_nonneg; lia).
    assert (Hlo2 : 0 <= lo2) by lia.
    assert (Hm20 : 0 <= m2) by nia.
    rewrite format_fixed_0 by assumption.
    exists (rne_div m2 (2 ^ k2)). split; [reflexivity|].
    assert (Hacc : 2 * Z.abs (100 * k - rne_div m2 (2 ^ k2) * n) <= n).
    { apply (rne_div_accurate m2 (2 ^ k2) (100 * k) n lo2 hi2 (2 ^ 45) 2);
        [assumption|assumption|lia|lia|lia|lia|lia|assumption|nia|nia]. }
    split; [|exact Hacc]. nia.
Qed.

Lemma average_digits s k avg :
  0 < k <= 2 ^ 40 -> 0 <= s <= 10 * k -> int_truediv s k = Ok avg ->
  exists a,
    format_fixed 1 avg = str_of_int (a / 10) +:+ "." +:+ str_of_int (a mod 10)
    /\ 0 <= a <= 100 /\ 2 * Z.abs (10 * s - a * k) <= k.
Proof.
  intros Hk Hs Havg.
  assert (H40 : 2 ^ 40 = 1099511627776) by reflexivity.
  assert (H49 : 2 ^ 49 = 562949953421312) by reflexivity.
  set (lo1 := s * 2 ^ 49 / k).
  assert (A1 : lo1 * k <= s * 2 ^ 49 < (lo1 + 1) * k).
  { pose proof (Z.div_mod (s * 2 ^ 49) k ltac:(lia)) as Hd.
    pose proof (Z.mod_pos_bound (s * 2 ^ 49) k ltac:(lia)). fold lo1 in Hd. lia. }
  assert (A0 : 0 <= lo1) by (apply Z.div_pos; lia).
  destruct (int_truediv_between s k 49 lo1 (lo1 + 1))
    as (m & kk & Hm & Hkk & Hb); [lia|lia| |lia|].
  { change (2 ^ (53 - 49)) with 16. lia. }
  rewrite Havg in Hm. injection Hm as ->.
  assert (Hp : 0 < 2 ^ kk) by (apply Z.pow_pos_nonneg; lia).
  assert (Hm0 : 0 <= m) by nia.
  rewrite format_fixed_1 by assumption. cbn zeta.
  exists (rne_div (m * 10) (2 ^ kk)). split; [reflexivity|].
  assert (Hacc : 2 * Z.abs (10 * s - rne_div (m * 10) (2 ^ kk) * k) <= k).
  { apply (rne_div_accurate (m * 10) (2 ^ kk) (10 * s) k (10 * lo1) (10 * (lo1 + 1))
             (2 ^ 49) 11); [lia|assumption|lia|lia|lia|lia|lia|lia|nia|nia]. }
  split; [|exact Hacc]. nia.
Qed.

(** ** The summary on the data of the form *)

Lemma form_entry_completed e :
  py_get (form_entry e) "completed" PyNone = Ok (PyBool e.1).
Proof. reflexivity. Qed.

Lemma form_entry_rpe e : py_get (form_entry e) "rpe" PyNone = Ok (PyInt e.2).
Proof. reflexivity. Qed.

Lemma completed_of_form es :
  completed_of (map form_entry es) = Ok (map form_entry (done_entries es)).
Proof.
  induction es as [|[b r] es IH]; [reflexivity|].
  cbn [map completed_of]. rewrite form_entry_completed, IH.
  cbn [mbind exn_bind py_truthy done_entries List.filter fst].
  by destruct b.
Qed.

Lemma rpes_of_form es : rpes_of (map form_entry es) = Ok (map snd es).
Proof.
  induction es as [|[b r] es IH]; [reflexivity|].
  cbn [map rpes_of]. rewrite form_entry_rpe, IH. reflexivity.
Qed.

Lemma done_entries_bounds es :
  Forall (fun e => 0 <= e.2 <= 10) es ->
  (length (done_entries es) <= length es)%nat
  /\ 0 <= effort_total es <= 10 * Z.of_nat (length (done_entries es)).
Proof.
  unfold effort_total, done_entries.
  induction 1 as [|[b r] es Hr _ IH]; [cbn; lia|].
  cbn [List.filter fst]. destruct b; cbn [length map sum_Z foldr snd] in *;
    fold (sum_Z (map snd (List.filter fst es))); lia.
Qed.

(** The summary of the adherence form. *)
Lemma adherence_summary_form es :
  es <> [] -> Forall (fun e => 0 <= e.2 <= 10) es ->
  let k := Z.of_nat (length (done_entries es)) in
  let n := Z.of_nat (length es) in
  let s := effort_total es in
  exists comp_rate percent,
    int_truediv k n = Ok comp_rate
    /\ float_mul_int comp_rate 100 = Ok percent
    /\ ((k = 0 /\ analyse_adherence_and_rpe (map form_entry es) =
                    Ok (Some (adherence_sentence k n percent)))
        \/ (0 < k /\ exists avg,
              int_truediv s k = Ok avg
              /\ analyse_adherence_and_rpe (map form_entry es) =
                   Ok (Some (join " " [ adherence_sentence k n percent;
                                        effort_sentence avg;
                                        effort_advice avg comp_rate ])))).
Proof.
  intros Hne Hall. cbv zeta.
  destruct (done_entries_bounds es Hall) as (Hkn & Hs).
  remember (Z.of_nat (length (done_entries es))) as k eqn:Ek.
  remember (Z.of_nat (length es)) as n eqn:En.
  remember (effort_total es) as s eqn:Es.
  assert (Hn : 0 < n) by (subst n; destruct es; [done|cbn [length]; lia]).
  destruct (int_truediv_between k n 0 0 1) as (m & kk & Hrate & Hkk & Hb);
    [lia|lia| |lia|].
  { change (2 ^ (53 - 0)) with 9007199254740992. lia. }
  assert (Hp : 0 < 2 ^ kk) by (apply Z.pow_pos_nonneg; lia).
  rewrite Z.pow_0_r in Hb.
  destruct (float_mul_int_between 100 m kk 0 0 100) as (m2 & k2 & Hpct & _);
    [lia|lia|lia| |nia|].
  { change (2 ^ (53 - 0)) with 9007199254740992. rewrite Z.abs_eq by lia. nia. }
  exists (Finite m (- kk)), (Finite m2 (- k2)).
  split; [exact Hrate|]. split; [exact Hpct|].
  unfold analyse_adherence_and_rpe.
  destruct (map form_entry es) as [|e0 tl0] eqn:Hmap.
  { destruct es; [done|discriminate Hmap]. }
  rewrite <- Hmap, completed_of_form. cbn [mbind exn_bind].
  rewrite !length_map, <- Ek, <- En.
  destruct (n =? 0) eqn:Hn0; [apply Z.eqb_eq in Hn0; lia|].
  rewrite Hrate. cbn [mbind exn_bind]. rewrite rpes_of_form.
  cbn [mbind exn_bind]. rewrite length_map, <- Ek.
  assert (Hsum : sum_Z (map snd (done_entries es)) = s) by (by subst s).
  rewrite Hsum.
  destruct (done_entries es) as [|e1 tl] eqn:Hdone.
  - left. cbn [length] in Ek. split; [exact Ek|].
    cbn [map mbind exn_bind]. rewrite Hpct. reflexivity.
  - right. assert (Hk : 0 < k) by (subst k; cbn [length]; lia).
    split; [exact Hk|].
    destruct (int_truediv_between s k 0 0 10) as (ma & ka & Havg & _);
      [lia|lia| |lia|].
    { change (2 ^ (53 - 0)) with 9007199254740992. lia. }
    exists (Finite ma (- ka)). split; [exact Havg|].
    cbn [map]. rewrite Havg. cbn [mbind exn_bind]. rewrite Hpct. reflexivity.
Qed.

(** * Properties of the coach message and the coach answers *)

Lemma coaching_fallback_nonempty : coaching_fallback <> EmptyString.
Proof. nonempty_text. Qed.

Lemma offline_reply_nonempty question : offline_reply question <> EmptyString.
Proof.
  unfold offline_reply.
  destruct (_ || _); [nonempty_text|].
  destruct (contains "load" _); [nonempty_text|].
  destruct (_ || _); nonempty_text.
Qed.

Lemma str_or_nonempty s d : d <> EmptyString -> str_or s d <> EmptyString.
Proof. intros Hd. destruct s; [exact Hd|discriminate]. Qed.

Section CoachFacts.
Context {W : Type} (client : chat_client W) (repr_value : pyval -> string).

Lemma stored_summaries_dicts items :
  Forall (fun s => exists d, s = PyDict d) items ->
  exists lines, stored_summaries repr_value items = Ok lines /\ length lines = length items.
Proof.
  induction 1 as [|s items (d & ->) _ (lines & IH & Hlen)]; [by exists []|].
  cbn [stored_summaries stored_summary py_get mbind exn_bind]. rewrite IH.
  cbn [mbind exn_bind]. eexists. split; [reflexivity|]. cbn [length]. by rewrite Hlen.
Qed.

Lemma answer_context_stored plan sport level :
  stored_plan plan ->
  exists session_text,
    answer_context_of repr_value (py_or (default PyNone plan) (PyList [])) sport level
      = Ok (answer_context repr_value sport level session_text)
    /\ ((plan = None \/ plan = Some PyNone \/ plan = Some (PyList [])) ->
          session_text = "No plan generated yet.").
Proof.
  intros [-> | [-> | (items & -> & Hitems)]].
  - eexists. split; [reflexivity|]. by intros _.
  - eexists. split; [reflexivity|]. by intros _.
  - destruct items as [|s items].
    + eexists. split; [reflexivity|]. by intros _.
    + destruct (stored_summaries_dicts _ Hitems) as (lines & Hlines & Hlen).
      change (py_or (default PyNone (Some (PyList (s :: items)))) (PyList []))
        with (PyList (s :: items)).
      unfold answer_context_of. cbn [py_iter mbind exn_bind]. rewrite Hlines. cbn [mbind exn_bind].
      eexists. split; [reflexivity|].
      intros [H | [H | H]]; discriminate H.
Qed.

(** X14: the coaching message is never empty and never an exception.
    Without [use_ai] or without a client it is the fixed fallback and
    nothing is requested.  Otherwise exactly one request is made, the one
    built from the sessions: the world afterwards is the world after that
    request, and the message is the stripped text of the response when
    that is not empty, and the fallback when the stripped text is empty,
    the response has no text, or the request raises. *)
Theorem coaching_message_spec sessions sport level use_ai w :
  let r := generate_coaching_message client repr_value sessions sport level use_ai w in
  let request := coaching_request repr_value sessions sport level in
  let response := create_chat client request w in
  r.1 <> EmptyString
  /\ (use_ai = false \/ client_available client = false -> r = (coaching_fallback, w))
  /\ (use_ai = true -> client_available client = true ->
        r.2 = response.2
        /\ (forall content, response.1 = Ok (Some content) ->
              (strip content <> EmptyString -> r.1 = strip content)
              /\ (strip content = EmptyString -> r.1 = coaching_fallback))
        /\ (response.1 = Ok None -> r.1 = coaching_fallback)
        /\ (forall e, response.1 = Raise e -> r.1 = coaching_fallback)).
Proof.
  cbv zeta. unfold generate_coaching_message.
  destruct use_ai; cbn [negb orb].
  2:{ split; [apply coaching_fallback_nonempty|]. split; [reflexivity|].
      intros H; discriminate H. }
  destruct (client_available client); cbn [negb].
  2:{ split; [apply coaching_fallback_nonempty|]. split; [reflexivity|].
      intros _ H; discriminate H. }
  destruct (create_chat client (coaching_request repr_value sessions sport level) w)
    as [[[content|]|e] w']; cbn [fst snd mbind exn_bind strip_content].
  - split; [apply str_or_nonempty, coaching_fallback_nonempty|].
    split; [intros [H|H]; discriminate H|]. intros _ _.
    split; [reflexivity|]. split.
    { intros content' Hc. injection Hc as <-.
      destruct (strip content) as [|a t] eqn:Hs.
      - split; [intros H; by destruct H|reflexivity].
      - split; [reflexivity|intros H; discriminate H]. }
    split; [intros H; discriminate H|intros e H; discriminate H].
  - split; [apply coaching_fallback_nonempty|].
    split; [intros [H|H]; discriminate H|]. intros _ _.
    split; [reflexivity|]. split; [intros content H; discriminate H|].
    split; reflexivity.
  - split; [apply coaching_fallback_nonempty|].
    split; [intros [H|H]; discriminate H|]. intros _ _.
    split; [reflexivity|]. split; [intros content H; discriminate H|].
    split; reflexivity.
Qed.

(** X15: with the page state as the program keeps it ([plan_meta] absent or
    a dict), [answer_user_question] always returns a text.  A question that
    is empty or blank gets the prompt to type one, and nothing is
    requested.  Without a client the reply is the canned text of the first
    keyword group found in the lower-cased question, never empty, and
    nothing is requested.  With a client: when building the context
    raises, the reply is the fixed text about a problem and nothing is
    requested; otherwise exactly one request is made, with that context
    and the question, and the reply is the stripped text of the response,
    or the text about a problem when the response has no text or the
    request raises.  With the stored plan absent, [None] or a list of
    dicts, building the context does not raise. *)
Theorem answer_question_spec state question w :
  (assoc_get state "plan_meta" = None
   \/ exists d, assoc_get state "plan_meta" = Some (PyDict d)) ->
  let r := answer_user_question client repr_value state question w in
  let plan_sessions :=
    py_or (default PyNone (assoc_get state "plan_sessions")) (PyList []) in
  let plan_meta := default (PyDict []) (assoc_get state "plan_meta") in
  exists text sport level,
    r.1 = Ok text
    /\ py_get plan_meta "sport" (PyStr "Not set") = Ok sport
    /\ py_get plan_meta "level" (PyStr "Not set") = Ok level
    /\ (question = EmptyString \/ strip question = EmptyString ->
          text = question_prompt /\ r.2 = w)
    /\ (question <> EmptyString -> strip question <> EmptyString ->
          client_available client = false ->
          text = offline_reply question /\ text <> EmptyString /\ r.2 = w)
    /\ (question <> EmptyString -> strip question <> EmptyString ->
          client_available client = true ->
          ((exists e, answer_context_of repr_value plan_sessions sport level = Raise e) ->
             text = reply_problem /\ r.2 = w)
          /\ (forall context,
                answer_context_of repr_value plan_sessions sport level = Ok context ->
                let response := create_chat client (answer_request context question) w in
                r.2 = response.2
                /\ (forall content, response.1 = Ok (Some content) -> text = strip content)
                /\ (response.1 = Ok None -> text = reply_problem)
                /\ (forall e, response.1 = Raise e -> text = reply_problem)))
    /\ (stored_plan (assoc_get state "plan_sessions") ->
          exists session_text,
            answer_context_of repr_value plan_sessions sport level
              = Ok (answer_context repr_value sport level session_text)).
Proof.
  intros Hmeta. cbv zeta.
  assert (Hdict : exists d, default (PyDict []) (assoc_get state "plan_meta") = PyDict d).
  { destruct Hmeta as [->|(d & ->)]; eexists; reflexivity. }
  destruct Hdict as (d & Hd).
  set (sport := default (PyStr "Not set") (assoc_get d "sport")).
  set (level := default (PyStr "Not set") (assoc_get d "level")).
  assert (Hstored : stored_plan (assoc_get state "plan_sessions") ->
            exists session_text,
              answer_context_of repr_value
                (py_or (default PyNone (assoc_get state "plan_sessions")) (PyList []))
                sport level
              = Ok (answer_context repr_value sport level session_text)).
  { intros Hp. destruct (answer_context_stored _ sport level Hp) as (t & Ht & _). eauto. }
  unfold answer_user_question. rewrite Hd. cbn [py_get]. fold sport level.
  destruct (bool_decide (question = EmptyString) || bool_decide (strip question = EmptyString))
    eqn:Hblank.
  { exists question_prompt, sport, level. split; [reflexivity|].
    split; [reflexivity|]. split; [reflexivity|]. split; [by intros _|].
    apply orb_true_iff in Hblank.
    assert (Hb : question = EmptyString \/ strip question = EmptyString).
    { destruct Hblank as [H|H]; apply bool_decide_eq_true_1 in H; auto. }
    split; [intros H1 H2; destruct Hb; contradiction|].
    split; [intros H1 H2; destruct Hb; contradiction|exact Hstored]. }
  apply orb_false_iff in Hblank as [Hq Hs].
  apply bool_decide_eq_false_1 in Hq, Hs.
  destruct (client_available client) eqn:Hav; cbn [negb].
  2:{ exists (offline_reply question), sport, level. split; [reflexivity|].
      split; [reflexivity|]. split; [reflexivity|].
      split; [intros [H|H]; contradiction|].
      split.
      { intros _ _ _. split; [reflexivity|].
        split; [apply offline_reply_nonempty|reflexivity]. }
      split; [intros _ _ H; discriminate H|exact Hstored]. }
  destruct (answer_context_of repr_value _ sport level) as [context|e] eqn:Hctx.
  2:{ exists reply_problem, sport, level. rewrite !Hctx. split; [reflexivity|].
      split; [reflexivity|]. split; [reflexivity|].
      split; [intros [H|H]; contradiction|].
      split; [intros _ _ H; discriminate H|].
      split; [|exact Hstored].
      intros _ _ _. split; [intros _; split; reflexivity|].
      intros context H; discriminate H. }
  destruct (create_chat client (answer_request context question) w)
    as [[[content|]|e] w'] eqn:Hreq; cbn [fst snd mbind exn_bind strip_content].
  - exists (strip content), sport, level. rewrite !Hctx. split; [reflexivity|].
    split; [reflexivity|]. split; [reflexivity|].
    split; [intros [H|H]; contradiction|].
    split; [intros _ _ H; discriminate H|].
    split; [|exact Hstored].
    intros _ _ _. split; [intros (e & He); discriminate He|].
    intros context' Hc. injection Hc as <-. rewrite Hreq. cbn [fst snd].
    split; [reflexivity|]. split; [intros c Hc; by injection Hc as <-|].
    split; [intros H; discriminate H|intros e H; discriminate H].
  - exists reply_problem, sport, level. rewrite !Hctx. split; [reflexivity|].
    split; [reflexivity|]. split; [reflexivity|].
    split; [intros [H|H]; contradiction|].
    split; [intros _ _ H; discriminate H|].
    split; [|exact Hstored].
    intros _ _ _. split; [intros (e & He); discriminate He|].
    intros context' Hc. injection Hc as <-. rewrite Hreq. cbn [fst snd].
    split; [reflexivity|]. split; [intros c Hc; discriminate Hc|].
    split; reflexivity.
  - exists reply_problem, sport, level. rewrite !Hctx. split; [reflexivity|].
    split; [reflexivity|]. split; [reflexivity|].
    split; [intros [H|H]; contradiction|].
    split; [intros _ _ H; discriminate H|].
    split; [|exact Hstored].
    intros _ _ _. split; [intros (e' & He); discriminate He|].
    intros context' Hc. injection Hc as <-. rewrite Hreq. cbn [fst snd].
    split; [reflexivity|]. split; [intros c Hc; discriminate Hc|].
    split; reflexivity.
Qed.
End CoachFacts.

(** * The orchestrator, and the summary of the form *)

Lemma sorted_by_ext {A} (key key' : A -> Z) l :
  (forall x, key' x = key x) -> sorted_by key l -> sorted_by key' l.
Proof.
  intros Heq. unfold sorted_by. induction 1 as [|x l Hs IH Hx]; constructor.
  - exact IH.
  - eapply Forall_impl; [exact Hx|]. intros y Hy. cbn beta in *. rewrite !Heq. exact Hy.
Qed.

(** The guardrail leaves the day of every object, hence every sort key. *)
Lemma guardrail_keeps_keys st sessions L st' out :
  apply_weekly_load_guardrail st sessions L = Ok (st', out) ->
  forall r, session_key st' r = session_key st r.
Proof.
  intros Hrun r.
  destruct (guardrail_frame_of_result _ _ _ _ _ Hrun) as (_ & Hlen & Hframe & _).
  unfold session_key. destruct (st !! r) as [s|] eqn:Hs.
  - destruct (Hframe r s Hs) as (s' & -> & Hday & _). by rewrite Hday.
  - apply lookup_ge_None in Hs. rewrite (lookup_ge_None_2 st' r) by lia. reflexivity.
Qed.

Lemma boxing_plan_sorted level n c st sessions :
  generate_boxing_sessions_template level n c = Ok (st, sessions) ->
  sorted_by (session_key st) sessions.
Proof.
  unfold generate_boxing_sessions_template. intros H.
  apply bind_Ok in H as (l & _ & H). injection H as <- <-.
  apply sort_by_key_sorted.
Qed.

(** X2: the plan [generate_week_plan] returns is sorted by the day index
    whenever the sport is boxing, or the AI path gave the plan, or at most
    four sessions were requested: the guardrail keeps the order and the
    days, the boxing selector and the AI path sort, and the first four
    generic days are in order. *)
Theorem week_plan_sorted {W} (svc : services W) sport level n L c w st sessions :
  (generate_week_plan svc sport level n L c w).1 = Ok (st, sessions) ->
  lower sport = "boxing" \/ n <= 4
  \/ (exists p, (generate_sessions_ai svc sport level n L c w).1 = Some p) ->
  sorted_by (session_key st) sessions.
Proof.
  intros Hrun Hcase.
  destruct ((generate_sessions_ai svc sport level n L c w).1) as [[st0 s0]|] eqn:Hai.
  - rewrite (week_plan_uses_ai_only svc _ _ _ _ _ _ _ _ Hai) in Hrun.
    pose proof (guardrail_frame_of_result _ _ _ _ _ Hrun) as (-> & _).
    apply (sorted_by_ext (session_key st0)); [by eapply guardrail_keeps_keys|].
    apply generate_sessions_ai_Some in Hai as (_ & ? & ? & ? & ? & ? & _ & _ & _ & _ & _
                                                & _ & _ & ->).
    apply sort_by_key_sorted.
  - rewrite (week_plan_fallback svc _ _ _ _ _ _ Hai) in Hrun.
    apply bind_Ok in Hrun as ([st0 s0] & Hgen & Hrun). cbn [fst snd] in Hrun.
    pose proof (guardrail_frame_of_result _ _ _ _ _ Hrun) as (-> & _).
    apply (sorted_by_ext (session_key st0)); [by eapply guardrail_keeps_keys|].
    unfold template_sessions in Hgen. case_bool_decide as Hb.
    + by eapply boxing_plan_sorted.
    + destruct Hcase as [Hbox|[Hn|(p & Hp)]]; [contradiction| |discriminate Hp].
      unfold generate_generic_sessions_template in Hgen.
      apply bind_Ok in Hgen as (st1 & Hloop & Hgen). injection Hgen as <- <-.
      destruct (generic_store_records sport c _ st1 Hloop) as (Hlen & Hrec).
      apply sorted_by_seq_mono. intros i j _ Hij Hj.
      destruct (lookup_lt_is_Some_2 st1 i ltac:(lia)) as [si Hsi].
      destruct (lookup_lt_is_Some_2 st1 j ltac:(lia)) as [sj Hsj].
      unfold session_key. rewrite Hsi, Hsj.
      destruct (Hrec i si Hsi) as (_ & Hdi & _). destruct (Hrec j sj Hsj) as (_ & Hdj & _).
      rewrite (day_index_get_lookup _ _ Hdi), (day_index_get_lookup _ _ Hdj).
      rewrite !Nat.mod_small by lia. lia.
Qed.

Lemma total_minutes_target_Ok level n L :
  L < 2 ^ 48 -> exists target, total_minutes_target level n L = Ok target.
Proof.
  intros HL. destruct (Z_le_gt_dec L 0) as [H0|H0].
  - unfold total_minutes_target.
    destruct (L <=? 0) eqn:H; [|apply Z.leb_gt in H; lia].
    repeat case_bool_decide; eauto.
  - unfold total_minutes_target.
    destruct (L <=? 0) eqn:H; [apply Z.leb_le in H; lia|].
    pose proof (int_mul_0_8 L ltac:(lia)) as Hm.
    destruct (int_mul_float L lit_0_8) as [x|]; cbn [mbind exn_bind] in *; [|discriminate Hm].
    rewrite Hm. cbn [mbind exn_bind]. eauto.
Qed.

(** X3: with a client and a prior load below [2^48], [generate_week_plan]
    makes exactly one request, with the prompt built from its arguments
    and the minutes target. *)
Theorem week_plan_requests_once {W} (svc : services W) sport level n L c w :
  OPENAI_AVAILABLE svc = true -> L < 2 ^ 48 ->
  exists target,
    total_minutes_target level n L = Ok target
    /\ (generate_week_plan svc sport level n L c w).2 =
         (chat_completion svc (build_prompt sport level n target c) w).2.
Proof.
  intros Hav HL. destruct (total_minutes_target_Ok level n L HL) as (target & Ht).
  exists target. split; [exact Ht|].
  rewrite week_plan_world. unfold generate_sessions_ai, generate_sessions_ai_try.
  rewrite Hav, Ht. cbn [negb].
  by destruct (chat_completion svc (build_prompt sport level n target c) w).
Qed.

(** X5: when the guardrail scales a plan of distinct records (total at most
    [2^31], loads in [0, 2^20)), it keeps the order of the loads: a session
    that had at most the load of another has at most its load
    afterwards. *)
Theorem guardrail_keeps_load_order st sessions L ct :
  NoDup sessions -> ok_refs st sessions -> 0 < L < 2 ^ 48 ->
  sum_load_units st sessions = Ok ct ->
  Z.max (11 * L / 10) (L + 20) < ct -> ct <= 2 ^ 31 ->
  (forall r s, r ∈ sessions -> st !! r = Some s -> 0 <= load_units s < 2 ^ 20) ->
  exists st',
    apply_weekly_load_guardrail st sessions L = Ok (st', sessions)
    /\ forall r1 r2 s1 s2 s1' s2',
         r1 ∈ sessions -> r2 ∈ sessions ->
         st !! r1 = Some s1 -> st !! r2 = Some s2 ->
         st' !! r1 = Some s1' -> st' !! r2 = Some s2' ->
         load_units s1 <= load_units s2 -> load_units s1' <= load_units s2'.
Proof.
  intros Hnd Hok HL Hct Hlt Hsmall Hloads.
  destruct (guardrail_scaled_records st sessions L ct Hnd Hok HL Hct Hlt)
    as (f & st' & Hf & _ & Hrun & Hrec).
  exists st'. split; [exact Hrun|].
  intros r1 r2 s1 s2 s1' s2' Hr1 Hr2 Hs1 Hs2 Hs1' Hs2' Hle.
  destruct (Hrec r1 s1 Hr1 Hs1) as (t1 & Ht1 & Hl1).
  destruct (Hrec r2 s2 Hr2 Hs2) as (t2 & Ht2 & Hl2).
  rewrite Hs1' in Ht1. rewrite Hs2' in Ht2. injection Ht1 as <-. injection Ht2 as <-.
  pose proof (Hloads r1 s1 Hr1 Hs1). pose proof (Hloads r2 s2 Hr2 Hs2).
  eapply (scaling_keeps_order (Z.max (11 * L / 10) (L + 20)) ct f
            (load_units s1) (load_units s2)); [lia|assumption|assumption|lia|lia|
            exact Hl1|exact Hl2].
Qed.

(** X12: on the data of the adherence form (at most [2^40] entries, effort
    scores from 0 to 10) the summary is the adherence sentence alone when
    no session was completed, and otherwise the adherence sentence, the
    effort sentence and one advice, joined by a space.  The advice is
    decided as the exact quotients decide it: the high-effort advice when
    the effort total [s] of the [k] completed sessions has [8 * k <= s], the
    progression advice when [s <= 3 * k] and [7 * n <= 10 * k] for [n]
    sessions, the steady advice otherwise. *)
Theorem adherence_advice_exact es :
  es <> [] -> Forall (fun e => 0 <= e.2 <= 10) es ->
  Z.of_nat (length es) <= 2 ^ 40 ->
  let k := Z.of_nat (length (done_entries es)) in
  let n := Z.of_nat (length es) in
  let s := effort_total es in
  exists percent,
    (k = 0 /\ analyse_adherence_and_rpe (map form_entry es) =
                Ok (Some (adherence_sentence k n percent)))
    \/ (0 < k /\ exists avg,
          analyse_adherence_and_rpe (map form_entry es) =
            Ok (Some (join " " [ adherence_sentence k n percent;
                                 effort_sentence avg;
                                 advice_for s k n ]))).
Proof.
  intros Hne Hall Hlen. cbv zeta.
  destruct (adherence_summary_form es Hne Hall)
    as (comp_rate & percent & Hrate & _ & [(Hk & Hrun)|(Hk & avg & Havg & Hrun)]).
  - exists percent. left. split; [exact Hk|exact Hrun].
  - exists percent. right. split; [exact Hk|]. exists avg. rewrite Hrun.
    destruct (done_entries_bounds es Hall) as (Hkn & Hs).
    do 4 f_equal. unfold effort_advice, advice_for.
    assert (Hk40 : 0 < Z.of_nat (length (done_entries es)) <= 2 ^ 40) by lia.
    destruct (average_at_least _ _ avg 8 Hk40 Hs ltac:(lia) Havg) as (-> & _).
    destruct (average_at_least _ _ avg 3 Hk40 Hs ltac:(lia) Havg) as (_ & ->).
    assert (Hkn' : 0 <= Z.of_nat (length (done_entries es)) <= Z.of_nat (length es))
      by lia.
    assert (Hn40 : 0 < Z.of_nat (length es) <= 2 ^ 40) by lia.
    rewrite (rate_at_least_0_7 _ _ comp_rate Hkn' Hn40 Hrate).
    replace (8 * Z.of_nat (length (done_entries es)))
      with (Z.of_nat (length (done_entries es)) * 8) by lia.
    replace (3 * Z.of_nat (length (done_entries es)))
      with (Z.of_nat (length (done_entries es)) * 3) by lia.
    reflexivity.
Qed.

(** X13: on the data of the adherence form the summary prints the
    adherence as a whole percentage [p] between 0 and 100 within half a
    point of [100 * k / n], and the average effort with one decimal, within
    half a tenth of [s / k]. *)
Theorem adherence_numbers_accurate es :
  es <> [] -> Forall (fun e => 0 <= e.2 <= 10) es ->
  Z.of_nat (length es) <= 2 ^ 40 ->
  let k := Z.of_nat (length (done_entries es)) in
  let n := Z.of_nat (length es) in
  let s := effort_total es in
  exists percent p,
    format_fixed 0 percent = str_of_int p
    /\ 0 <= p <= 100 /\ 2 * Z.abs (100 * k - p * n) <= n
    /\ ((k = 0 /\ analyse_adherence_and_rpe (map form_entry es) =
                    Ok (Some (adherence_sentence k n percent)))
        \/ (0 < k /\ exists avg a advice,
              format_fixed 1 avg = str_of_int (a / 10) +:+ "." +:+ str_of_int (a mod 10)
              /\ 0 <= a <= 100 /\ 2 * Z.abs (10 * s - a * k) <= k
              /\ analyse_adherence_and_rpe (map form_entry es) =
                   Ok (Some (join " " [ adherence_sentence k n percent;
                                        effort_sentence avg; advice ])))).
Proof.
  intros Hne Hall Hlen. cbv zeta.
  destruct (done_entries_bounds es Hall) as (Hkn & Hs).
  destruct (adherence_summary_form es Hne Hall)
    as (comp_rate & percent & Hrate & Hpct & Hrun).
  assert (Hn0 : 0 < Z.of_nat (length es)) by (destruct es; [done|cbn [length]; lia]).
  assert (Hkn' : 0 <= Z.of_nat (length (done_entries es)) <= Z.of_nat (length es))
    by lia.
  assert (Hn40 : 0 < Z.of_nat (length es) <= 2 ^ 40) by lia.
  destruct (percent_digits _ _ comp_rate percent Hkn' Hn40 Hrate Hpct)
    as (p & Hp & Hp100 & Hpacc).
  exists percent, p. split; [exact Hp|]. split; [exact Hp100|]. split; [exact Hpacc|].
  destruct Hrun as [(Hk & Hrun)|(Hk & avg & Havg & Hrun)].
  - left. split; [exact Hk|exact Hrun].
  - right. split; [exact Hk|].
    assert (Hk40 : 0 < Z.of_nat (length (done_entries es)) <= 2 ^ 40) by lia.
    destruct (average_digits _ _ avg Hk40 Hs Havg) as (a & Ha & Ha100 & Haacc).
    exists avg, a, (effort_advice avg comp_rate).
    split; [exact Ha|]. split; [exact Ha100|]. split; [exact Haacc|exact Hrun].
Qed.

(** ** Worked examples, counterexamples and instances *)

(** Counterexample to C1 as stated.  On the spec's own example (loads 30,
    35, 40 and prior load 50) the code gives 20, 23, 26 where rounding to
    nearest gives 20, 23, 27.  With two loads of 20 and prior load 1 the
    factor is below one and the total stays 40; with five loads of 5 it
    grows from 25 to 100. *)
Lemma guardrail_truncates_example :
  guardrail_loads (novice_templates EmptyString) [0; 1; 2]%nat 50
    = Ok [Some 20; Some 23; Some 26]
  /\ map (fun old => claimed_load old 70 105) [30; 35; 40] = [20; 23; 27]
  /\ guardrail_loads [plain_session 20; plain_session 20] [0; 1]%nat 1
       = Ok [Some 20; Some 20]
  /\ guardrail_loads (map plain_session [5; 5; 5; 5; 5]) [0; 1; 2; 3; 4]%nat 1
       = Ok [Some 20; Some 20; Some 20; Some 20; Some 20].
Proof.
  split; [vm_compute; reflexivity|].
  split; [vm_compute; reflexivity|].
  split; vm_compute; reflexivity.
Qed.

(** Counterexample to C5 as stated: the padded novice plan of four
    sessions with prior load 1000 is within the allowed maximum (135
    against 1100), and its second entry, which is the record of the first,
    shows the load-check note too. *)
Lemma guardrail_note_on_shared_entry :
  exists st sessions st' s s' text,
    generate_boxing_sessions_template "Novice" 4 EmptyString = Ok (st, sessions)
    /\ sessions = [0; 0; 1; 2]%nat
    /\ sum_load_units st sessions = Ok 135 /\ allowed_max_of 1000 = Ok 1100
    /\ apply_weekly_load_guardrail st sessions 1000 = Ok (st', sessions)
    /\ view st sessions !! 1%nat = Some (Some s)
    /\ view st' sessions !! 1%nat = Some (Some s')
    /\ notes s = PyStr text
    /\ notes s' = PyStr (text +:+ load_check_note 135 1000)
    /\ s' <> s.
Proof.
  do 6 eexists.
  split; [vm_compute; reflexivity|]. split; [reflexivity|].
  split; [vm_compute; reflexivity|]. split; [vm_compute; reflexivity|].
  split; [vm_compute; reflexivity|]. split; [reflexivity|].
  split; [reflexivity|]. split; [reflexivity|].
  split; [vm_compute; reflexivity|].
  intros H.
  apply (f_equal (fun s => match notes s with
                           | PyStr t => String.length t
                           | _ => 0%nat
                           end)) in H.
  vm_compute in H. discriminate H.
Qed.

(** Counterexample to C9 as stated: the empty list with prior load 10. *)
Lemma guardrail_raises_on_empty_plan :
  apply_weekly_load_guardrail [] [] 10 = Raise IndexError.
Proof. vm_compute. reflexivity. Qed.

(** Counterexample to C10 as stated: for the padded novice plan of five
    sessions with prior load 50, one application of the formula to the
    shared record already gives the floor of 20, and the three
    applications of the loop give 20 as well: the compounded load is not
    below one application. *)
Lemma compounding_stops_at_floor :
  exists st sessions factor st' t0',
    generate_boxing_sessions_template "Novice" 5 EmptyString = Ok (st, sessions)
    /\ sessions = [0; 0; 0; 1; 2]%nat
    /\ sum_load_units st sessions = Ok 165
    /\ int_truediv 70 165 = Ok factor
    /\ apply_weekly_load_guardrail st sessions 50 = Ok (st', sessions)
    /\ st' !! 0%nat = Some t0'
    /\ scaled_load factor 30 = Ok 20
    /\ load_units t0' = 20
    /\ ~ load_units t0' < 20.
Proof.
  do 5 eexists.
  split; [vm_compute; reflexivity|]. split; [reflexivity|].
  split; [vm_compute; reflexivity|]. split; [vm_compute; reflexivity|].
  split; [vm_compute; reflexivity|]. split; [reflexivity|].
  split; [vm_compute; reflexivity|]. split; [reflexivity|].
  cbn. lia.
Qed.

(** Counterexample to C6 as stated: for the novice catalog and a count of
    5, the entry at index 4 of the returned plan is the Saturday session
    (load 40), not a duplicate of catalog entry 0 (load 30). *)
Lemma boxing_padding_moves_to_front : ~ duplicates_beyond_3 "Novice" 5 EmptyString.
Proof.
  intros H.
  assert (Hcat : exists s t0,
            novice_templates EmptyString !! 2%nat = Some s
            /\ boxing_templates "Novice" EmptyString !! 0%nat = Some t0
            /\ load_units s = 40 /\ load_units t0 = 30).
  { do 2 eexists. split; [reflexivity|]. split; [reflexivity|]. split; reflexivity. }
  destruct Hcat as (s & t0 & Hs & Ht0 & Hls & Hlt0).
  destruct (H (novice_templates EmptyString) [0; 0; 0; 1; 2]%nat 4%nat 2%nat s t0)
    as (_ & _ & _ & Hload); [vm_compute; reflexivity|lia|reflexivity|assumption..|].
  lia.
Qed.

(** ** Instances *)

Lemma guardrail_scaling_witness :
  exists st',
    apply_weekly_load_guardrail (novice_templates EmptyString) [0; 1; 2]%nat 50
      = Ok (st', [0; 1; 2]%nat)
    /\ allowed_max_of 50 = Ok 70
    /\ loads_of st' [0; 1; 2]%nat = [Some 20; Some 23; Some 26].
Proof.
  assert (Hok : ok_refs (novice_templates EmptyString) [0; 1; 2]%nat).
  { repeat (constructor; [eexists; split; [reflexivity|split; [reflexivity|exact I]]|]).
    constructor. }
  destruct (guardrail_scaling (novice_templates EmptyString) [0; 1; 2]%nat 50 105)
    as (f & st' & Ham & Hf & Hrun & Hrec & _);
    [apply (NoDup_seq 0 3)|exact Hok|lia|reflexivity|reflexivity|].
  exists st'. split; [exact Hrun|]. split; [exact Ham|].
  assert (Hat : forall r x q, (r < 3)%nat ->
            load_units <$> (novice_templates EmptyString !! r) = Some x ->
            0 <= x < 2 ^ 20 -> 20 <= q -> x * 70 / 105 = q ->
            ((x * 70) mod 105 = 0 -> q = 20) ->
            load_units <$> (st' !! r) = Some q).
  { intros r x q Hr Hx Hxb Hq Hdiv Hexact.
    destruct (novice_templates EmptyString !! r) as [s|] eqn:Hs; [|discriminate Hx].
    injection Hx as Hx.
    destruct (Hrec r s) as (s' & Hs' & _ & _ & _ & Hfloor); [|exact Hs|].
    { apply (elem_of_seq 0 3 r). lia. }
    destruct Hfloor as (t & Ht & Hb & Hne); [lia|lia|].
    change (Z.max (11 * 50 / 10) (50 + 20)) with 70 in Hb, Hne.
    rewrite Hx, Hdiv in Hb, Hne.
    rewrite Hs'. cbn [fmap option_fmap option_map]. f_equal.
    rewrite Ht.
    destruct (Z.eq_dec ((x * 70) mod 105) 0) as [H0|H0];
      [specialize (Hexact H0)|specialize (Hne H0)]; lia. }
  unfold loads_of. cbn [map].
  rewrite (Hat 0%nat 30 20), (Hat 1%nat 35 23), (Hat 2%nat 40 26);
    first [reflexivity | lia | (intros; lia) | (intros H; discriminate H) | idtac].
Defined.

Lemma ai_failure_falls_back_witness :
  (generate_sessions_ai unconfigured "Boxing" "Novice" 3 0 EmptyString 0%nat).1 = None
  /\ (p ← (generate_week_plan unconfigured "Boxing" "Novice" 3 0 EmptyString 0%nat).1;
      Ok (plan_days p.1 p.2, loads_of p.1 p.2))
     = Ok ([Some "Tue"; Some "Thu"; Some "Sat"], [Some 30; Some 35; Some 40])
  /\ (generate_week_plan unconfigured "Boxing" "Novice" 3 0 EmptyString 0%nat).2 = 0%nat.
Proof.
  destruct (ai_failure_falls_back unconfigured "Boxing" "Novice" 3 0 EmptyString 0%nat)
    as (Hnone & Hplan & Hworld & _); [left; reflexivity|].
  split; [exact Hnone|]. split; [|apply Hworld; reflexivity].
  rewrite Hplan. vm_compute. reflexivity.
Defined.

Lemma ai_days_distinct_witness :
  exists st sessions,
    (generate_sessions_ai loose_days_services "Boxing" "Novice" 5 0 EmptyString 0%nat).1
      = Some (st, sessions)
    /\ day <$> st = ["Sun"; "Mon"; "Tue"; "Wed"; "Thu"]
    /\ plan_days st sessions = [Some "Mon"; Some "Tue"; Some "Wed"; Some "Thu"; Some "Sun"]
    /\ NoDup (plan_days st sessions).
Proof.
  do 2 eexists. split; [vm_compute; reflexivity|]. split; [reflexivity|].
  split; [reflexivity|].
  refine (proj1 (ai_days_distinct loose_days_services "Boxing" "Novice" 5 0 EmptyString
                   0%nat _ _ _ _)); [lia|vm_compute; reflexivity].
Defined.

Lemma ai_fields_sanitized_witness :
  exists s used',
    sanitize_item demo_services "Boxing" EmptyString
      (PyDict [("day", PyStr "Sun"); ("intensity", PyStr "hard");
               ("duration_min", PyInt 90)]) ∅ = Ok (s, used')
    /\ 20 <= duration_min s <= 60
    /\ load_units s = 180.
Proof.
  do 2 eexists. split; [vm_compute; reflexivity|].
  lazymatch goal with
  | |- context [duration_min ?s] =>
      destruct (ai_fields_sanitized demo_services "Boxing" EmptyString
                  (PyDict [("day", PyStr "Sun"); ("intensity", PyStr "hard");
                           ("duration_min", PyInt 90)]) ∅ s ({["Sun"]} ∪ ∅))
        as (rd & d & ri & t & _ & _ & _ & Hb & _); [vm_compute; reflexivity|]
  end.
  split; [exact Hb|reflexivity].
Defined.

Lemma guardrail_frame_witness :
  exists st',
    apply_weekly_load_guardrail (novice_templates EmptyString) [0; 1; 2]%nat 200
      = Ok (st', [0; 1; 2]%nat)
    /\ length st' = 3%nat
    /\ view st' [0; 1; 2]%nat !! 1%nat = view (novice_templates EmptyString) [0; 1; 2]%nat !! 1%nat
    /\ view st' [0; 1; 2]%nat !! 2%nat = view (novice_templates EmptyString) [0; 1; 2]%nat !! 2%nat
    /\ loads_of st' [0; 1; 2]%nat = [Some 30; Some 35; Some 40].
Proof.
  destruct (guardrail_frame (novice_templates EmptyString) [0; 1; 2]%nat 200)
    as (_ & Htotal & Hframe).
  destruct Htotal as (st' & Hrun); [discriminate| |lia|].
  { repeat (constructor; [eexists; split; [reflexivity|split; [reflexivity|exact I]]|]).
    constructor. }
  exists st'. split; [exact Hrun|].
  destruct (Hframe st' _ Hrun) as (_ & Hlen & _ & Hwithin).
  split; [exact Hlen|].
  destruct (Hwithin ltac:(lia) 105 220) as (r0 & s0 & notes' & _ & _ & _ & _ & Hst & _ & _ & _ & Hnd);
    [reflexivity|vm_compute; reflexivity|lia|].
  assert (Hdistinct : NoDup [0; 1; 2]%nat).
  { repeat (constructor; [intros Hin; repeat (apply elem_of_cons in Hin as [Hin|Hin]; [discriminate Hin|]); by apply elem_of_nil in Hin|]). constructor. }
  split; [apply (Hnd Hdistinct); lia|]. split; [apply (Hnd Hdistinct); lia|].
  vm_compute in Hrun. injection Hrun as <-. reflexivity.
Defined.

Lemma boxing_padding_witness :
  3 < 5
  /\ generate_boxing_sessions_template "Novice" 5 EmptyString
     = Ok (novice_templates EmptyString, [0; 0; 0; 1; 2]%nat).
Proof. split; [lia|]. exact (proj1 (boxing_padding "Novice" 5 EmptyString ltac:(lia))). Defined.

Lemma boxing_prefix_witness :
  2 <= 3
  /\ exists k : nat,
       generate_boxing_sessions_template "Novice" 2 EmptyString
         = Ok (boxing_templates "Novice" EmptyString, seq 0 k)
       /\ Z.of_nat k = 2.
Proof.
  split; [lia|].
  destruct (boxing_prefix "Novice" 2 EmptyString) as (k & Hgen & _ & Hk & _); [lia|].
  exists k. split; [exact Hgen|]. apply Hk. lia.
Defined.

Lemma generic_template_unsorted_witness :
  5 <= 5
  /\ exists st sessions,
       generate_generic_sessions_template "Running" "Novice" 5 EmptyString
         = Ok (st, sessions)
       /\ ~ sorted_by (session_key st) sessions.
Proof.
  split; [lia|].
  destruct (generic_template_unsorted "Running" "Novice" 5 EmptyString)
    as (st & sessions & Hgen & _ & _ & _ & _ & _ & Hns); [lia|].
  exists st, sessions. split; [exact Hgen|exact Hns].
Defined.

Lemma guardrail_returns_witness :
  apply_weekly_load_guardrail [] [] 0 = Ok ([], [])
  /\ exists st',
       apply_weekly_load_guardrail (novice_templates EmptyString) [0; 1; 2]%nat 50
         = Ok (st', [0; 1; 2]%nat).
Proof.
  split.
  - apply (proj1 (guardrail_returns [] [] 0)). lia.
  - apply (proj1 (proj2 (guardrail_returns (novice_templates EmptyString)
                           [0; 1; 2]%nat 50))); [discriminate| |lia].
    repeat (constructor; [eexists; split; [reflexivity|split; [reflexivity|exact I]]|]).
    constructor.
Defined.

Lemma padding_shares_record_witness :
  exists st' t0' x1,
    apply_weekly_load_guardrail (intermediate_templates EmptyString)
      [0; 0; 1; 2]%nat 150 = Ok (st', [0; 0; 1; 2]%nat)
    /\ st' !! 0%nat = Some t0'
    /\ view st' [0; 0; 1; 2]%nat !! 1%nat = Some (Some t0')
    /\ x1 = 42 /\ load_units t0' = 32 /\ load_units t0' < x1.
Proof.
  destruct (padding_shares_record "Intermediate" 4 EmptyString 150
              (intermediate_templates EmptyString) [0; 0; 1; 2]%nat 220)
    as (_ & _ & f & st' & t0 & t0' & text & xs & x1 & _ & Hrun & Ht0 & _ & Ht0'
        & _ & Hx0 & Hx1 & _ & Hstep & _ & Hview & _ & Hlt & _);
    [lia|lia|reflexivity|reflexivity|reflexivity|lia|].
  injection Ht0 as <-.
  destruct (Hstep 0%nat _ _ Hx0 Hx1) as (t & _ & Hx1t & _ & Hex).
  assert (Ht : t = 42) by (apply Hex; vm_compute; discriminate).
  assert (Hx42 : x1 = 42) by (rewrite Hx1t, Ht; reflexivity).
  assert (Hrun' : apply_weekly_load_guardrail (intermediate_templates EmptyString)
                    [0; 0; 1; 2]%nat 150 = Ok (st', [0; 0; 1; 2]%nat)) by exact Hrun.
  vm_compute in Hrun. injection Hrun as <-.
  injection Ht0' as <-.
  eexists _, _, x1. split; [exact Hrun'|]. split; [reflexivity|].
  split; [reflexivity|]. split; [exact Hx42|]. split; [reflexivity|].
  rewrite Hx42. reflexivity.
Defined.

(** The rest of the pipeline at the failing inputs, and the worked examples
    of the specification. *)
Example week_plan_empty_raises :
  (generate_week_plan unconfigured "Boxing" "Novice" 0 10 EmptyString 0%nat).1
    = Raise IndexError.
Proof. vm_compute. reflexivity. Qed.

Example failed_request_is_not_retried :
  let run svc :=
    let r := generate_week_plan svc "Boxing" "Novice" 3 0 EmptyString 0%nat in
    (p ← r.1; Ok (plan_days p.1 p.2, loads_of p.1 p.2), r.2) in
  let template :=
    Ok ([Some "Tue"; Some "Thu"; Some "Sat"], [Some 30; Some 35; Some 40]) in
  run failing_services = (template, 1%nat)
  /\ run garbled_services = (template, 1%nat)
  /\ run unconfigured = (template, 0%nat).
Proof. split; [|split]; vm_compute; reflexivity. Qed.

Example week_plan_generic_five :
  (p ← (generate_week_plan unconfigured "Running" "Novice" 5 0 EmptyString 0%nat).1;
   Ok (plan_days p.1 p.2))
  = Ok [Some "Mon"; Some "Wed"; Some "Fri"; Some "Sun"; Some "Tue"].
Proof. vm_compute. reflexivity. Qed.

Example compounding_example :
  guardrail_loads (intermediate_templates EmptyString) [0; 0; 1; 2]%nat 150
    = Ok [Some 32; Some 32; Some 38; Some 46]
  /\ (f ← int_truediv 170 220; scaled_load f 55) = Ok 42.
Proof. split; vm_compute; reflexivity. Qed.

Example exact_quotient_undershoots :
  (f ← int_truediv 2100 102900; scaled_load f 4900) = Ok 99
  /\ 4900 * 2100 / 102900 = 100.
Proof. split; vm_compute; reflexivity. Qed.

Example week_plan_padded_novice :
  (p ← (generate_week_plan unconfigured "Boxing" "Novice" 5 50 EmptyString 0%nat).1;
   Ok (plan_days p.1 p.2, loads_of p.1 p.2))
  = Ok ([Some "Tue"; Some "Tue"; Some "Tue"; Some "Thu"; Some "Sat"],
        [Some 20; Some 20; Some 20; Some 20; Some 20]).
Proof. vm_compute. reflexivity. Qed.

Example literals_are_nearest_doubles :
  round_rat 11 10 = lit_1_10 /\ round_rat 8 10 = lit_0_8.
Proof. split; vm_compute; reflexivity. Qed.

Example arithmetic_agrees_with_SpecFloat :
  forallb (fun a => forallb (agrees_div a) (seqZ 1 40 ++ seqZ (-5) 5)) (seqZ (-20) 80)
    = true
  /\ forallb (fun x => forallb (fun ab : Z * Z => agrees_mul x ab.1 ab.2)
                 [(70, 105); (170, 220); (1, 3); (21, 1029); (120, 200);
                  (999, 1000); (1, 49); (2100, 102900)])
        (seqZ (-20) 220) = true
  /\ forallb (fun m => forallb (agrees_round m)
                 (seqZ (-1080) 12 ++ seqZ (-60) 10 ++ seqZ 960 20))
        (seqZ (-9) 18
           ++ [2 ^ 53 - 1; 2 ^ 53; 2 ^ 53 + 1; 2 ^ 54 + 2; 2 ^ 54 + 6; 2 ^ 64 - 1]) = true.
Proof.
  split; [vm_compute; reflexivity|].
  split; vm_compute; reflexivity.
Qed.

(** ** Instances of the further properties *)

Lemma week_plan_returns_witness :
  exists st sessions,
    (generate_week_plan unconfigured "Running" "Novice" 5 0 EmptyString 0%nat).1
      = Ok (st, sessions)
    /\ Z.of_nat (length sessions) = 5.
Proof.
  destruct (week_plan_returns unconfigured "Running" "Novice" 5 0 EmptyString 0%nat)
    as (st & sessions & Hrun & _ & _ & Hlen & _); [lia|lia|].
  exists st, sessions. split; [exact Hrun|]. apply Hlen. reflexivity.
Defined.

Lemma week_plan_sorted_witness :
  exists st sessions,
    (generate_week_plan unconfigured "Boxing" "Novice" 5 50 EmptyString 0%nat).1
      = Ok (st, sessions)
    /\ sorted_by (session_key st) sessions.
Proof.
  assert (H : exists p,
            (generate_week_plan unconfigured "Boxing" "Novice" 5 50 EmptyString 0%nat).1
              = Ok p) by (eexists; vm_compute; reflexivity).
  destruct H as ([st sessions] & H). exists st, sessions. split; [exact H|].
  apply (week_plan_sorted unconfigured "Boxing" "Novice" 5 50 EmptyString 0%nat
           st sessions H).
  left. reflexivity.
Defined.

Lemma week_plan_requests_once_witness :
  (generate_week_plan demo_services "Boxing" "Novice" 3 0 EmptyString 0%nat).2 = 1%nat.
Proof.
  destruct (week_plan_requests_once demo_services "Boxing" "Novice" 3 0 EmptyString 0%nat)
    as (target & _ & Hw); [reflexivity|lia|].
  rewrite Hw. reflexivity.
Defined.

Lemma novice_loads_small r s :
  r ∈ [0; 1; 2]%nat -> novice_templates EmptyString !! r = Some s ->
  0 <= load_units s < 2 ^ 20.
Proof.
  intros Hr Hs.
  repeat (apply elem_of_cons in Hr as [->|Hr];
          [injection Hs as <-; cbn [load_units]; lia|]).
  by apply elem_of_nil in Hr.
Qed.

Lemma novice_refs_ok : ok_refs (novice_templates EmptyString) [0; 1; 2]%nat.
Proof.
  repeat (constructor; [eexists; split; [reflexivity|split; [reflexivity|exact I]]|]).
  constructor.
Qed.

Lemma guardrail_total_bound_witness :
  exists st' ct',
    apply_weekly_load_guardrail (novice_templates EmptyString) [0; 1; 2]%nat 1
      = Ok (st', [0; 1; 2]%nat)
    /\ sum_load_units st' [0; 1; 2]%nat = Ok ct'
    /\ ct' <= 21 + 20 * Z.of_nat (at_floor st' [0; 1; 2]%nat).
Proof.
  destruct (guardrail_total_bound (novice_templates EmptyString) [0; 1; 2]%nat 1 105)
    as (st' & ct' & Hrun & Hsum & Hle & _);
    [apply (NoDup_seq 0 3)|exact novice_refs_ok|lia|reflexivity|reflexivity|lia
    |exact novice_loads_small|].
  exists st', ct'. split; [exact Hrun|]. split; [exact Hsum|exact Hle].
Defined.

Lemma guardrail_keeps_load_order_witness :
  exists st',
    apply_weekly_load_guardrail (novice_templates EmptyString) [0; 1; 2]%nat 50
      = Ok (st', [0; 1; 2]%nat)
    /\ forall s1' s2',
         st' !! 0%nat = Some s1' -> st' !! 2%nat = Some s2' ->
         load_units s1' <= load_units s2'.
Proof.
  destruct (guardrail_keeps_load_order (novice_templates EmptyString) [0; 1; 2]%nat 50 105)
    as (st' & Hrun & Hord);
    [apply (NoDup_seq 0 3)|exact novice_refs_ok|lia|reflexivity|reflexivity|lia
    |exact novice_loads_small|].
  exists st'. split; [exact Hrun|]. intros s1' s2' H1 H2.
  eapply (Hord 0%nat 2%nat); [| |reflexivity|reflexivity|exact H1|exact H2|cbn; lia].
  - apply (elem_of_seq 0 3 0). lia.
  - apply (elem_of_seq 0 3 2). lia.
Defined.

Lemma minutes_target_spec_witness :
  total_minutes_target "Novice" 3 150 = Ok 120.
Proof. destruct (minutes_target_spec "Novice" 3 150) as [H _]; [lia|exact H]. Defined.

Lemma ai_plan_shape_witness :
  exists st sessions,
    (generate_sessions_ai demo_services "Boxing" "Novice" 3 0 EmptyString 0%nat).1
      = Some (st, sessions)
    /\ length st = 3%nat /\ sorted_by (session_key st) sessions.
Proof.
  assert (H : exists p,
            (generate_sessions_ai demo_services "Boxing" "Novice" 3 0 EmptyString 0%nat).1
              = Some p) by (eexists; vm_compute; reflexivity).
  destruct H as ([st sessions] & H). exists st, sessions. split; [exact H|].
  destruct (ai_plan_shape demo_services "Boxing" "Novice" 3 0 EmptyString 0%nat
              st sessions H) as (Hperm & _ & Hsorted & _).
  split; [|exact Hsorted].
  apply Permutation_length in Hperm. rewrite length_seq in Hperm.
  rewrite <- Hperm. clear Hperm Hsorted. vm_compute in H. by injection H as <- <-.
Defined.

Lemma ai_keeps_distinct_days_witness :
  exists st,
    sanitize_loop demo_services "Boxing" EmptyString 5 tidy_items [] ∅ = Ok st
    /\ day <$> st = ["Wed"; "Mon"].
Proof.
  assert (H : exists st,
            sanitize_loop demo_services "Boxing" EmptyString 5 tidy_items [] ∅ = Ok st)
    by (eexists; vm_compute; reflexivity).
  destruct H as (st & H). exists st. split; [exact H|].
  rewrite (ai_keeps_distinct_days demo_services "Boxing" EmptyString 5 tidy_items
             ["Wed"; "Mon"] st).
  - vm_compute in H. by injection H as <-.
  - repeat (constructor; [reflexivity|]). constructor.
  - repeat (constructor;
            [apply (bool_decide_unpack _); vm_compute; exact I|]). constructor.
  - apply (bool_decide_unpack _). vm_compute. exact I.
  - exact H.
Defined.

Lemma form_week_ok :
  form_week <> [] /\ Forall (fun e => 0 <= e.2 <= 10) form_week
  /\ Z.of_nat (length form_week) <= 2 ^ 40.
Proof.
  split; [discriminate|]. split; [|cbn; lia].
  repeat (constructor; [cbn; lia|]). constructor.
Qed.

Lemma adherence_advice_exact_witness :
  exists percent avg,
    analyse_adherence_and_rpe (map form_entry form_week) =
      Ok (Some (join " " [ adherence_sentence 2 3 percent;
                           effort_sentence avg; advice_steady ])).
Proof.
  destruct form_week_ok as (Hne & Hall & Hlen).
  destruct (adherence_advice_exact form_week Hne Hall Hlen)
    as (percent & [(Hk & _)|(_ & avg & Hrun)]); [discriminate Hk|].
  exists percent, avg. exact Hrun.
Defined.

Lemma adherence_numbers_accurate_witness :
  exists percent p,
    format_fixed 0 percent = str_of_int p /\ 2 * Z.abs (100 * 2 - p * 3) <= 3.
Proof.
  destruct form_week_ok as (Hne & Hall & Hlen).
  destruct (adherence_numbers_accurate form_week Hne Hall Hlen)
    as (percent & p & Hp & _ & Hacc & _).
  exists percent, p. split; [exact Hp|exact Hacc].
Defined.

Lemma coaching_message_spec_witness :
  generate_coaching_message (echo_client "  Keep it steady.  ") plain_repr []
    "Boxing" "Novice" true 0%nat = ("Keep it steady.", 1%nat).
Proof.
  destruct (coaching_message_spec (echo_client "  Keep it steady.  ") plain_repr []
              "Boxing" "Novice" true 0%nat) as (_ & _ & H).
  destruct H as (Hw & Hc & _); [reflexivity|reflexivity|].
  destruct (Hc "  Keep it steady.  " eq_refl) as (Hs & _).
  rewrite (surjective_pairing (generate_coaching_message _ _ _ _ _ _ _)).
  rewrite Hw, Hs; [reflexivity|].
  intros H. vm_compute in H. discriminate H.
Defined.

Lemma answer_question_spec_witness :
  (answer_user_question offline_client plain_repr [] "What is RPE?" 0%nat).1
    = Ok reply_rpe
  /\ answer_user_question (echo_client " Rest matters. ") plain_repr
       [("plan_sessions", PyNone); ("plan_meta", PyDict [])] "Why rest?" 0%nat
     = (Ok "Rest matters.", 1%nat).
Proof.
  split.
  - destruct (answer_question_spec offline_client plain_repr [] "What is RPE?" 0%nat)
      as (text & sport & level & Hr & _ & _ & _ & Hoff & _); [left; reflexivity|].
    rewrite Hr. destruct Hoff as (-> & _); [discriminate| |reflexivity|reflexivity].
    intros H. vm_compute in H. discriminate H.
  - destruct (answer_question_spec (echo_client " Rest matters. ") plain_repr
                [("plan_sessions", PyNone); ("plan_meta", PyDict [])] "Why rest?" 0%nat)
      as (text & sport & level & Hr & Hsp & Hlv & _ & _ & Hon & Hctx);
      [right; eexists; reflexivity|].
    injection Hsp as <-. injection Hlv as <-.
    destruct Hctx as (session_text & Hctx); [right; left; reflexivity|].
    destruct Hon as (_ & Hreq); [discriminate| |reflexivity|].
    { intros H. vm_compute in H. discriminate H. }
    destruct (Hreq _ Hctx) as (Hw & Hc & _).
    rewrite (surjective_pairing (answer_user_question _ _ _ _ _)).
    rewrite Hr, Hw, (Hc " Rest matters. " eq_refl). reflexivity.
Defined.

(** What the further properties leave open, on examples: the floor of 20
    can carry the scaled total above the allowed maximum; an untagged fence
    loses the first "json" of the object itself; the keywords of the canned
    replies are found inside other words; a blank response gives the
    fallback message. *)
Example guardrail_can_exceed_target :
  allowed_max_of 1 = Ok 21
  /\ guardrail_loads (novice_templates EmptyString) [0; 1; 2]%nat 1
       = Ok [Some 20; Some 20; Some 20].
Proof. split; vm_compute; reflexivity. Qed.

Example untagged_fence_loses_word :
  strip_fence
    (fenced EmptyString
       (concat_str ["{"; dquote; "format"; dquote; ": "; dquote; "json"; dquote; "}"]))
  = concat_str ["{"; dquote; "format"; dquote; ": "; dquote; dquote; "}"].
Proof. vm_compute. reflexivity. Qed.

Example offline_reply_matches_inside_words :
  offline_reply "Can I download my plan?" = reply_load
  /\ offline_reply "Is the carpet fine?" = reply_rpe
  /\ offline_reply "IS IT SAFE?" = reply_safety
  /\ offline_reply "Why a rest day?" = reply_general.
Proof. split; [|split; [|split]]; vm_compute; reflexivity. Qed.

Example blank_response_gives_fallback :
  generate_coaching_message (echo_client "   ") plain_repr [] "Boxing" "Novice" true 0%nat
    = (coaching_fallback, 1%nat)
  /\ generate_coaching_message offline_client plain_repr [] "Boxing" "Novice" true 0%nat
    = (coaching_fallback, 0%nat)
  /\ (answer_user_question (echo_client "   ") plain_repr [] "   " 0%nat)
    = (Ok question_prompt, 0%nat).
Proof. split; [|split]; vm_compute; reflexivity. Qed.

Example adherence_summary_example :
  analyse_adherence_and_rpe
    (map form_entry [(true, 2); (true, 3); (true, 3); (true, 1); (false, 0); (true, 1)])
  = Ok (Some (concat_str
      [ "You completed 5 of 6 sessions (83% adherence).";
        "  Average effort on completed sessions was about 2.0/10.";
        "  Effort scores are low and consistency is good. A small progression ";
        "next week may be reasonable if everything feels comfortable." ]))
  /\ analyse_adherence_and_rpe [] = Ok None
  /\ analyse_adherence_and_rpe [PyInt 3] = Raise AttributeError.
Proof. split; [|split]; vm_compute; reflexivity. Qed.

Example literal_0_7_is_nearest_double : round_rat 7 10 = lit_0_7.
Proof. vm_compute. reflexivity. Qed.
